(** * FRIDAY assistant core: a shallow embedding of [friday_core.py]

    The development follows the class [FridayCore].  A Python [str] is a
    [string]; the conversation buffer, a [collections.deque] with [maxlen],
    is the list of its items; a message, like every value that comes out of
    [json.load] or out of the inference server, is a [pyval].  A method is a
    function from the engine and the outside world to a result, the engine
    and the world; the result is a value or a raised exception, and the
    world records what the method printed, said and requested.

    What Python's libraries do to values ([str()] of a value that is no
    string, [json.dump] and [json.load]) is a parameter of the engine; a
    reference instance, with a JSON writer and reader of its own, serves for
    the examples.  Definitions come first, then the properties. *)

From Stdlib Require Import ZArith QArith_base String Ascii List Bool Lia.
From Stdlib Require Import Decimal DecimalFacts DecimalPos DecimalString.
From stdpp Require Import base list strings gmap.

Local Open Scope nat_scope.
#[local] Set Warnings "-register-all".

(** * Python [str]

    A [str] is a [string] whose characters are the code points below 256. *)

Definition nl : string := String (ascii_of_nat 10) EmptyString.

(** [bool(text)]: a string is truthy when it is not empty. *)
Definition str_truthy (s : string) : bool :=
  match s with
  | EmptyString => false
  | String _ _ => true
  end.

(** [c.isspace()] on the code points below 256. *)
Definition is_space (c : ascii) : bool :=
  let n := nat_of_ascii c in
  ((9 <=? n) && (n <=? 13)) || ((28 <=? n) && (n <=? 32))
  || (n =? 133) || (n =? 160).

(** [c.lower()] on the code points below 256. *)
Definition lower_char (c : ascii) : ascii :=
  let n := nat_of_ascii c in
  if ((65 <=? n) && (n <=? 90))
     || ((192 <=? n) && (n <=? 222) && negb (n =? 215))
  then ascii_of_nat (n + 32)
  else c.

(** [s.lower()] *)
Fixpoint str_lower (s : string) : string :=
  match s with
  | EmptyString => EmptyString
  | String c rest => String (lower_char c) (str_lower rest)
  end.

(** [s[n:]] *)
Fixpoint str_skip (n : nat) (s : string) : string :=
  match n, s with
  | O, _ => s
  | S k, String _ rest => str_skip k rest
  | S _, EmptyString => EmptyString
  end.

(** [s.startswith(p)] *)
Fixpoint starts_with (p s : string) : bool :=
  match p, s with
  | EmptyString, _ => true
  | String _ _, EmptyString => false
  | String a p', String b s' => Ascii.eqb a b && starts_with p' s'
  end.

(** [sub in s] *)
Fixpoint str_in (sub s : string) : bool :=
  starts_with sub s ||
  match s with
  | EmptyString => false
  | String _ rest => str_in sub rest
  end.

(** [s.replace(old, new)] for a non-empty [old]: scan from the left; at an
    occurrence of [old] emit [new] and skip the occurrence ([skip] counts
    the characters of it still to drop). *)
Fixpoint replace_from (old new : string) (skip : nat) (s : string) : string :=
  match s with
  | EmptyString => EmptyString
  | String c rest =>
      match skip with
      | S k => replace_from old new k rest
      | O =>
          if starts_with old s
          then new +:+ replace_from old new (String.length old - 1) rest
          else String c (replace_from old new 0 rest)
      end
  end.

(** [s.replace(old, new)] for the empty [old]: [new] before every character
    and at the end. *)
Fixpoint replace_empty (new s : string) : string :=
  match s with
  | EmptyString => new
  | String c rest => new +:+ String c (replace_empty new rest)
  end.

(** [s.replace(old, new)]: every non-overlapping occurrence, left to right. *)
Definition str_replace (old new s : string) : string :=
  match old with
  | EmptyString => replace_empty new s
  | String _ _ => replace_from old new 0 s
  end.

Fixpoint str_lstrip (s : string) : string :=
  match s with
  | EmptyString => EmptyString
  | String c rest => if is_space c then str_lstrip rest else s
  end.

Fixpoint str_rstrip (s : string) : string :=
  match s with
  | EmptyString => EmptyString
  | String c rest =>
      match str_rstrip rest with
      | EmptyString => if is_space c then EmptyString else String c EmptyString
      | r => String c r
      end
  end.

(** [s.strip()] *)
Definition str_strip (s : string) : string := str_rstrip (str_lstrip s).

(** * [collections.deque(maxlen=n)]

    The deque is the list of its items, oldest first. *)

(** [d.append(x)]: the item goes to the right end; when the deque is then
    longer than [maxlen], the leftmost item is popped. *)
Definition deque_append {A} (maxlen : nat) (d : list A) (x : A) : list A :=
  let d' := d ++ [x] in
  if maxlen <? length d' then drop 1 d' else d'.

(** [d.clear()] *)
Definition deque_clear {A} (d : list A) : list A := [].

(** Appending the items of [xs] one after the other. *)
Definition deque_extend {A} (maxlen : nat) (d : list A) (xs : list A) : list A :=
  fold_left (deque_append maxlen) xs d.

(** The last [n] items of a list. *)
Definition last_n {A} (n : nat) (l : list A) : list A :=
  drop (length l - n) l.

(** * Python values, exceptions and the outside world *)

(** The [Exception] classes the engine can meet.  [RequestException]
    stands for [requests.exceptions.RequestException] and its subclasses
    (connection errors, timeouts), [SpeechRequestError] for
    [sr.RequestError].  What is no [Exception] ([KeyboardInterrupt],
    [SystemExit]) is not modelled. *)
Inductive exn : Type :=
| KeyError (key : string)
| TypeError
| AttributeError
| OSError
| JSONDecodeError
| RequestException
| SpeechRequestError
| OtherException (class_name : string).

Definition is_RequestException (e : exn) : bool :=
  match e with
  | RequestException => true
  | _ => false
  end.

Definition is_SpeechRequestError (e : exn) : bool :=
  match e with
  | SpeechRequestError => true
  | _ => false
  end.

(** The result of evaluating a Python expression. *)
Inductive outcome (A : Type) : Type :=
| Ok (a : A)
| Raise (e : exn).
Arguments Ok {A} a.
Arguments Raise {A} e.

Section Engine.

(** JSON numbers ([int] and [float]) are never inspected by the engine. *)
Context {number : Type}.

(** The values [json.load] produces, which are also the values a message
    of the conversation buffer, a reply of the model and a spoken text can
    hold.  A [dict] is the list of its items in insertion order. *)
Inductive pyval : Type :=
| PNone
| PBool (b : bool)
| PNum (n : number)
| PStr (s : string)
| PList (items : list pyval)
| PDict (items : list (string * pyval)).

(** [str(v)] of a value that is not a [str], as an f-string renders it. *)
Variable py_repr : pyval -> string.

(** [json.dumps(v, indent=2)] and [json.loads(text)]; [None] stands for a
    text the decoder rejects. *)
Variable json_dumps : pyval -> string.
Variable json_loads : string -> option pyval.

(** The text an f-string substitutes for [{v}]. *)
Definition py_str (v : pyval) : string :=
  match v with
  | PStr s => s
  | _ => py_repr v
  end.

(** [d.get(key)] on the items of a [dict]. *)
Fixpoint dict_get (key : string) (d : list (string * pyval)) : option pyval :=
  match d with
  | [] => None
  | (k, v) :: rest => if String.eqb k key then Some v else dict_get key rest
  end.

(** [v == s] for a [str] literal [s]. *)
Definition eq_str (v : pyval) (s : string) : bool :=
  match v with
  | PStr t => String.eqb t s
  | _ => false
  end.

(** [v[key]] *)
Definition getitem (v : pyval) (key : string) : outcome pyval :=
  match v with
  | PDict d =>
      match dict_get key d with
      | Some x => Ok x
      | None => Raise (KeyError key)
      end
  | _ => Raise TypeError
  end.

(** The items a [for] loop over [v] visits: the elements of a list, the
    keys of a dict, the characters of a string. *)
Fixpoint str_chars (s : string) : list pyval :=
  match s with
  | EmptyString => []
  | String c rest => PStr (String c EmptyString) :: str_chars rest
  end.

Definition py_iter (v : pyval) : outcome (list pyval) :=
  match v with
  | PList items => Ok items
  | PDict items => Ok (map (fun kv => PStr (fst kv)) items)
  | PStr s => Ok (str_chars s)
  | _ => Raise TypeError
  end.

(** The request body of [query_llm]. *)
Record gen_options : Type := {
  temperature : Q;
  top_p : Q;
  top_k : Z;
  num_predict : Z
}.

Record ollama_request : Type := {
  model : string;
  prompt : string;
  stream : bool;
  options : gen_options
}.

(** What [requests.post] gives back: [response.status_code] and the
    result of [response.json()]. *)
Record response : Type := {
  status_code : Z;
  json : outcome pyval
}.

(** [datetime.now()], as far as [strftime("%I:%M %p")] reads it. *)
Record datetime : Type := {
  hour : nat;
  minute : nat
}.

Definition digit (n : nat) : ascii := ascii_of_nat (48 + n mod 10).

Definition two_digits (n : nat) : string :=
  String (digit (n / 10)) (String (digit n) EmptyString).

(** [t.strftime("%I:%M %p")] *)
Definition strftime_IMp (t : datetime) : string :=
  let h12 := if hour t mod 12 =? 0 then 12 else hour t mod 12 in
  two_digits h12 +:+ ":" +:+ two_digits (minute t) +:+ " "
  +:+ (if hour t <? 12 then "AM" else "PM").

(** What the engine does to the outside, in the order it does it. *)
Inductive event : Type :=
| Print (line : string)
| PrintExn (prefix : string) (e : exn)
| EngineSay (text : pyval)
| EngineRunAndWait
| EnterQueryLLM (prompt : string)
| RequestsPost (url : string) (data : ollama_request).

(** A path of the file system. *)
Inductive fs_node : Type :=
| Directory
| File (readable writable : bool) (data : string).

(** The outside world: what was done so far ([trace]), the files, and the
    answers of the clock and of the inference server, which may change
    from one question ([tick]) to the next.  A write to a file that was
    opened can fail half way: [fs_short_write path data] is then [Some kept],
    with [kept] what the file holds after the failure. *)
Record World : Type := {
  trace : list event;
  fs : gmap string fs_node;
  fs_can_create : string -> bool;
  fs_short_write : string -> string -> option string;
  tick : nat;
  clock : nat -> datetime;
  server : nat -> ollama_request -> outcome response
}.

Definition emit_world (e : event) (w : World) : World :=
  {| trace := trace w ++ [e]; fs := fs w; fs_can_create := fs_can_create w;
     fs_short_write := fs_short_write w;
     tick := tick w; clock := clock w; server := server w |}.

Definition tick_world (w : World) : World :=
  {| trace := trace w; fs := fs w; fs_can_create := fs_can_create w;
     fs_short_write := fs_short_write w;
     tick := S (tick w); clock := clock w; server := server w |}.

Definition set_fs (m : gmap string fs_node) (w : World) : World :=
  {| trace := trace w; fs := m; fs_can_create := fs_can_create w;
     fs_short_write := fs_short_write w;
     tick := tick w; clock := clock w; server := server w |}.

(** * The engine *)

(** The attributes of a [FridayCore] the methods read and write. *)
Record FridayCore : Type := {
  name : string;
  wake_word : string;
  is_listening : bool;
  should_stop : bool;
  privacy_mode : bool;
  max_context_length : nat;
  conversation_history : list pyval
}.

Definition set_conversation_history (h : list pyval) (c : FridayCore) : FridayCore :=
  {| name := name c; wake_word := wake_word c; is_listening := is_listening c;
     should_stop := should_stop c; privacy_mode := privacy_mode c;
     max_context_length := max_context_length c; conversation_history := h |}.

Definition set_privacy_mode (b : bool) (c : FridayCore) : FridayCore :=
  {| name := name c; wake_word := wake_word c; is_listening := is_listening c;
     should_stop := should_stop c; privacy_mode := b;
     max_context_length := max_context_length c;
     conversation_history := conversation_history c |}.

Definition set_should_stop (b : bool) (c : FridayCore) : FridayCore :=
  {| name := name c; wake_word := wake_word c; is_listening := is_listening c;
     should_stop := b; privacy_mode := privacy_mode c;
     max_context_length := max_context_length c;
     conversation_history := conversation_history c |}.

(** The attributes [__init__] sets. *)
Definition FridayCore_init (wake_word : string) (max_context_length : nat) : FridayCore :=
  {| name := "FRIDAY"; wake_word := str_lower wake_word; is_listening := false;
     should_stop := false; privacy_mode := false;
     max_context_length := max_context_length; conversation_history := [] |}.

Definition model_name : string := "deepseek-r1:1.5b".
Definition ollama_url : string := "http://localhost:11434/api/generate".

(** ** Methods as state transformers that may raise *)

Definition M (A : Type) : Type :=
  FridayCore -> World -> outcome A * FridayCore * World.

Definition ret {A} (a : A) : M A := fun c w => (Ok a, c, w).

Definition bind {A B} (m : M A) (f : A -> M B) : M B :=
  fun c w =>
    match m c w with
    | (Ok a, c', w') => f a c' w'
    | (Raise e, c', w') => (Raise e, c', w')
    end.

Definition raise {A} (e : exn) : M A := fun c w => (Raise e, c, w).

(** [try: m  except Exception as e: h e] *)
Definition try_except {A} (m : M A) (h : exn -> M A) : M A :=
  fun c w =>
    match m c w with
    | (Ok a, c', w') => (Ok a, c', w')
    | (Raise e, c', w') => h e c' w'
    end.

Definition lift {A} (o : outcome A) : M A := fun c w => (o, c, w).

Definition self : M FridayCore := fun c w => (Ok c, c, w).

Definition update (f : FridayCore -> FridayCore) : M unit :=
  fun c w => (Ok tt, f c, w).

Definition emit (e : event) : M unit := fun c w => (Ok tt, c, emit_world e w).

Notation "x <- m ;; k" := (bind m (fun x => k))
  (at level 100, m at next level, right associativity).
Notation "m ;;; k" := (bind m (fun _ => k))
  (at level 100, right associativity).

(** [self.conversation_history.append(message)] *)
Definition history_append (message : pyval) : M unit :=
  update (fun c =>
    set_conversation_history
      (deque_append (max_context_length c) (conversation_history c) message) c).

(** [{"role": role, "content": content}] *)
Definition message (role : string) (content : pyval) : pyval :=
  PDict [("role", PStr role); ("content", content)].

(** [datetime.now()] *)
Definition datetime_now : M datetime :=
  fun c w => (Ok (clock w (tick w)), c, tick_world w).

(** [requests.post(url, json=data, timeout=30)] *)
Definition requests_post (url : string) (data : ollama_request) : M response :=
  fun c w =>
    (server w (tick w) data, c, tick_world (emit_world (RequestsPost url data) w)).

(** [os.path.exists(path)] *)
Definition os_path_exists (path : string) : M bool :=
  fun c w =>
    (Ok (match fs w !! path with Some _ => true | None => false end), c, w).

(** [with open(path, 'r') as f: f.read()] *)
Definition read_file (path : string) : M string :=
  fun c w =>
    match fs w !! path with
    | Some (File true _ data) => (Ok data, c, w)
    | _ => (Raise OSError, c, w)
    end.

(** [with open(path, 'w') as f: f.write(data)].  When the file cannot be
    opened nothing changes.  Once it is opened it is created or emptied, so
    a write that fails leaves the file with what was stored until then, not
    with its former text. *)
Definition write_file (path data : string) : M unit :=
  fun c w =>
    let write readable :=
      match fs_short_write w path data with
      | None => (Ok tt, c, set_fs (<[path := File readable true data]> (fs w)) w)
      | Some kept =>
          (Raise OSError, c, set_fs (<[path := File readable true kept]> (fs w)) w)
      end in
    match fs w !! path with
    | Some (File r true _) => write r
    | Some _ => (Raise OSError, c, w)
    | None =>
        if fs_can_create w path then write true else (Raise OSError, c, w)
    end.

Definition obind {A B} (o : outcome A) (f : A -> outcome B) : outcome B :=
  match o with
  | Ok a => f a
  | Raise e => Raise e
  end.

(** [str(z)] of an [int] *)
Definition str_of_Z (z : Z) : string :=
  DecimalString.NilEmpty.string_of_int (Z.to_int z).

(** ** [speak] *)

Definition speak (text : pyval) : M unit :=
  c <- self ;;
  if privacy_mode c then
    emit (Print ("[PRIVACY MODE] " +:+ name c +:+ " would say: " +:+ py_str text))
  else
    emit (Print (name c +:+ ": " +:+ py_str text)) ;;;
    emit (EngineSay text) ;;;
    emit EngineRunAndWait.

(** ** [query_llm] *)

Definition role_prefix (name : string) (role : pyval) : string :=
  if eq_str role "user" then "User: " else name +:+ ": ".

(** The first loop of [query_llm]: one line per message of the history. *)
Fixpoint render_context (name : string) (history : list pyval) (context : string)
  : outcome string :=
  match history with
  | [] => Ok context
  | message :: rest =>
      obind (getitem message "role") (fun role =>
      obind (getitem message "content") (fun content =>
      render_context name rest
        (context +:+ role_prefix name role +:+ py_str content +:+ nl)))
  end.

(** [any(message["content"] == prompt and message["role"] == "user"
         for message in self.conversation_history)] *)
Fixpoint any_user_turn (prompt : string) (history : list pyval) : outcome bool :=
  match history with
  | [] => Ok false
  | message :: rest =>
      obind (getitem message "content") (fun content =>
      if eq_str content prompt
      then obind (getitem message "role") (fun role =>
           if eq_str role "user" then Ok true else any_user_turn prompt rest)
      else any_user_turn prompt rest)
  end.

(** [result.get(key, default)] *)
Definition method_get (result : pyval) (key : string) (default : pyval) : outcome pyval :=
  match result with
  | PDict d =>
      match dict_get key d with
      | Some x => Ok x
      | None => Ok default
      end
  | _ => Raise AttributeError
  end.

Definition request_data (context : string) : ollama_request :=
  {| model := model_name;
     prompt := context;
     stream := false;
     options := {| temperature := (7 # 10)%Q; top_p := (9 # 10)%Q;
                   top_k := 40%Z; num_predict := 256%Z |} |}.

Definition llm_no_response : string := "I'm sorry, I couldn't process that request.".
Definition llm_bad_status : string := "I'm having trouble connecting to my brain right now.".
Definition llm_unreachable : string :=
  "I'm having trouble connecting to my language model. Is Ollama running?".
Definition llm_unexpected : string := "I encountered an unexpected error. Please try again.".

(** The body of the [try] block of [query_llm]. *)
Definition query_llm_body (prompt : string) : M pyval :=
  c <- self ;;
  context <- lift (render_context (name c) (conversation_history c) EmptyString) ;;
  seen <- lift (any_user_turn prompt (conversation_history c)) ;;
  let context :=
    if seen then context
    else context +:+ "User: " +:+ prompt +:+ nl +:+ name c +:+ ": " in
  response <- requests_post ollama_url (request_data context) ;;
  if (status_code response =? 200)%Z then
    result <- lift (json response) ;;
    lift (method_get result "response" (PStr llm_no_response))
  else
    emit (Print ("LLM request failed with status code: "
                 +:+ str_of_Z (status_code response))) ;;;
    ret (PStr llm_bad_status).

(** The event [EnterQueryLLM] marks the call in the trace, so that a trace
    tells whether the LLM bridge was entered; it is no output of the code. *)
Definition query_llm (prompt : string) : M pyval :=
  emit (EnterQueryLLM prompt) ;;;
  try_except (query_llm_body prompt)
    (fun e =>
       if is_RequestException e then
         emit (PrintExn "Error communicating with Ollama: " e) ;;;
         ret (PStr llm_unreachable)
       else
         emit (PrintExn "Unexpected error in LLM query: " e) ;;;
         ret (PStr llm_unexpected)).

(** ** Command functions *)

Definition tell_time : M unit :=
  now <- datetime_now ;;
  let current_time := strftime_IMp now in
  speak (PStr ("The current time is " +:+ current_time)).

Definition tell_story : M unit :=
  speak (PStr "Let me think of a story for you...") ;;;
  let story_prompt := "Generate a short, engaging story (less than 100 words)" in
  story <- query_llm story_prompt ;;
  speak story.

Definition toggle_privacy : M unit :=
  update (fun c => set_privacy_mode (negb (privacy_mode c)) c) ;;;
  c <- self ;;
  if privacy_mode c then
    speak (PStr "Privacy shield activated. I'll be more discreet.")
  else
    speak (PStr "Privacy shield deactivated. Normal operations resumed.").

Definition stop_listening : M unit :=
  speak (PStr "Goodbye. Going offline now.") ;;;
  update (set_should_stop true).

(** The keys of [self.commands], in insertion order. *)
Definition command_keys : list string :=
  [ "tell me a story"; "what time is it"; "what's the time"; "current time";
    "privacy shield"; "privacy mode"; "stop listening"; "goodbye"; "exit";
    "help" ].

(** The loop of [show_help] over [enumerate(self.commands.keys())]. *)
Fixpoint help_loop (i : nat) (keys : list string) (help_text : string) : string :=
  match keys with
  | [] => help_text
  | cmd :: rest =>
      let help_text := if 0 <? i then help_text +:+ ", " else help_text in
      help_loop (S i) rest (help_text +:+ cmd)
  end.

Definition show_help : M unit :=
  speak (PStr (help_loop 0 command_keys "Here are some commands you can use: ")).

(** [self.commands], as [initialize_commands] fills it. *)
Definition commands : list (string * M unit) :=
  [ ("tell me a story", tell_story);
    ("what time is it", tell_time);
    ("what's the time", tell_time);
    ("current time", tell_time);
    ("privacy shield", toggle_privacy);
    ("privacy mode", toggle_privacy);
    ("stop listening", stop_listening);
    ("goodbye", stop_listening);
    ("exit", stop_listening);
    ("help", show_help) ].

(** The first entry of the table whose trigger occurs in [text]. *)
Definition first_command (text : string) : option (string * M unit) :=
  find (fun entry => str_in (fst entry) text) commands.

(** ** The conversation path *)

Definition _handle_conversation (user_input : string) : M unit :=
  history_append (message "user" (PStr user_input)) ;;;
  response <- query_llm user_input ;;
  history_append (message "assistant" response) ;;;
  speak response.

Definition _process_command (command : string) : M unit :=
  if negb (str_truthy command) then
    speak (PStr "How can I help you?")
  else
    match first_command command with
    | Some (cmd, func) => func
    | None => _handle_conversation command
    end.

Definition process_text_input (text : string) : M pyval :=
  if negb (str_truthy text) then
    ret (PStr "Please enter a message.")
  else
    history_append (message "user" (PStr text)) ;;;
    match first_command (str_lower text) with
    | Some (cmd, func) =>
        func ;;;
        ret (PStr ("Command '" +:+ cmd +:+ "' executed."))
    | None =>
        response <- query_llm text ;;
        history_append (message "assistant" response) ;;;
        ret response
    end.

(** ** Wake word *)

Definition wake_patterns (wake_word : string) : list string :=
  [ "hey " +:+ wake_word; "ok " +:+ wake_word; "okay " +:+ wake_word;
    "hi " +:+ wake_word; wake_word ].

(** The command [_process_audio] hands to [_process_command] for the
    lower-cased transcript [text]; [None] when no pattern occurs in it. *)
Definition wake_command (wake_word text : string) : option string :=
  let wake_patterns := wake_patterns wake_word in
  if existsb (fun pattern => str_in pattern text) wake_patterns then
    match find (fun pattern => str_in pattern text) wake_patterns with
    | Some pattern => Some (str_strip (str_replace pattern EmptyString text))
    | None => Some EmptyString
    end
  else None.

(** A captured audio unit, as the two recognizers hear it. *)
Record audio : Type := {
  recognize_google : outcome string;
  recognize_sphinx : outcome string
}.

(** The [try] at the head of [_process_audio]: the transcript, or [None]
    when the method returns early. *)
Definition recognize (a : audio) : option string :=
  match recognize_google a with
  | Ok text => Some text
  | Raise e =>
      if is_SpeechRequestError e then
        match recognize_sphinx a with
        | Ok text => Some text
        | Raise _ => None
        end
      else None
  end.

Definition _process_audio (a : audio) : M unit :=
  match recognize a with
  | None => ret tt
  | Some text =>
      let text := str_lower text in
      emit (Print ("Recognized: " +:+ text)) ;;;
      c <- self ;;
      match wake_command (wake_word c) text with
      | Some command => _process_command command
      | None => ret tt
      end
  end.

(** ** Saving and loading *)

Definition save_conversation (filepath : string) : M bool :=
  try_except
    (c <- self ;;
     write_file filepath (json_dumps (PList (conversation_history c))) ;;;
     ret true)
    (fun e =>
       emit (PrintExn "Error saving conversation: " e) ;;;
       ret false).

(** [for message in loaded_history: self.conversation_history.append(message)] *)
Fixpoint append_all (messages : list pyval) : M unit :=
  match messages with
  | [] => ret tt
  | message :: rest => history_append message ;;; append_all rest
  end.

Definition load_conversation (filepath : string) : M bool :=
  try_except
    (present <- os_path_exists filepath ;;
     if present then
       text <- read_file filepath ;;
       loaded_history <-
         match json_loads text with
         | Some v => ret v
         | None => raise JSONDecodeError
         end ;;
       update (fun c => set_conversation_history (deque_clear (conversation_history c)) c) ;;;
       messages <- lift (py_iter loaded_history) ;;
       append_all messages ;;;
       ret true
     else ret false)
    (fun e =>
       emit (PrintExn "Error loading conversation: " e) ;;;
       ret false).

(** ** The loader of [optimi_fridayapp.py] *)

(** [isinstance(m, dict) and key in m] *)
Definition has_key (key : string) (m : pyval) : bool :=
  match getitem m key with
  | Ok _ => true
  | Raise _ => false
  end.

(** [isinstance(item, dict) and "role" in item and "content" in item] *)
Definition well_formed (m : pyval) : bool :=
  has_key "role" m && has_key "content" m.

(** The shape of a session file: an array whose elements have both keys,
    [isinstance(loaded_history, list) and all(...)]. *)
Definition session_shape (v : pyval) : bool :=
  match v with
  | PList items => forallb well_formed items
  | _ => false
  end.

(** [FridayApp.load_chat_history], as far as it reads the file and assigns
    [self.chat_history]: the history after the call, and whether the loaded
    one was installed.  A file that cannot be opened or decoded, and a
    loaded value of another shape, end in the [except] branch. *)
Definition load_chat_history (filepath : string) (chat_history : list pyval) (w : World)
  : bool * list pyval :=
  match fs w !! filepath with
  | Some (File true _ data) =>
      match json_loads data with
      | Some loaded_history =>
          if negb (session_shape loaded_history) then (false, chat_history)
          else
            match loaded_history with
            | PList items => (true, items)
            | _ => (false, chat_history)
            end
      | None => (false, chat_history)
      end
  | _ => (false, chat_history)
  end.

(** ** Sequences of calls *)

(** The entry points a caller of the engine uses. *)
Inductive call : Type :=
| Call_process_text_input (text : string)
| Call_handle_conversation (user_input : string)
| Call_process_command (command : string)
| Call_process_audio (a : audio)
| Call_save_conversation (filepath : string)
| Call_load_conversation (filepath : string).

Definition state_after {A} (r : outcome A * FridayCore * World) : FridayCore * World :=
  (snd (fst r), snd r).

Definition run_call (k : call) (c : FridayCore) (w : World) : FridayCore * World :=
  match k with
  | Call_process_text_input text => state_after (process_text_input text c w)
  | Call_handle_conversation user_input => state_after (_handle_conversation user_input c w)
  | Call_process_command command => state_after (_process_command command c w)
  | Call_process_audio a => state_after (_process_audio a c w)
  | Call_save_conversation filepath => state_after (save_conversation filepath c w)
  | Call_load_conversation filepath => state_after (load_conversation filepath c w)
  end.

Fixpoint run_calls (ks : list call) (c : FridayCore) (w : World) : FridayCore * World :=
  match ks with
  | [] => (c, w)
  | k :: rest => let '(c', w') := run_call k c w in run_calls rest c' w'
  end.

End Engine.

Arguments pyval : clear implicits.
Arguments event : clear implicits.
Arguments World : clear implicits.
Arguments FridayCore : clear implicits.
Arguments M : clear implicits.
Arguments response : clear implicits.

(** * A reference instance

    Numbers are the integers; [repr], [dumps] and [loads] follow Python's
    [repr], [json.dumps(_, indent=2)] and [json.loads] on the values whose
    numbers are integers. *)

Module Ref.

Definition dq : ascii := ascii_of_nat 34.
Definition sq : ascii := ascii_of_nat 39.
Definition bs : ascii := ascii_of_nat 92.

Definition hex_digit (n : nat) : ascii :=
  if n <? 10 then ascii_of_nat (48 + n) else ascii_of_nat (87 + n).

Definition hex2 (n : nat) : string :=
  String (hex_digit (n / 16)) (String (hex_digit (n mod 16)) EmptyString).

Fixpoint join (sep : string) (parts : list string) : string :=
  match parts with
  | [] => EmptyString
  | [x] => x
  | x :: rest => x +:+ sep +:+ join sep rest
  end.

Fixpoint flat_map_str (f : ascii -> string) (s : string) : string :=
  match s with
  | EmptyString => EmptyString
  | String c rest => f c +:+ flat_map_str f rest
  end.

Fixpoint has_char (c : ascii) (s : string) : bool :=
  match s with
  | EmptyString => false
  | String d rest => Ascii.eqb c d || has_char c rest
  end.

(** [repr(s)] of a [str] *)
Definition repr_char (quote : ascii) (c : ascii) : string :=
  let n := nat_of_ascii c in
  if Ascii.eqb c bs then String bs (String bs EmptyString)
  else if Ascii.eqb c quote then String bs (String c EmptyString)
  else if n =? 10 then String bs "n"
  else if n =? 13 then String bs "r"
  else if n =? 9 then String bs "t"
  else if (n <? 32) || ((127 <=? n) && (n <=? 160)) || (n =? 173)
       then String bs ("x" +:+ hex2 n)
  else String c EmptyString.

Definition repr_str (s : string) : string :=
  let quote := if has_char sq s && negb (has_char dq s) then dq else sq in
  String quote (flat_map_str (repr_char quote) s) +:+ String quote EmptyString.

(** [repr(v)] *)
Fixpoint repr (v : pyval Z) : string :=
  match v with
  | PNone => "None"
  | PBool true => "True"
  | PBool false => "False"
  | PNum n => str_of_Z n
  | PStr s => repr_str s
  | PList items => "[" +:+ join ", " (map repr items) +:+ "]"
  | PDict items =>
      "{" +:+ join ", " (map (fun kv => repr_str (fst kv) +:+ ": " +:+ repr (snd kv)) items)
      +:+ "}"
  end.

(** The JSON text of a [str], with [ensure_ascii]. *)
Definition escape_char (c : ascii) : string :=
  let n := nat_of_ascii c in
  if Ascii.eqb c dq then String bs (String dq EmptyString)
  else if Ascii.eqb c bs then String bs (String bs EmptyString)
  else if n =? 10 then String bs "n"
  else if n =? 13 then String bs "r"
  else if n =? 9 then String bs "t"
  else if n =? 8 then String bs "b"
  else if n =? 12 then String bs "f"
  else if (n <? 32) || (126 <? n) then String bs ("u00" +:+ hex2 n)
  else String c EmptyString.

Definition dumps_str (s : string) : string :=
  String dq (flat_map_str escape_char s) +:+ String dq EmptyString.

Fixpoint indent (level : nat) : string :=
  match level with
  | O => EmptyString
  | S k => "  " +:+ indent k
  end.

Definition newline_indent (level : nat) : string := nl +:+ indent level.

(** The elements of an array after the first, each behind a comma. *)
Fixpoint dumps_elements (dump : pyval Z -> string) (sep : string)
  (l : list (pyval Z)) : string :=
  match l with
  | [] => EmptyString
  | y :: l' => "," +:+ sep +:+ dump y +:+ dumps_elements dump sep l'
  end.

(** The members of an object after the first. *)
Fixpoint dumps_members (dump : pyval Z -> string) (sep : string)
  (l : list (string * pyval Z)) : string :=
  match l with
  | [] => EmptyString
  | (k, y) :: l' =>
      "," +:+ sep +:+ dumps_str k +:+ ": " +:+ dump y +:+ dumps_members dump sep l'
  end.

(** [json.dumps(v, indent=2)], for [v] nested [level] deep. *)
Fixpoint dumps_at (level : nat) (v : pyval Z) : string :=
  match v with
  | PNone => "null"
  | PBool true => "true"
  | PBool false => "false"
  | PNum n => str_of_Z n
  | PStr s => dumps_str s
  | PList [] => "[]"
  | PList (x :: rest) =>
      "[" +:+ newline_indent (S level) +:+ dumps_at (S level) x
      +:+ dumps_elements (dumps_at (S level)) (newline_indent (S level)) rest
      +:+ newline_indent level +:+ "]"
  | PDict [] => "{}"
  | PDict ((k, x) :: rest) =>
      "{" +:+ newline_indent (S level) +:+ dumps_str k +:+ ": " +:+ dumps_at (S level) x
      +:+ dumps_members (dumps_at (S level)) (newline_indent (S level)) rest
      +:+ newline_indent level +:+ "}"
  end.

Definition dumps (v : pyval Z) : string := dumps_at 0 v.

(** Reading JSON *)

Definition is_json_space (c : ascii) : bool :=
  let n := nat_of_ascii c in
  (n =? 32) || (n =? 9) || (n =? 10) || (n =? 13).

Fixpoint skip_space (s : string) : string :=
  match s with
  | EmptyString => EmptyString
  | String c rest => if is_json_space c then skip_space rest else s
  end.

Definition hex_value (c : ascii) : option nat :=
  let n := nat_of_ascii c in
  if (48 <=? n) && (n <=? 57) then Some (n - 48)
  else if (97 <=? n) && (n <=? 102) then Some (n - 87)
  else if (65 <=? n) && (n <=? 70) then Some (n - 55)
  else None.

(** The code point of [\uXXXX], when it is below 256. *)
Definition read_hex4 (a b c d : ascii) : option ascii :=
  match hex_value a, hex_value b, hex_value c, hex_value d with
  | Some 0, Some 0, Some x, Some y => Some (ascii_of_nat (16 * x + y))
  | _, _, _, _ => None
  end.

Definition unescape (c : ascii) : option ascii :=
  let n := nat_of_ascii c in
  if Ascii.eqb c dq then Some dq
  else if Ascii.eqb c bs then Some bs
  else if n =? 47 then Some c
  else if n =? 110 then Some (ascii_of_nat 10)
  else if n =? 114 then Some (ascii_of_nat 13)
  else if n =? 116 then Some (ascii_of_nat 9)
  else if n =? 98 then Some (ascii_of_nat 8)
  else if n =? 102 then Some (ascii_of_nat 12)
  else None.

(** The characters of a JSON string, after its opening quote. *)
Fixpoint read_str (s : string) : option (string * string) :=
  match s with
  | EmptyString => None
  | String c rest =>
      if Ascii.eqb c dq then Some (EmptyString, rest)
      else if Ascii.eqb c bs then
        match rest with
        | String e rest' =>
            if nat_of_ascii e =? 117 then
              match rest' with
              | String h1 (String h2 (String h3 (String h4 rest''))) =>
                  match read_hex4 h1 h2 h3 h4, read_str rest'' with
                  | Some x, Some (t, r) => Some (String x t, r)
                  | _, _ => None
                  end
              | _ => None
              end
            else
              match unescape e, read_str rest' with
              | Some x, Some (t, r) => Some (String x t, r)
              | _, _ => None
              end
        | EmptyString => None
        end
      else if nat_of_ascii c <? 32 then None
      else
        match read_str rest with
        | Some (t, r) => Some (String c t, r)
        | None => None
        end
  end.

Definition is_digit (c : ascii) : bool :=
  (48 <=? nat_of_ascii c) && (nat_of_ascii c <=? 57).

Fixpoint read_digits (acc : Z) (s : string) : Z * string :=
  match s with
  | EmptyString => (acc, s)
  | String c rest =>
      if is_digit c
      then read_digits (10 * acc + Z.of_nat (nat_of_ascii c - 48))%Z rest
      else (acc, s)
  end.

(** An integer literal; a fraction or an exponent after it is refused. *)
Definition read_nat_literal (s : string) : option (Z * string) :=
  match s with
  | String c rest =>
      if is_digit c then
        let '(n, r) :=
          if nat_of_ascii c =? 48 then (0%Z, rest)
          else read_digits (Z.of_nat (nat_of_ascii c - 48)) rest in
        match r with
        | String d _ =>
            if is_digit d || (nat_of_ascii d =? 46) || (nat_of_ascii d =? 101)
               || (nat_of_ascii d =? 69)
            then None else Some (n, r)
        | EmptyString => Some (n, r)
        end
      else None
  | EmptyString => None
  end.

(** [d[k] = v] on the items of a [dict] *)
Fixpoint dict_set (k : string) (v : pyval Z) (d : list (string * pyval Z))
  : list (string * pyval Z) :=
  match d with
  | [] => [(k, v)]
  | (k', v') :: rest =>
      if String.eqb k' k then (k', v) :: rest else (k', v') :: dict_set k v rest
  end.

Fixpoint read_value (fuel : nat) (s : string) : option (pyval Z * string) :=
  match fuel with
  | O => None
  | S fuel =>
      match skip_space s with
      | EmptyString => None
      | String c rest =>
          let n := nat_of_ascii c in
          if Ascii.eqb c dq then
            match read_str rest with
            | Some (t, r) => Some (PStr t, r)
            | None => None
            end
          else if n =? 91 then
            match skip_space rest with
            | String c' r =>
                if nat_of_ascii c' =? 93 then Some (PList [], r)
                else read_elements fuel rest []
            | EmptyString => None
            end
          else if n =? 123 then
            match skip_space rest with
            | String c' r =>
                if nat_of_ascii c' =? 125 then Some (PDict [], r)
                else read_members fuel rest []
            | EmptyString => None
            end
          else if n =? 45 then
            match read_nat_literal rest with
            | Some (z, r) => Some (PNum (- z)%Z, r)
            | None => None
            end
          else if is_digit c then
            match read_nat_literal (String c rest) with
            | Some (z, r) => Some (PNum z, r)
            | None => None
            end
          else if starts_with "null" (String c rest)
            then Some (PNone, str_skip 4 (String c rest))
          else if starts_with "true" (String c rest)
            then Some (PBool true, str_skip 4 (String c rest))
          else if starts_with "false" (String c rest)
            then Some (PBool false, str_skip 5 (String c rest))
          else None
      end
  end
with read_elements (fuel : nat) (s : string) (acc : list (pyval Z))
  : option (pyval Z * string) :=
  match fuel with
  | O => None
  | S fuel =>
      match read_value fuel s with
      | Some (v, r) =>
          match skip_space r with
          | String c r' =>
              if nat_of_ascii c =? 44 then read_elements fuel r' (acc ++ [v])
              else if nat_of_ascii c =? 93 then Some (PList (acc ++ [v]), r')
              else None
          | EmptyString => None
          end
      | None => None
      end
  end
with read_members (fuel : nat) (s : string) (acc : list (string * pyval Z))
  : option (pyval Z * string) :=
  match fuel with
  | O => None
  | S fuel =>
      match skip_space s with
      | String q r0 =>
          if Ascii.eqb q dq then
            match read_str r0 with
            | Some (k, r1) =>
                match skip_space r1 with
                | String c r2 =>
                    if nat_of_ascii c =? 58 then
                      match read_value fuel r2 with
                      | Some (v, r3) =>
                          match skip_space r3 with
                          | String c' r4 =>
                              if nat_of_ascii c' =? 44
                              then read_members fuel r4 (dict_set k v acc)
                              else if nat_of_ascii c' =? 125
                              then Some (PDict (dict_set k v acc), r4)
                              else None
                          | EmptyString => None
                          end
                      | None => None
                      end
                    else None
                | EmptyString => None
                end
            | None => None
            end
          else None
      | EmptyString => None
      end
  end.

(** [json.loads(text)]; [None] when the text is refused. *)
Definition loads (text : string) : option (pyval Z) :=
  match read_value (2 * String.length text + 2) text with
  | Some (v, r) =>
      match skip_space r with
      | EmptyString => Some v
      | String _ _ => None
      end
  | None => None
  end.

(** The keys of a [dict] are distinct. *)
Fixpoint distinct (keys : list string) : bool :=
  match keys with
  | [] => true
  | k :: rest => negb (existsb (String.eqb k) rest) && distinct rest
  end.

(** A value as Python builds it: in every [dict] the keys are distinct. *)
Fixpoint json_wf (v : pyval Z) : bool :=
  match v with
  | PList items => forallb json_wf items
  | PDict items =>
      distinct (map fst items) && forallb (fun kv => json_wf (snd kv)) items
  | _ => true
  end.

(** Fuel that suffices to read the text of [v]. *)
Fixpoint need (v : pyval Z) : nat :=
  match v with
  | PList items => S (fold_right (fun x acc => S (need x + acc)) 0 items)
  | PDict items => S (fold_right (fun kv acc => S (need (snd kv) + acc)) 0 items)
  | _ => 1
  end.

(** The value of the digits [d] read after [acc]. *)
Fixpoint uint_val (d : uint) (acc : Z) : Z :=
  match d with
  | Nil => acc
  | D0 d => uint_val d (10 * acc)
  | D1 d => uint_val d (10 * acc + 1)
  | D2 d => uint_val d (10 * acc + 2)
  | D3 d => uint_val d (10 * acc + 3)
  | D4 d => uint_val d (10 * acc + 4)
  | D5 d => uint_val d (10 * acc + 5)
  | D6 d => uint_val d (10 * acc + 6)
  | D7 d => uint_val d (10 * acc + 7)
  | D8 d => uint_val d (10 * acc + 8)
  | D9 d => uint_val d (10 * acc + 9)
  end%Z.

(** A text at which an integer literal ends. *)
Definition ends_number (rest : string) : bool :=
  match rest with
  | EmptyString => true
  | String c _ =>
      negb (is_digit c || (nat_of_ascii c =? 46) || (nat_of_ascii c =? 101)
            || (nat_of_ascii c =? 69))
  end.

(** The reader gives back [v] from the text of [v], whatever follows it. *)
Definition reads (v : pyval Z) : Prop :=
  json_wf v = true ->
  forall level rest fuel,
    need v <= fuel ->
    ends_number rest = true ->
    read_value fuel (dumps_at level v +:+ rest) = Some (v, rest).

End Ref.

(** * Example engines and worlds, on the reference instance *)

Module Scenario.

(** No inference server listens: every request fails to connect. *)
Definition offline : nat -> ollama_request -> outcome (response Z) :=
  fun _ _ => Raise RequestException.

(** The server answers every request with the status [code] and [body]. *)
Definition answering (code : Z) (body : pyval Z)
  : nat -> ollama_request -> outcome (response Z) :=
  fun _ _ => Ok {| status_code := code; json := Ok body |}.

(** The server answers every request with status 200 and a body that is no
    JSON: reading it raises the [JSONDecodeError] of [requests], which is a
    [RequestException]. *)
Definition undecodable : nat -> ollama_request -> outcome (response Z) :=
  fun _ _ => Ok {| status_code := 200; json := Raise RequestException |}.

Definition world0 : World Z :=
  {| trace := []; fs := ∅; fs_can_create := fun _ => true;
     fs_short_write := fun _ _ => None; tick := 0;
     clock := fun _ => {| hour := 15; minute := 7 |}; server := offline |}.

Definition world_with_server (srv : nat -> ollama_request -> outcome (response Z))
  : World Z :=
  {| trace := []; fs := ∅; fs_can_create := fun _ => true;
     fs_short_write := fun _ _ => None; tick := 0;
     clock := fun _ => {| hour := 15; minute := 7 |}; server := srv |}.

(** A world whose only file is [path], holding [data]. *)
Definition world_with_file (path data : string) : World Z :=
  set_fs (<[path := File true true data]> ∅) world0.

(** [FridayCore()] *)
Definition friday : FridayCore Z := FridayCore_init "friday" 10.

Definition chat : list (pyval Z) :=
  [message "user" (PStr "hi"); message "assistant" (PStr "hello")].

Definition friday_with (history : list (pyval Z)) : FridayCore Z :=
  set_conversation_history history friday.

End Scenario.

(** * The rest of [friday_core.py], and the callers of the engine *)

Section Callers.

Context {number : Type}.
Variable py_repr : pyval number -> string.
Variable json_dumps : pyval number -> string.
Variable json_loads : string -> option (pyval number).

#[local] Notation "x <- m ;; k" := (bind m (fun x => k))
  (at level 100, m at next level, right associativity).
#[local] Notation "m ;;; k" := (bind m (fun _ => k))
  (at level 100, right associativity).

(** ** [analyze_sentiment] *)

(** [any(word in text for word in words)] *)
Definition any_word_in (words : list string) (text : string) : bool :=
  existsb (fun word => str_in word text) words.

(** The method reads no attribute of the engine. *)
Definition analyze_sentiment (text : string) : string :=
  let text := str_lower text in
  if any_word_in ["happy"; "great"; "excellent"; "glad"; "joy"] text then "happy"
  else if any_word_in ["sad"; "sorry"; "unhappy"; "unfortunate"] text then "sad"
  else if any_word_in ["angry"; "mad"; "furious"; "upset"] text then "angry"
  else if any_word_in ["confused"; "unclear"; "don't understand"] text then "confused"
  else "neutral".

(** ** [listen] *)

Definition set_is_listening (b : bool) (c : FridayCore number) : FridayCore number :=
  {| name := name c; wake_word := wake_word c; is_listening := b;
     should_stop := should_stop c; privacy_mode := privacy_mode c;
     max_context_length := max_context_length c;
     conversation_history := conversation_history c |}.

(** The [while] loop of [listen], run on the results [gets] of the
    successive calls of [self.audio_queue.get(timeout=0.5)]: an audio unit,
    or [None] for [queue.Empty].  The value tells whether the loop was left;
    when the results run out before, the loop is still waiting. *)
Fixpoint listen_loop (gets : list (option audio)) : M number bool :=
  c <- self ;;
  if should_stop c then ret true
  else
    match gets with
    | [] => ret false
    | got :: rest =>
        match got with
        | Some audio_data => _process_audio py_repr audio_data
        | None => ret tt
        end ;;;
        listen_loop rest
    end.

(** [listen], on the side of the consumer: the capture thread it starts is
    present through [gets] only, and no keyboard interrupt arrives. *)
Definition listen (gets : list (option audio)) : M number bool :=
  update (set_is_listening true) ;;;
  update (set_should_stop false) ;;;
  c <- self ;;
  emit (Print ("Listening for wake word: 'Hey " +:+ name c +:+ "'")) ;;;
  left <- listen_loop gets ;;
  if left then
    update (set_is_listening false) ;;;
    c <- self ;;
    emit (Print (name c +:+ " has stopped listening.")) ;;;
    ret true
  else ret false.

(** ** The window of [friday_app.py] *)

(** The calls of the display methods of the window, in their order; the
    work on the widgets inside them is not modelled. *)
Inductive display : Type :=
| ChatCleared
| UserMessage (message : pyval number)
| AssistantMessage (message : pyval number)
| SystemMessage (message : string)
| SystemError (prefix : string) (e : exn).

(** The loop of [FridayApp.load_chat] that shows the loaded history again:
    what was shown, and the exception that ended the loop, if one did. *)
Fixpoint reload_messages (history : list (pyval number)) : list display * option exn :=
  match history with
  | [] => ([], None)
  | message :: rest =>
      match getitem message "role" with
      | Raise e => ([], Some e)
      | Ok role =>
          match getitem message "content" with
          | Raise e => ([], Some e)
          | Ok content =>
              let shown :=
                if eq_str role "user" then UserMessage content
                else AssistantMessage content in
              let '(more, raised) := reload_messages rest in
              (shown :: more, raised)
          end
      end
  end.

(** [file_path] is what the file dialog returned, empty when it was
    cancelled. *)
Definition load_chat (file_path : string) (c : FridayCore number) (w : World number)
  : list display * FridayCore number * World number :=
  if negb (str_truthy file_path) then ([], c, w)
  else
    match load_conversation json_loads file_path c w with
    | (Ok true, c', w') =>
        let '(shown, raised) := reload_messages (conversation_history c') in
        (ChatCleared :: shown ++
           match raised with
           | None => [SystemMessage ("Chat history loaded from " +:+ file_path)]
           | Some e => [SystemError "Error loading chat: " e]
           end,
         c', w')
    | (Ok false, c', w') => ([SystemMessage "Failed to load chat history"], c', w')
    | (Raise e, c', w') => ([SystemError "Error loading chat: " e], c', w')
    end.

End Callers.

(** Further example inputs, on the reference instance. *)
Module Voice.

(** Audio in which the online recogniser hears [text]. *)
Definition heard (text : string) : audio :=
  {| recognize_google := Ok text;
     recognize_sphinx := Raise (OtherException "UnknownValueError") |}.

(** Audio in which no recogniser hears speech. *)
Definition noise : audio :=
  {| recognize_google := Raise (OtherException "UnknownValueError");
     recognize_sphinx := Raise (OtherException "UnknownValueError") |}.

(** The engine with privacy enabled. *)
Definition private : FridayCore Z := set_privacy_mode true Scenario.friday.

(** A server that answers every request with [reply]. *)
Definition replying (reply : string) : World Z :=
  Scenario.world_with_server
    (Scenario.answering 200 (PDict [("response", PStr reply)])).

(** A world whose only file is [path], holding [data], on a device where
    every write fails after [kept] was stored. *)
Definition world_with_failing_disk (path data kept : string) : World Z :=
  {| trace := []; fs := <[path := File true true data]> ∅;
     fs_can_create := fun _ => true; fs_short_write := fun _ _ => Some kept;
     tick := 0; clock := fun _ => {| hour := 15; minute := 7 |};
     server := Scenario.offline |}.

End Voice.

(** * Notions used by the statements *)

Section Notions.

Context {number : Type}.
Variable py_repr : pyval number -> string.

(** The world after the events [evs]. *)
Definition emit_list (evs : list (event number)) (w : World number) : World number :=
  {| trace := trace w ++ evs; fs := fs w; fs_can_create := fs_can_create w;
     fs_short_write := fs_short_write w;
     tick := tick w; clock := clock w; server := server w |}.

(** The events of the speech-output capability. *)
Definition is_speech (e : event number) : bool :=
  match e with
  | EngineSay _ | EngineRunAndWait => true
  | _ => false
  end.

(** The events of the LLM bridge. *)
Definition is_llm (e : event number) : bool :=
  match e with
  | EnterQueryLLM _ | RequestsPost _ _ => true
  | _ => false
  end.

(** What [speak] does for an engine [c]. *)
Definition speak_events (c : FridayCore number) (text : pyval number) : list (event number) :=
  if privacy_mode c then
    [Print ("[PRIVACY MODE] " +:+ name c +:+ " would say: " +:+ py_str py_repr text)]
  else
    [Print (name c +:+ ": " +:+ py_str py_repr text); EngineSay text; EngineRunAndWait].

(** The buffer respects its capacity. *)
Definition bounded (c : FridayCore number) : Prop :=
  length (conversation_history c) <= max_context_length c.

(** The engine and the value a method call leaves. *)
Definition core_of {A} (r : outcome A * FridayCore number * World number) : FridayCore number :=
  snd (fst r).

Definition value_of {A} (r : outcome A * FridayCore number * World number) : outcome A :=
  fst (fst r).

Definition world_of {A} (r : outcome A * FridayCore number * World number) : World number :=
  snd r.

(** The line of the prompt for one message. *)
Definition render_line (name : string) (m : pyval number) : string :=
  match getitem m "role", getitem m "content" with
  | Ok role, Ok content => role_prefix name role +:+ py_str py_repr content +:+ nl
  | _, _ => EmptyString
  end.

Fixpoint rendered (name : string) (history : list (pyval number)) : string :=
  match history with
  | [] => EmptyString
  | m :: rest => render_line name m +:+ rendered name rest
  end.

(** The line [query_llm] adds for a new user turn. *)
Definition final_line (name prompt : string) : string :=
  "User: " +:+ prompt +:+ nl +:+ name +:+ ": ".

(** [m] is the user turn [prompt]. *)
Definition is_user_turn (prompt : string) (m : pyval number) : bool :=
  match getitem m "content", getitem m "role" with
  | Ok content, Ok role => eq_str content prompt && eq_str role "user"
  | _, _ => false
  end.

(** The prompt as the code assembles it: the new turn is added unless some
    message of the buffer is that user turn. *)
Definition code_context (name : string) (history : list (pyval number)) (prompt : string)
  : string :=
  rendered name history
  +:+ (if existsb (is_user_turn prompt) history then EmptyString
       else final_line name prompt).

(** The prompt as the specification words it: the new turn is added unless
    the most recent message of the buffer is that user turn. *)
Definition spec_context (name : string) (history : list (pyval number)) (prompt : string)
  : string :=
  rendered name history
  +:+ (match last history with
       | Some m => if is_user_turn prompt m then EmptyString else final_line name prompt
       | None => final_line name prompt
       end).

(** The reply [query_llm] gives when [e] is raised inside it. *)
Definition failure_reply (e : exn) : string :=
  if is_RequestException e then llm_unreachable else llm_unexpected.

Definition failure_event (e : exn) : event number :=
  if is_RequestException e
  then PrintExn "Error communicating with Ollama: " e
  else PrintExn "Unexpected error in LLM query: " e.

(** The prompt [query_llm] sends, or the exception its assembly raises. *)
Definition llm_context (name : string) (history : list (pyval number)) (prompt : string)
  : outcome string :=
  obind (render_context py_repr name history EmptyString) (fun context =>
  obind (any_user_turn prompt history) (fun seen =>
  Ok (if seen then context else context +:+ final_line name prompt))).

(** The value [query_llm] returns for the answer of the server. *)
Definition reply_of_response (r : response number) : outcome (pyval number) :=
  obind (json r) (fun result => method_get result "response" (PStr llm_no_response)).

(** Every run of [m] relates the engine before to the engine after by [P]. *)
Definition frame (P : FridayCore number -> FridayCore number -> Prop) {A}
  (m : M number A) : Prop :=
  forall c w, P c (core_of (m c w)).

(** [m] returns a value, it never raises. *)
Definition total {A} (m : M number A) : Prop :=
  forall c w, exists a, value_of (m c w) = Ok a.

(** The buffer and its capacity are the same. *)
Definition same_buffer (c c' : FridayCore number) : Prop :=
  conversation_history c' = conversation_history c
  /\ max_context_length c' = max_context_length c.

(** The capacity is the same and the bound is kept. *)
Definition keeps_bound (c c' : FridayCore number) : Prop :=
  max_context_length c' = max_context_length c /\ (bounded c -> bounded c').

End Notions.

(** The texts [strftime("%I:%M %p")] can produce. *)
Definition clock_texts : list string :=
  flat_map (fun h => map (fun m => strftime_IMp {| hour := h; minute := m |}) (seq 0 60))
           (seq 0 24).

(** A text that shows a time of day. *)
Definition time_formatted (s : string) : bool :=
  existsb (fun t => str_in t s) clock_texts.

(** The text before and the text after the first occurrence of [p] in [s]. *)
Fixpoint split_first (p s : string) : option (string * string) :=
  if starts_with p s then Some (EmptyString, str_skip (String.length p) s)
  else
    match s with
    | EmptyString => None
    | String c rest =>
        match split_first p rest with
        | Some (a, b) => Some (String c a, b)
        | None => None
        end
    end.

(** [s] without the first occurrence of [p]. *)
Definition remove_first (p s : string) : string :=
  match split_first p s with
  | Some (a, b) => a +:+ b
  | None => s
  end.

(** The wake-word detector as the specification words it: only the first
    occurrence of the pattern is removed. *)
Definition spec_wake_command (wake_word text : string) : option string :=
  match find (fun pattern => str_in pattern text) (wake_patterns wake_word) with
  | Some pattern => Some (str_strip (remove_first pattern text))
  | None => None
  end.

(** * Notions of the properties of the further code *)

Section FurtherNotions.

Context {number : Type}.

(** Every buffered message has both keys. *)
Definition healthy (c : FridayCore number) : Prop :=
  forallb well_formed (conversation_history c) = true.

(** Run with privacy enabled, [m] leaves it enabled and reaches the speech
    engine at no point. *)
Definition silent {A} (m : M number A) : Prop :=
  forall c w,
    privacy_mode c = true ->
    privacy_mode (core_of (m c w)) = true
    /\ exists evs,
         trace (world_of (m c w)) = trace w ++ evs
         /\ existsb is_speech evs = false.

(** The requests among the events. *)
Definition is_request (e : event number) : bool :=
  match e with
  | RequestsPost _ _ => true
  | _ => false
  end.

Definition count_requests (evs : list (event number)) : nat :=
  length (List.filter is_request evs).

(** No white space at the start. *)
Definition no_lead (s : string) : Prop :=
  match s with
  | EmptyString => True
  | String c _ => is_space c = false
  end.

(** The value of a decimal digit. *)
Definition digit_value (ch : ascii) : option nat :=
  let n := nat_of_ascii ch in
  if (48 <=? n) && (n <=? 57) then Some (n - 48) else None.

Definition read_two_digits (a b : ascii) : option nat :=
  match digit_value a, digit_value b with
  | Some x, Some y => Some (10 * x + y)
  | _, _ => None
  end.

(** The time of day, as hour and minute of the 24-hour clock, that a text
    of the form [HH:MM AM] or [HH:MM PM] shows: two digits from 01 to 12, a
    colon, two digits from 00 to 59, a space, and AM or PM.  A text of
    another form shows none. *)
Definition read_clock (s : string) : option (nat * nat) :=
  match s with
  | String h1 (String h2 (String colon (String m1 (String m2
      (String space (String half (String em EmptyString))))))) =>
      match read_two_digits h1 h2, read_two_digits m1 m2 with
      | Some h12, Some m =>
          if Ascii.eqb colon ":" && Ascii.eqb space " " && Ascii.eqb em "M"
             && (1 <=? h12) && (h12 <=? 12) && (m <? 60)
          then
            if Ascii.eqb half "A" then Some (Nat.modulo h12 12, m)
            else if Ascii.eqb half "P" then Some (12 + Nat.modulo h12 12, m)
            else None
          else None
      | _, _ => None
      end
  | _ => None
  end.

(** A call other than [load_conversation]. *)
Definition not_a_load (k : call) : bool :=
  match k with
  | Call_load_conversation _ => false
  | _ => true
  end.

End FurtherNotions.

(** * The conversation buffer *)

Lemma deque_append_length {A} n (d : list A) x :
  length d <= n -> length (deque_append n d x) <= n.
Proof.
  intros Hd. unfold deque_append.
  destruct (n <? length (d ++ [x])) eqn:E.
  - rewrite length_drop, length_app. simpl. lia.
  - apply Nat.ltb_ge in E. exact E.
Qed.

Lemma deque_append_last_n {A} n (d : list A) x :
  length d <= n -> deque_append n d x = last_n n (d ++ [x]).
Proof.
  intros Hd. unfold deque_append, last_n.
  destruct (n <? length (d ++ [x])) eqn:E.
  - apply Nat.ltb_lt in E. rewrite length_app in *. simpl in *.
    replace (length d + 1 - n) with 1 by lia. reflexivity.
  - apply Nat.ltb_ge in E.
    replace (length (d ++ [x]) - n) with 0 by lia. reflexivity.
Qed.

Lemma last_n_length {A} n (l : list A) : length (last_n n l) <= n.
Proof. unfold last_n. rewrite length_drop. lia. Qed.

Lemma last_n_snoc {A} n (l : list A) x :
  last_n n (last_n n l ++ [x]) = last_n n (l ++ [x]).
Proof.
  unfold last_n. destruct n as [|n].
  - rewrite !Nat.sub_0_r, !drop_all. reflexivity.
  - rewrite !length_app, length_drop. simpl.
    destruct (decide (length l <= S n)) as [Hle|Hgt].
    + replace (length l - S n) with 0 by lia. simpl.
      f_equal. lia.
    + rewrite (drop_app_le l [x] (length l + 1 - S n)) by lia.
      rewrite drop_app_le by (rewrite length_drop; lia).
      rewrite drop_drop. f_equal. f_equal. lia.
Qed.

Lemma last_n_app {A} n (l k : list A) :
  last_n n (last_n n l ++ k) = last_n n (l ++ k).
Proof.
  induction k as [|y k IH] using rev_ind.
  - rewrite !app_nil_r. unfold last_n at 1.
    replace (length (last_n n l) - n) with 0
      by (pose proof (last_n_length n l); lia).
    reflexivity.
  - rewrite !app_assoc. rewrite <- last_n_snoc.
    rewrite <- (last_n_snoc n (l ++ k)). rewrite IH. reflexivity.
Qed.

Lemma deque_extend_last_n {A} n (xs d : list A) :
  length d <= n -> deque_extend n d xs = last_n n (d ++ xs).
Proof.
  unfold deque_extend. revert d.
  induction xs as [|x xs IH]; intros d Hd; simpl.
  - rewrite app_nil_r. unfold last_n.
    replace (length d - n) with 0 by lia. reflexivity.
  - rewrite IH by (apply deque_append_length; exact Hd).
    rewrite deque_append_last_n by exact Hd.
    rewrite last_n_app, <- app_assoc. reflexivity.
Qed.

Lemma deque_extend_length {A} n (xs d : list A) :
  length d <= n -> length (deque_extend n d xs) <= n.
Proof.
  intros Hd. rewrite deque_extend_last_n by exact Hd. apply last_n_length.
Qed.


(** * Properties of the engine *)

Section Properties.

Context {number : Type}.
Variable py_repr : pyval number -> string.
Variable json_dumps : pyval number -> string.
Variable json_loads : string -> option (pyval number).

Implicit Types (c : FridayCore number) (w : World number).
Implicit Types (text prompt : string) (history : list (pyval number)).

(** ** Traces *)

Lemma emit_list_emit_list (evs1 evs2 : list (event number)) w :
  emit_list evs2 (emit_list evs1 w) = emit_list (evs1 ++ evs2) w.
Proof.
  unfold emit_list; simpl. f_equal. symmetry. apply app_assoc.
Qed.

Lemma emit_world_emit_list (e : event number) (evs : list (event number)) w :
  emit_world e (emit_list evs w) = emit_list (evs ++ [e]) w.
Proof.
  unfold emit_world, emit_list; simpl. f_equal. symmetry. apply app_assoc.
Qed.

Lemma emit_world_one (e : event number) w : emit_world e w = emit_list [e] w.
Proof. reflexivity. Qed.

Lemma emit_list_nil w : emit_list [] w = w.
Proof. destruct w. unfold emit_list; simpl. f_equal. apply app_nil_r. Qed.

Lemma tick_emit_list (evs : list (event number)) w :
  tick_world (emit_list evs w) = emit_list evs (tick_world w).
Proof. reflexivity. Qed.

(** ** [speak] *)

Lemma speak_eq (v : pyval number) c w :
  speak py_repr v c w = (Ok tt, c, emit_list (speak_events py_repr c v) w).
Proof.
  unfold speak, speak_events, bind, self, emit.
  destruct (privacy_mode c); simpl.
  - reflexivity.
  - rewrite !emit_world_one, !emit_list_emit_list. reflexivity.
Qed.

(** ** [query_llm] *)

Lemma query_llm_eq prompt c w :
  query_llm py_repr prompt c w =
  let w0 := emit_world (EnterQueryLLM prompt) w in
  match llm_context py_repr (name c) (conversation_history c) prompt with
  | Raise e => (Ok (PStr (failure_reply e)), c, emit_world (failure_event e) w0)
  | Ok context =>
      let data := request_data context in
      let w1 := tick_world (emit_world (RequestsPost ollama_url data) w0) in
      match server w (tick w) data with
      | Raise e => (Ok (PStr (failure_reply e)), c, emit_world (failure_event e) w1)
      | Ok r =>
          if (status_code r =? 200)%Z then
            match reply_of_response r with
            | Ok v => (Ok v, c, w1)
            | Raise e => (Ok (PStr (failure_reply e)), c, emit_world (failure_event e) w1)
            end
          else
            (Ok (PStr llm_bad_status), c,
             emit_world (Print ("LLM request failed with status code: "
                                +:+ str_of_Z (status_code r))) w1)
      end
  end.
Proof.
  unfold query_llm, query_llm_body, llm_context, reply_of_response,
    try_except, bind, self, lift, emit, ret, requests_post, final_line,
    failure_reply, failure_event.
  cbn beta iota zeta.
  destruct (render_context py_repr (name c) (conversation_history c) EmptyString)
    as [context|e]; cbn [obind].
  2: { destruct (is_RequestException e); reflexivity. }
  destruct (any_user_turn prompt (conversation_history c)) as [seen|e]; cbn [obind].
  2: { destruct (is_RequestException e); reflexivity. }
  cbn [tick server emit_world].
  match goal with |- context [server w (tick w) ?d] =>
    destruct (server w (tick w) d) as [r|e] end.
  2: { destruct (is_RequestException e); reflexivity. }
  destruct (status_code r =? 200)%Z; [|reflexivity].
  destruct (json r) as [result|e]; cbn [obind].
  2: { destruct (is_RequestException e); reflexivity. }
  destruct (method_get result "response" (PStr llm_no_response)) as [v|e].
  - reflexivity.
  - destruct (is_RequestException e); reflexivity.
Qed.

(** ** What a method leaves of the engine *)

Section Frame.

Variable P : FridayCore number -> FridayCore number -> Prop.
Hypothesis P_refl : forall c, P c c.
Hypothesis P_trans : forall c1 c2 c3, P c1 c2 -> P c2 c3 -> P c1 c3.

Lemma frame_ret {A} (a : A) : frame P (ret a).
Proof. intros c w. apply P_refl. Qed.

Lemma frame_raise {A} (e : exn) : frame P (raise (A := A) e).
Proof. intros c w. apply P_refl. Qed.

Lemma frame_lift {A} (o : outcome A) : frame P (lift o).
Proof. intros c w. apply P_refl. Qed.

Lemma frame_self : frame P self.
Proof. intros c w. apply P_refl. Qed.

Lemma frame_emit (e : event number) : frame P (emit e).
Proof. intros c w. apply P_refl. Qed.

Lemma frame_update (f : FridayCore number -> FridayCore number) :
  (forall c, P c (f c)) -> frame P (update f).
Proof. intros H c w. apply H. Qed.

Lemma frame_bind {A B} (m : M number A) (f : A -> M number B) :
  frame P m -> (forall a, frame P (f a)) -> frame P (bind m f).
Proof.
  intros Hm Hf c w. unfold bind, core_of.
  specialize (Hm c w). unfold core_of in Hm.
  destruct (m c w) as [[[a|e] c'] w']; simpl in *.
  - eapply P_trans; [exact Hm|]. apply (Hf a c' w').
  - exact Hm.
Qed.

Lemma frame_try_except {A} (m : M number A) (h : exn -> M number A) :
  frame P m -> (forall e, frame P (h e)) -> frame P (try_except m h).
Proof.
  intros Hm Hh c w. unfold try_except, core_of.
  specialize (Hm c w). unfold core_of in Hm.
  destruct (m c w) as [[[a|e] c'] w']; simpl in *.
  - exact Hm.
  - eapply P_trans; [exact Hm|]. apply (Hh e c' w').
Qed.

Lemma frame_datetime_now : frame P datetime_now.
Proof. intros c w. apply P_refl. Qed.

Lemma frame_requests_post url data : frame P (requests_post url data).
Proof. intros c w. apply P_refl. Qed.

Lemma frame_os_path_exists path : frame P (os_path_exists path).
Proof. intros c w. apply P_refl. Qed.

Lemma frame_read_file path : frame P (read_file path).
Proof.
  intros c w. unfold read_file, core_of.
  destruct (fs w !! path) as [[|[] ? ?]|]; apply P_refl.
Qed.

Lemma frame_write_file path data : frame P (write_file path data).
Proof.
  intros c w. unfold write_file, core_of. cbv zeta.
  destruct (fs w !! path) as [[|? [] ?]|]; try apply P_refl.
  - destruct (fs_short_write w path data); apply P_refl.
  - destruct (fs_can_create w path); [|apply P_refl].
    destruct (fs_short_write w path data); apply P_refl.
Qed.

Lemma frame_speak (v : pyval number) : frame P (speak py_repr v).
Proof. intros c w. rewrite speak_eq. apply P_refl. Qed.

Lemma frame_query_llm prompt : frame P (query_llm py_repr prompt).
Proof.
  intros c w. rewrite query_llm_eq. cbv zeta.
  repeat match goal with
         | |- context [match ?x with _ => _ end] => destruct x
         end; apply P_refl.
Qed.

Ltac frame_step :=
  first
    [ apply frame_ret | apply frame_raise | apply frame_lift | apply frame_self
    | apply frame_emit | apply frame_datetime_now | apply frame_requests_post
    | apply frame_os_path_exists | apply frame_read_file | apply frame_write_file
    | apply frame_speak | apply frame_query_llm
    | apply frame_bind; [|intros ?]
    | apply frame_try_except; [|intros ?]
    | match goal with
      | |- frame _ (if ?b then _ else _) => destruct b
      | |- frame _ (match ?x with _ => _ end) => destruct x
      end ].

(** The command functions write [privacy_mode] and [should_stop] only. *)
Hypothesis P_privacy : forall c b, P c (set_privacy_mode b c).
Hypothesis P_stop : forall c b, P c (set_should_stop b c).

Lemma frame_tell_time : frame P (tell_time py_repr).
Proof. unfold tell_time. repeat frame_step. Qed.

Lemma frame_tell_story : frame P (tell_story py_repr).
Proof. unfold tell_story. repeat frame_step. Qed.

Lemma frame_toggle_privacy : frame P (toggle_privacy py_repr).
Proof.
  unfold toggle_privacy. apply frame_bind.
  - apply frame_update. intros c. apply P_privacy.
  - intros _. repeat frame_step.
Qed.

Lemma frame_stop_listening : frame P (stop_listening py_repr).
Proof.
  unfold stop_listening. apply frame_bind; [apply frame_speak|].
  intros _. apply frame_update. intros c. apply P_stop.
Qed.

Lemma frame_show_help : frame P (show_help py_repr).
Proof. unfold show_help. apply frame_speak. Qed.

Lemma frame_commands :
  Forall (fun entry => frame P (snd entry)) (commands py_repr).
Proof.
  unfold commands.
  repeat (constructor; [simpl|]);
  auto using frame_tell_story, frame_tell_time, frame_toggle_privacy,
    frame_stop_listening, frame_show_help.
Qed.

Lemma first_command_In text cmd (func : M number unit) :
  first_command py_repr text = Some (cmd, func) -> In (cmd, func) (commands py_repr).
Proof.
  unfold first_command. intros H. apply find_some in H. apply H.
Qed.

Lemma frame_first_command text cmd (func : M number unit) :
  first_command py_repr text = Some (cmd, func) -> frame P func.
Proof.
  intros H. apply first_command_In in H.
  pose proof frame_commands as HF. rewrite Forall_forall in HF.
  apply list_elem_of_In in H. apply (HF _ H).
Qed.

(** The conversation path also appends to the buffer, and loading clears it. *)
Hypothesis P_append : forall c (m : pyval number),
  P c (set_conversation_history
         (deque_append (max_context_length c) (conversation_history c) m) c).
Hypothesis P_clear : forall c, P c (set_conversation_history [] c).

Lemma frame_history_append (m : pyval number) : frame P (history_append m).
Proof. unfold history_append. apply frame_update. intros c. apply P_append. Qed.

Lemma frame_handle_conversation user_input :
  frame P (_handle_conversation py_repr user_input).
Proof.
  unfold _handle_conversation.
  repeat first [apply frame_history_append | frame_step].
Qed.

Lemma frame_process_command command : frame P (_process_command py_repr command).
Proof.
  unfold _process_command.
  destruct (negb (str_truthy command)); [apply frame_speak|].
  destruct (first_command py_repr command) as [[cmd func]|] eqn:E.
  - eapply frame_first_command; exact E.
  - apply frame_handle_conversation.
Qed.

Lemma frame_process_text_input text : frame P (process_text_input py_repr text).
Proof.
  unfold process_text_input.
  destruct (negb (str_truthy text)); [apply frame_ret|].
  apply frame_bind; [apply frame_history_append|]. intros _.
  destruct (first_command py_repr (str_lower text)) as [[cmd func]|] eqn:E.
  - apply frame_bind; [eapply frame_first_command; exact E|].
    intros _. apply frame_ret.
  - repeat first [apply frame_history_append | frame_step].
Qed.

Lemma frame_process_audio (a : audio) : frame P (_process_audio py_repr a).
Proof.
  unfold _process_audio.
  destruct (recognize a); [|apply frame_ret].
  apply frame_bind; [apply frame_emit|]. intros _.
  apply frame_bind; [apply frame_self|]. intros c.
  destruct (wake_command _ _); [apply frame_process_command|apply frame_ret].
Qed.

Lemma frame_save_conversation filepath :
  frame P (save_conversation json_dumps filepath).
Proof. unfold save_conversation. repeat frame_step. Qed.

Lemma frame_append_all (messages : list (pyval number)) : frame P (append_all messages).
Proof.
  induction messages as [|m rest IH]; simpl.
  - apply frame_ret.
  - apply frame_bind; [apply frame_history_append|]. intros _. exact IH.
Qed.

Lemma frame_load_conversation filepath :
  frame P (load_conversation json_loads filepath).
Proof.
  unfold load_conversation.
  apply frame_try_except; [|intros e; repeat frame_step].
  apply frame_bind; [apply frame_os_path_exists|]. intros [|]; [|apply frame_ret].
  apply frame_bind; [apply frame_read_file|]. intros text.
  apply frame_bind; [destruct (json_loads text); frame_step|]. intros v.
  apply frame_bind; [apply frame_update; intros c; apply P_clear|]. intros _.
  apply frame_bind; [apply frame_lift|]. intros messages.
  apply frame_bind; [apply frame_append_all|]. intros _. apply frame_ret.
Qed.

Lemma frame_run_call (k : call) c w :
  P c (fst (run_call py_repr json_dumps json_loads k c w)).
Proof.
  destruct k; simpl.
  - apply frame_process_text_input.
  - apply frame_handle_conversation.
  - apply frame_process_command.
  - apply frame_process_audio.
  - apply frame_save_conversation.
  - apply frame_load_conversation.
Qed.

Lemma frame_run_calls (ks : list call) c w :
  P c (fst (run_calls py_repr json_dumps json_loads ks c w)).
Proof.
  revert c w. induction ks as [|k ks IH]; intros c w; simpl.
  - apply P_refl.
  - pose proof (frame_run_call k c w) as Hk.
    destruct (run_call py_repr json_dumps json_loads k c w) as [c' w'].
    simpl in Hk. eapply P_trans; [exact Hk|]. apply IH.
Qed.

End Frame.

Lemma same_buffer_refl c : same_buffer c c.
Proof. split; reflexivity. Qed.

Lemma same_buffer_trans c1 c2 c3 :
  same_buffer c1 c2 -> same_buffer c2 c3 -> same_buffer c1 c3.
Proof. intros [H1 H2] [H3 H4]. split; congruence. Qed.

Lemma same_buffer_privacy c b : same_buffer c (set_privacy_mode b c).
Proof. split; reflexivity. Qed.

Lemma same_buffer_stop c b : same_buffer c (set_should_stop b c).
Proof. split; reflexivity. Qed.

Lemma keeps_bound_refl c : keeps_bound c c.
Proof. split; [reflexivity|tauto]. Qed.

Lemma keeps_bound_trans c1 c2 c3 :
  keeps_bound c1 c2 -> keeps_bound c2 c3 -> keeps_bound c1 c3.
Proof. intros [H1 H2] [H3 H4]. split; [congruence|tauto]. Qed.

Lemma keeps_bound_privacy c b : keeps_bound c (set_privacy_mode b c).
Proof. split; [reflexivity|tauto]. Qed.

Lemma keeps_bound_stop c b : keeps_bound c (set_should_stop b c).
Proof. split; [reflexivity|tauto]. Qed.

Lemma keeps_bound_append c (m : pyval number) :
  keeps_bound c
    (set_conversation_history
       (deque_append (max_context_length c) (conversation_history c) m) c).
Proof.
  split; [reflexivity|]. unfold bounded; simpl. apply deque_append_length.
Qed.

Lemma keeps_bound_clear c : keeps_bound c (set_conversation_history [] c).
Proof. split; [reflexivity|]. unfold bounded; simpl. lia. Qed.

(** Every call keeps the capacity and the bound. *)
Lemma run_calls_keeps_bound (ks : list call) c w :
  keeps_bound c (fst (run_calls py_repr json_dumps json_loads ks c w)).
Proof.
  apply frame_run_calls.
  - apply keeps_bound_refl.
  - apply keeps_bound_trans.
  - apply keeps_bound_privacy.
  - apply keeps_bound_stop.
  - apply keeps_bound_append.
  - apply keeps_bound_clear.
Qed.

(** [query_llm] returns a value and leaves the engine as it was. *)
Lemma query_llm_returns prompt c w :
  exists v w', query_llm py_repr prompt c w = (Ok v, c, w').
Proof.
  rewrite query_llm_eq. cbv zeta.
  repeat match goal with
         | |- context [match ?x with _ => _ end] => destruct x
         end; eauto.
Qed.

Lemma handle_conversation_history user_input c w :
  exists response,
    conversation_history (core_of (_handle_conversation py_repr user_input c w)) =
    deque_extend (max_context_length c) (conversation_history c)
      [message "user" (PStr user_input); message "assistant" response].
Proof.
  unfold _handle_conversation, bind, history_append, update, core_of.
  cbn beta iota.
  match goal with |- context [query_llm py_repr user_input ?c1 w] =>
    destruct (query_llm_returns user_input c1 w) as (v & w' & E); rewrite E end.
  cbn beta iota. rewrite speak_eq. exists v. reflexivity.
Qed.

Lemma process_text_input_history text c w :
  exists appended,
    conversation_history (core_of (process_text_input py_repr text c w)) =
    deque_extend (max_context_length c) (conversation_history c) appended
    /\ (appended = []
        \/ appended = [message "user" (PStr text)]
        \/ exists response,
             appended = [message "user" (PStr text); message "assistant" response]).
Proof.
  unfold process_text_input.
  destruct (negb (str_truthy text)).
  { exists []. split; [reflexivity|auto]. }
  destruct (first_command py_repr (str_lower text)) as [[cmd func]|] eqn:E.
  - exists [message "user" (PStr text)]. split; [|auto].
    pose proof (frame_first_command same_buffer same_buffer_refl same_buffer_trans
                  same_buffer_privacy same_buffer_stop _ _ _ E) as Hf.
    unfold bind, history_append, update, core_of. cbn beta iota.
    match goal with |- context [func ?c1 w] =>
      specialize (Hf c1 w); unfold core_of in Hf;
      destruct (func c1 w) as [[[u|e] c2] w2] end;
      simpl in *; destruct Hf as [Hh _]; rewrite Hh; reflexivity.
  - unfold bind, history_append, update, core_of. cbn beta iota.
    match goal with |- context [query_llm py_repr text ?c1 w] =>
      destruct (query_llm_returns text c1 w) as (v & w' & Eq); rewrite Eq end.
    cbn. exists [message "user" (PStr text); message "assistant" v].
    split; [reflexivity|eauto].
Qed.

(** C1: the conversation buffer never holds more than [max_context_length]
    messages, whatever sequence of calls the engine serves; appending
    [max_context_length + k] messages leaves exactly the last
    [max_context_length] of them, in their order; and the conversation path
    and [process_text_input] change the buffer by such appends only. *)
Theorem conversation_buffer_bounded :
  (forall (n : nat) (xs : list (pyval number)),
     length (deque_extend n [] xs) <= n /\ deque_extend n [] xs = last_n n xs)
  /\ (forall (n k : nat) (xs : list (pyval number)),
        length xs = n + k ->
        deque_extend n [] xs = drop k xs /\ length (deque_extend n [] xs) = n)
  /\ (forall wake_word n (ks : list call) w,
        let c := fst (run_calls py_repr json_dumps json_loads ks
                        (FridayCore_init wake_word n) w) in
        max_context_length c = n /\ length (conversation_history c) <= n)
  /\ (forall (ks : list call) c w,
        bounded c ->
        bounded (fst (run_calls py_repr json_dumps json_loads ks c w)))
  /\ (forall user_input c w,
        exists response,
          conversation_history (core_of (_handle_conversation py_repr user_input c w)) =
          deque_extend (max_context_length c) (conversation_history c)
            [message "user" (PStr user_input); message "assistant" response])
  /\ (forall text c w,
        exists appended,
          conversation_history (core_of (process_text_input py_repr text c w)) =
          deque_extend (max_context_length c) (conversation_history c) appended
          /\ (appended = []
              \/ appended = [message "user" (PStr text)]
              \/ exists response,
                   appended = [message "user" (PStr text);
                               message "assistant" response])).
Proof.
  split; [|split; [|split; [|split; [|split]]]].
  - intros n xs. split.
    + apply deque_extend_length. simpl. lia.
    + rewrite deque_extend_last_n by (simpl; lia). reflexivity.
  - intros n k xs Hlen.
    rewrite deque_extend_last_n by (simpl; lia). simpl.
    unfold last_n. rewrite Hlen.
    replace (n + k - n) with k by lia.
    split; [reflexivity|]. rewrite length_drop. lia.
  - intros wake_word n ks w.
    pose proof (run_calls_keeps_bound ks (FridayCore_init wake_word n) w) as [H1 H2].
    cbv zeta. split; [exact H1|].
    rewrite <- H1 at 2. apply H2. unfold bounded; simpl. lia.
  - intros ks c w Hb. apply (run_calls_keeps_bound ks c w). exact Hb.
  - apply handle_conversation_history.
  - apply process_text_input_history.
Qed.

(** ** The LLM bridge absorbs every failure *)

Lemma getitem_raise (v : pyval number) key e :
  getitem v key = Raise e -> is_RequestException e = false.
Proof.
  destruct v; simpl; try (intros [= <-]; reflexivity).
  destruct (dict_get key items); intros [= <-]. reflexivity.
Qed.

Lemma render_context_raise name history context e :
  render_context py_repr name history context = Raise e ->
  is_RequestException e = false.
Proof.
  revert context. induction history as [|m rest IH]; intros context; simpl.
  - discriminate.
  - destruct (getitem m "role") as [role|e1] eqn:E1; simpl.
    2: { intros [= <-]. eapply getitem_raise; exact E1. }
    destruct (getitem m "content") as [content|e2] eqn:E2; simpl.
    2: { intros [= <-]. eapply getitem_raise; exact E2. }
    apply IH.
Qed.

Lemma any_user_turn_raise prompt history e :
  any_user_turn prompt history = Raise e -> is_RequestException e = false.
Proof.
  induction history as [|m rest IH]; simpl.
  - discriminate.
  - destruct (getitem m "content") as [content|e1] eqn:E1; simpl.
    2: { intros [= <-]. eapply getitem_raise; exact E1. }
    destruct (eq_str content prompt); [|exact IH].
    destruct (getitem m "role") as [role|e2] eqn:E2; simpl.
    2: { intros [= <-]. eapply getitem_raise; exact E2. }
    destruct (eq_str role "user"); [discriminate|exact IH].
Qed.

Lemma llm_context_raise name history prompt e :
  llm_context py_repr name history prompt = Raise e ->
  is_RequestException e = false.
Proof.
  unfold llm_context.
  destruct (render_context py_repr name history EmptyString) as [context|e1] eqn:E1; simpl.
  2: { intros [= <-]. eapply render_context_raise; exact E1. }
  destruct (any_user_turn prompt history) as [seen|e2] eqn:E2; simpl.
  2: { intros [= <-]. eapply any_user_turn_raise; exact E2. }
  discriminate.
Qed.

(** C2 (corrected): [query_llm] returns a value for every prompt, engine and
    world.  The reply to a failure goes by the class of the exception, not
    by the step that failed: a [RequestException] gives the text that names
    Ollama, when the request raises it (a connection failure) and also when
    reading the body of an answer of status 200 raises it; a status other
    than 200 gives the "brain" text; every other exception (in the assembly
    of the prompt, in the request, in reading the answer) gives the generic
    apology. *)
Theorem query_llm_never_raises :
  (forall prompt c w,
     exists v w', query_llm py_repr prompt c w = (Ok v, c, w'))
  /\ (forall prompt c w context e,
        llm_context py_repr (name c) (conversation_history c) prompt = Ok context ->
        server w (tick w) (request_data context) = Raise e ->
        is_RequestException e = true ->
        value_of (query_llm py_repr prompt c w) =
        Ok (PStr "I'm having trouble connecting to my language model. Is Ollama running?"))
  /\ (forall prompt c w context r,
        llm_context py_repr (name c) (conversation_history c) prompt = Ok context ->
        server w (tick w) (request_data context) = Ok r ->
        status_code r <> 200%Z ->
        value_of (query_llm py_repr prompt c w) =
        Ok (PStr "I'm having trouble connecting to my brain right now."))
  /\ (forall prompt c w e,
        llm_context py_repr (name c) (conversation_history c) prompt = Raise e ->
        value_of (query_llm py_repr prompt c w) =
        Ok (PStr "I encountered an unexpected error. Please try again."))
  /\ (forall prompt c w context e,
        llm_context py_repr (name c) (conversation_history c) prompt = Ok context ->
        server w (tick w) (request_data context) = Raise e ->
        is_RequestException e = false ->
        value_of (query_llm py_repr prompt c w) =
        Ok (PStr "I encountered an unexpected error. Please try again."))
  /\ (forall prompt c w context r e,
        llm_context py_repr (name c) (conversation_history c) prompt = Ok context ->
        server w (tick w) (request_data context) = Ok r ->
        status_code r = 200%Z ->
        reply_of_response r = Raise e ->
        is_RequestException e = false ->
        value_of (query_llm py_repr prompt c w) =
        Ok (PStr "I encountered an unexpected error. Please try again."))
  /\ (forall prompt c w context r e,
        llm_context py_repr (name c) (conversation_history c) prompt = Ok context ->
        server w (tick w) (request_data context) = Ok r ->
        status_code r = 200%Z ->
        reply_of_response r = Raise e ->
        is_RequestException e = true ->
        value_of (query_llm py_repr prompt c w) =
        Ok (PStr "I'm having trouble connecting to my language model. Is Ollama running?")).
Proof.
  split; [exact query_llm_returns|].
  split; [|split; [|split; [|split; [|split]]]].
  - intros prompt c w context e Hc Hs He.
    rewrite query_llm_eq, Hc. cbv zeta. rewrite Hs.
    unfold value_of, failure_reply. simpl. rewrite He. reflexivity.
  - intros prompt c w context r Hc Hs Hr.
    rewrite query_llm_eq, Hc. cbv zeta. rewrite Hs.
    apply Z.eqb_neq in Hr. rewrite Hr. reflexivity.
  - intros prompt c w e Hc.
    rewrite query_llm_eq, Hc. cbv zeta.
    unfold value_of, failure_reply. simpl.
    rewrite (llm_context_raise _ _ _ _ Hc). reflexivity.
  - intros prompt c w context e Hc Hs He.
    rewrite query_llm_eq, Hc. cbv zeta. rewrite Hs.
    unfold value_of, failure_reply. simpl. rewrite He. reflexivity.
  - intros prompt c w context r e Hc Hs Hr Hj He.
    rewrite query_llm_eq, Hc. cbv zeta. rewrite Hs.
    apply Z.eqb_eq in Hr. rewrite Hr, Hj.
    unfold value_of, failure_reply. simpl. rewrite He. reflexivity.
  - intros prompt c w context r e Hc Hs Hr Hj He.
    rewrite query_llm_eq, Hc. cbv zeta. rewrite Hs.
    apply Z.eqb_eq in Hr. rewrite Hr, Hj.
    unfold value_of, failure_reply. simpl. rewrite He. reflexivity.
Qed.

(** ** Methods that never raise *)

Lemma total_ret {A} (a : A) : total (ret (number := number) a).
Proof. intros c w. exists a. reflexivity. Qed.

Lemma total_bind {A B} (m : M number A) (f : A -> M number B) :
  total m -> (forall a, total (f a)) -> total (bind m f).
Proof.
  intros Hm Hf c w. unfold bind, value_of.
  destruct (Hm c w) as [a Ha]. unfold value_of in Ha.
  destruct (m c w) as [[o c'] w']; simpl in Ha; subst o.
  apply (Hf a c' w').
Qed.

Lemma total_self : total (self (number := number)).
Proof. intros c w. exists c. reflexivity. Qed.

Lemma total_emit (e : event number) : total (emit e).
Proof. intros c w. exists tt. reflexivity. Qed.

Lemma total_update (f : FridayCore number -> FridayCore number) : total (update f).
Proof. intros c w. exists tt. reflexivity. Qed.

Lemma total_datetime_now : total (datetime_now (number := number)).
Proof. intros c w. eexists. reflexivity. Qed.

Lemma total_speak (v : pyval number) : total (speak py_repr v).
Proof. intros c w. rewrite speak_eq. exists tt. reflexivity. Qed.

Lemma total_query_llm prompt : total (query_llm py_repr prompt).
Proof.
  intros c w. destruct (query_llm_returns prompt c w) as (v & w' & E).
  rewrite E. exists v. reflexivity.
Qed.

Ltac total_step :=
  first
    [ apply total_ret | apply total_self | apply total_emit | apply total_update
    | apply total_datetime_now | apply total_speak | apply total_query_llm
    | apply total_bind; [|intros ?]
    | match goal with
      | |- total (if ?b then _ else _) => destruct b
      end ].

Lemma total_commands : Forall (fun entry => total (snd entry)) (commands py_repr).
Proof.
  unfold commands, tell_story, tell_time, toggle_privacy, stop_listening, show_help.
  repeat (constructor; [simpl; repeat total_step|]).
  constructor.
Qed.

Lemma total_first_command text cmd (func : M number unit) :
  first_command py_repr text = Some (cmd, func) -> total func.
Proof.
  intros H. apply first_command_In in H.
  pose proof total_commands as HF. rewrite Forall_forall in HF.
  apply list_elem_of_In in H. apply (HF _ H).
Qed.

(** A command function returns, and leaves the buffer as it found it. *)
Lemma first_command_run text cmd (func : M number unit) c w :
  first_command py_repr text = Some (cmd, func) ->
  exists c' w', func c w = (Ok tt, c', w') /\ same_buffer c c'.
Proof.
  intros H.
  pose proof (total_first_command _ _ _ H c w) as [u Hu].
  pose proof (frame_first_command same_buffer same_buffer_refl same_buffer_trans
                same_buffer_privacy same_buffer_stop _ _ _ H c w) as Hf.
  unfold value_of in Hu. unfold core_of in Hf.
  destruct (func c w) as [[o c'] w']; simpl in *. subst o. destruct u.
  exists c', w'. split; [reflexivity|exact Hf].
Qed.

(** ** The command path of [process_text_input] *)

Lemma deque_append_room {A} n (d : list A) x :
  length d < n -> deque_append n d x = d ++ [x].
Proof.
  intros H. unfold deque_append.
  destruct (n <? length (d ++ [x])) eqn:E; [|reflexivity].
  apply Nat.ltb_lt in E. rewrite length_app in E. simpl in E. lia.
Qed.

Lemma process_text_input_command text c w cmd (func : M number unit) :
  str_truthy text = true ->
  first_command py_repr (str_lower text) = Some (cmd, func) ->
  process_text_input py_repr text c w =
  let c1 := set_conversation_history
              (deque_append (max_context_length c) (conversation_history c)
                 (message "user" (PStr text))) c in
  match func c1 w with
  | (Ok _, c', w') => (Ok (PStr ("Command '" +:+ cmd +:+ "' executed.")), c', w')
  | (Raise e, c', w') => (Raise e, c', w')
  end.
Proof.
  intros Ht Hf. unfold process_text_input. rewrite Ht, Hf. reflexivity.
Qed.

Lemma process_text_input_fallback text c w :
  str_truthy text = true ->
  first_command py_repr (str_lower text) = None ->
  process_text_input py_repr text c w =
  let c1 := set_conversation_history
              (deque_append (max_context_length c) (conversation_history c)
                 (message "user" (PStr text))) c in
  match query_llm py_repr text c1 w with
  | (Ok response, c2, w') =>
      (Ok response,
       set_conversation_history
         (deque_append (max_context_length c2) (conversation_history c2)
            (message "assistant" response)) c2,
       w')
  | (Raise e, c2, w') => (Raise e, c2, w')
  end.
Proof.
  intros Ht Hf. unfold process_text_input. rewrite Ht, Hf. cbn [negb].
  unfold bind, history_append, update, ret. cbn beta iota zeta.
  destruct (query_llm py_repr text _ w) as [[[v|e] c2] w']; reflexivity.
Qed.


(** C3 (amended): an input in which "what time is it" occurs, and
    "tell me a story" does not, makes [process_text_input] return the fixed
    text "Command 'what time is it' executed."; the time of day goes to
    [speak], and the LLM bridge is not entered. *)
Theorem what_time_is_it_command :
  forall text c w,
    str_in "what time is it" (str_lower text) = true ->
    str_in "tell me a story" (str_lower text) = false ->
    let said := PStr ("The current time is " +:+ strftime_IMp (clock w (tick w))) in
    process_text_input py_repr text c w =
    (Ok (PStr "Command 'what time is it' executed."),
     set_conversation_history
       (deque_append (max_context_length c) (conversation_history c)
          (message "user" (PStr text))) c,
     emit_list (speak_events py_repr c said) (tick_world w))
    /\ forallb (fun e => negb (is_llm e)) (speak_events py_repr c said) = true.
Proof.
  intros text c w Htime Hstory said.
  assert (Ht : str_truthy text = true).
  { destruct text; [simpl in Htime; discriminate|reflexivity]. }
  assert (Hf : first_command py_repr (str_lower text)
               = Some ("what time is it", tell_time py_repr)).
  { unfold first_command, commands. cbn [find fst]. rewrite Hstory, Htime.
    reflexivity. }
  split.
  - rewrite (process_text_input_command _ _ _ _ _ Ht Hf). cbv zeta.
    unfold tell_time, bind, datetime_now. cbn beta iota zeta.
    rewrite speak_eq. reflexivity.
  - unfold speak_events. destruct (privacy_mode c); reflexivity.
Qed.

(** ** The privacy gate *)

Lemma query_llm_ext prompt c1 c2 w :
  name c1 = name c2 ->
  conversation_history c1 = conversation_history c2 ->
  value_of (query_llm py_repr prompt c1 w) = value_of (query_llm py_repr prompt c2 w)
  /\ world_of (query_llm py_repr prompt c1 w) = world_of (query_llm py_repr prompt c2 w).
Proof.
  intros Hn Hh. rewrite !query_llm_eq, Hn, Hh. cbv zeta.
  repeat match goal with
         | |- context [match ?x with _ => _ end] => destruct x
         end; split; reflexivity.
Qed.

Lemma query_llm_trace prompt c w :
  exists evs,
    trace (world_of (query_llm py_repr prompt c w)) = trace w ++ evs
    /\ forallb (fun e => negb (is_speech e)) evs = true.
Proof.
  rewrite query_llm_eq. cbv zeta. unfold failure_event.
  repeat match goal with
         | |- context [match ?x with _ => _ end] => destruct x
         | |- context [if ?x then _ else _] => destruct x
         end;
    unfold world_of; simpl; rewrite <- ?app_assoc; simpl;
    eexists; (split; [reflexivity|reflexivity]).
Qed.

(** C7: with privacy enabled [speak] only prints, and never reaches the
    speech engine; with privacy disabled it hands the text to the engine;
    the value [process_text_input] returns does not depend on the privacy
    flag, and on the fallback path with privacy enabled it is the reply of
    [query_llm] and no speech event happens. *)
Theorem privacy_gate :
  (forall (v : pyval number) c w,
     privacy_mode c = true ->
     speak py_repr v c w =
     (Ok tt, c,
      emit_list [Print ("[PRIVACY MODE] " +:+ name c +:+ " would say: "
                        +:+ py_str py_repr v)] w))
  /\ (forall (v : pyval number) c w,
        privacy_mode c = false ->
        speak py_repr v c w =
        (Ok tt, c,
         emit_list [Print (name c +:+ ": " +:+ py_str py_repr v);
                    EngineSay v; EngineRunAndWait] w))
  /\ (forall text c w b,
        value_of (process_text_input py_repr text (set_privacy_mode b c) w) =
        value_of (process_text_input py_repr text c w))
  /\ (forall text c w,
        privacy_mode c = true ->
        str_truthy text = true ->
        first_command py_repr (str_lower text) = None ->
        let c1 := set_conversation_history
                    (deque_append (max_context_length c) (conversation_history c)
                       (message "user" (PStr text))) c in
        value_of (process_text_input py_repr text c w) =
        value_of (query_llm py_repr text c1 w)
        /\ exists evs,
             trace (world_of (process_text_input py_repr text c w)) = trace w ++ evs
             /\ forallb (fun e => negb (is_speech e)) evs = true).
Proof.
  split; [|split; [|split]].
  - intros v c w Hp. rewrite speak_eq. unfold speak_events. rewrite Hp. reflexivity.
  - intros v c w Hp. rewrite speak_eq. unfold speak_events. rewrite Hp. reflexivity.
  - intros text c w b.
    destruct (str_truthy text) eqn:Ht.
    2: { unfold process_text_input. rewrite Ht. reflexivity. }
    destruct (first_command py_repr (str_lower text)) as [[cmd func]|] eqn:Hf.
    + rewrite !(process_text_input_command _ _ _ _ _ Ht Hf). cbv zeta.
      match goal with |- value_of (match func ?c1 w with _ => _ end) =
                         value_of (match func ?c2 w with _ => _ end) =>
        destruct (first_command_run _ _ _ c1 w Hf) as (c1' & w1' & E1 & _);
        destruct (first_command_run _ _ _ c2 w Hf) as (c2' & w2' & E2 & _)
      end.
      rewrite E1, E2. reflexivity.
    + rewrite !(process_text_input_fallback _ _ _ Ht Hf). cbv zeta.
      match goal with |- value_of (match query_llm py_repr text ?c1 w with _ => _ end) =
                         value_of (match query_llm py_repr text ?c2 w with _ => _ end) =>
        destruct (query_llm_ext text c1 c2 w) as [Hv _]; [reflexivity|reflexivity|];
        destruct (query_llm_returns text c1 w) as (v1 & w1 & E1);
        destruct (query_llm_returns text c2 w) as (v2 & w2 & E2)
      end.
      rewrite E1, E2 in Hv. rewrite E1, E2. exact Hv.
  - intros text c w Hp Ht Hf c1.
    rewrite (process_text_input_fallback _ _ _ Ht Hf). cbv zeta. fold c1.
    destruct (query_llm_trace text c1 w) as (evs & Htr & Hev).
    destruct (query_llm_returns text c1 w) as (v & w' & E).
    rewrite E in *. split; [reflexivity|].
    exists evs. split; [exact Htr|exact Hev].
Qed.

(** ** Saving and loading *)

Lemma set_conversation_history_same c :
  set_conversation_history (conversation_history c) c = c.
Proof. destruct c; reflexivity. Qed.

Lemma append_all_eq (messages : list (pyval number)) c w :
  append_all messages c w =
  (Ok tt,
   set_conversation_history
     (deque_extend (max_context_length c) (conversation_history c) messages) c,
   w).
Proof.
  revert c. induction messages as [|m rest IH]; intros c; simpl.
  - unfold ret, deque_extend. simpl. rewrite set_conversation_history_same.
    reflexivity.
  - unfold bind, history_append, update. cbn beta iota. rewrite IH. reflexivity.
Qed.

Lemma load_conversation_eq filepath c w :
  load_conversation json_loads filepath c w =
  match fs w !! filepath with
  | None => (Ok false, c, w)
  | Some (File true _ data) =>
      match json_loads data with
      | None =>
          (Ok false, c,
           emit_world (PrintExn "Error loading conversation: " JSONDecodeError) w)
      | Some loaded_history =>
          match py_iter loaded_history with
          | Ok messages =>
              (Ok true,
               set_conversation_history
                 (deque_extend (max_context_length c) [] messages) c,
               w)
          | Raise e =>
              (Ok false, set_conversation_history [] c,
               emit_world (PrintExn "Error loading conversation: " e) w)
          end
      end
  | Some _ =>
      (Ok false, c, emit_world (PrintExn "Error loading conversation: " OSError) w)
  end.
Proof.
  unfold load_conversation, try_except, bind, os_path_exists, read_file.
  destruct (fs w !! filepath) as [node|] eqn:E; cbn beta iota; [|reflexivity].
  rewrite E. destruct node as [|[|] wr data]; try reflexivity.
  destruct (json_loads data) as [v|]; [|reflexivity].
  unfold ret, update, lift, deque_clear. cbn beta iota.
  destruct (py_iter v) as [messages|e]; [|reflexivity].
  rewrite append_all_eq. reflexivity.
Qed.

Lemma save_conversation_eq filepath c w :
  save_conversation json_dumps filepath c w =
  let text := json_dumps (PList (conversation_history c)) in
  let failed w' :=
    (Ok false, c, emit_world (PrintExn "Error saving conversation: " OSError) w') in
  let written readable :=
    match fs_short_write w filepath text with
    | None => (Ok true, c, set_fs (<[filepath := File readable true text]> (fs w)) w)
    | Some kept => failed (set_fs (<[filepath := File readable true kept]> (fs w)) w)
    end in
  match fs w !! filepath with
  | Some (File r true _) => written r
  | Some _ => failed w
  | None => if fs_can_create w filepath then written true else failed w
  end.
Proof.
  unfold save_conversation, try_except, bind, self, write_file, ret.
  cbn beta iota zeta.
  destruct (fs w !! filepath) as [[|r [|] data]|]; try reflexivity.
  - destruct (fs_short_write w filepath _); reflexivity.
  - destruct (fs_can_create w filepath); [|reflexivity].
    destruct (fs_short_write w filepath _); reflexivity.
Qed.

(** When the file is missing, cannot be read, or holds a text the JSON
    decoder refuses, [load_conversation] returns [False] and leaves the
    buffer, and the whole engine, as it was. *)
Lemma load_conversation_failure_keeps_buffer :
  forall filepath c w,
    match fs w !! filepath with
    | Some (File true _ data) => json_loads data = None
    | _ => True
    end ->
    exists w',
      load_conversation json_loads filepath c w = (Ok false, c, w')
      /\ fs w' = fs w.
Proof.
  intros filepath c w H. rewrite load_conversation_eq.
  destruct (fs w !! filepath) as [[|[|] wr data]|]; eauto.
  rewrite H. eauto.
Qed.

(** [load_conversation] checks no shape.  Whatever value the file decodes
    to, if a [for] loop can run over it (an array, but also an object or a
    string) the items are installed as the buffer, through the bounded
    [append], and [True] is returned; no item is asked for a "role" or a
    "content" key.  [True] is returned in these cases only. *)
Lemma load_conversation_installs_any_items :
  (forall filepath c w wr data loaded_history messages,
     fs w !! filepath = Some (File true wr data) ->
     json_loads data = Some loaded_history ->
     py_iter loaded_history = Ok messages ->
     load_conversation json_loads filepath c w =
     (Ok true,
      set_conversation_history (last_n (max_context_length c) messages) c,
      w))
  /\ (forall filepath c w,
        value_of (load_conversation json_loads filepath c w) = Ok true <->
        exists wr data loaded_history messages,
          fs w !! filepath = Some (File true wr data)
          /\ json_loads data = Some loaded_history
          /\ py_iter loaded_history = Ok messages).
Proof.
  split.
  - intros filepath c w wr data v messages Hf Hj Hi.
    rewrite load_conversation_eq, Hf, Hj, Hi.
    rewrite deque_extend_last_n by (simpl; lia). reflexivity.
  - intros filepath c w. rewrite load_conversation_eq. split.
    + unfold value_of.
      destruct (fs w !! filepath) as [[|[|] wr data]|]; simpl; try discriminate.
      destruct (json_loads data) as [v|] eqn:Hj; simpl; [|discriminate].
      destruct (py_iter v) as [messages|e] eqn:Hi; simpl; [|discriminate].
      intros _. exists wr, data, v, messages. auto.
    + intros (wr & data & v & messages & Hf & Hj & Hi).
      rewrite Hf, Hj, Hi. reflexivity.
Qed.

(** The loader of [optimi_fridayapp.py] installs a loaded value only when
    it has the shape of a session, and otherwise leaves its history as it
    was: this is what [load_conversation] does not do. *)
Lemma load_chat_history_validates filepath (chat_history : list (pyval number)) w :
  match load_chat_history json_loads filepath chat_history w with
  | (true, installed) =>
      exists wr data,
        fs w !! filepath = Some (File true wr data)
        /\ json_loads data = Some (PList installed)
        /\ session_shape (PList installed) = true
  | (false, kept) => kept = chat_history
  end.
Proof.
  unfold load_chat_history.
  destruct (fs w !! filepath) as [[|[|] wr data]|]; try reflexivity.
  destruct (json_loads data) as [v|] eqn:Hj; [|reflexivity].
  destruct (session_shape v) eqn:Hs; [|reflexivity].
  destruct v; try discriminate Hs. simpl. eauto.
Qed.

(** What [save_conversation] wrote, [load_conversation] installs, when the
    JSON text of the buffer decodes to the buffer. *)
Lemma save_then_load :
  forall filepath (c1 c2 : FridayCore number) w,
    let saved := conversation_history c1 in
    json_loads (json_dumps (PList saved)) = Some (PList saved) ->
    length saved <= max_context_length c2 ->
    value_of (save_conversation json_dumps filepath c1 w) = Ok true ->
    (forall wr data, fs w !! filepath <> Some (File false wr data)) ->
    exists w1,
      save_conversation json_dumps filepath c1 w = (Ok true, c1, w1)
      /\ load_conversation json_loads filepath c2 w1 =
         (Ok true, set_conversation_history saved c2, w1).
Proof.
  intros filepath c1 c2 w saved Hrt Hlen Hsave Hread.
  assert (Hlast : deque_extend (max_context_length c2) [] saved = saved).
  { rewrite deque_extend_last_n by (simpl; lia). simpl. unfold last_n.
    replace (length saved - max_context_length c2) with 0 by lia. reflexivity. }
  rewrite save_conversation_eq in *. cbv zeta in *.
  destruct (fs w !! filepath) as [[|r [|] data]|] eqn:E;
    try (unfold value_of in Hsave; simpl in Hsave; discriminate).
  - destruct (fs_short_write w filepath _);
      [unfold value_of in Hsave; simpl in Hsave; discriminate|].
    destruct r; [|exfalso; eapply Hread; reflexivity].
    eexists. split; [reflexivity|].
    rewrite load_conversation_eq. simpl. rewrite lookup_insert_eq.
    fold saved. rewrite Hrt. simpl. rewrite Hlast. reflexivity.
  - destruct (fs_can_create w filepath);
      [|unfold value_of in Hsave; simpl in Hsave; discriminate].
    destruct (fs_short_write w filepath _);
      [unfold value_of in Hsave; simpl in Hsave; discriminate|].
    eexists. split; [reflexivity|].
    rewrite load_conversation_eq. simpl. rewrite lookup_insert_eq.
    fold saved. rewrite Hrt. simpl. rewrite Hlast. reflexivity.
Qed.

(** ** The wake word *)

Lemma replace_from_skip old new k s :
  replace_from old new k s = replace_from old new 0 (str_skip k s).
Proof.
  revert k. induction s as [|ch rest IH]; intros k.
  - destruct k; reflexivity.
  - destruct k as [|k]; [reflexivity|]. simpl. apply IH.
Qed.

(** Replacing [old] by the empty string takes out the first occurrence of
    [old] and goes on in the same way with the text after it: every occurrence goes. *)
Lemma str_replace_split_first old s :
  old <> EmptyString ->
  str_replace old EmptyString s =
  match split_first old s with
  | Some (a, b) => a +:+ str_replace old EmptyString b
  | None => s
  end.
Proof.
  intros Hold. destruct old as [|x old']; [congruence|]. clear Hold.
  unfold str_replace.
  induction s as [|ch rest IH].
  - reflexivity.
  - cbn [replace_from split_first].
    destruct (starts_with (String x old') (String ch rest)) eqn:E.
    + cbn [String.length Nat.sub str_skip String.append].
      rewrite Nat.sub_0_r. apply replace_from_skip.
    + rewrite IH. destruct (split_first (String x old') rest) as [[a b]|];
        reflexivity.
Qed.

Lemma split_first_None p s : str_in p s = false -> split_first p s = None.
Proof.
  induction s as [|ch rest IH]; simpl; intros H.
  - rewrite orb_false_r in H. rewrite H. reflexivity.
  - apply orb_false_iff in H. destruct H as [H1 H2].
    cbn [starts_with] in H1. rewrite H1, (IH H2). reflexivity.
Qed.

Lemma find_existsb {A} (f : A -> bool) (l : list A) :
  existsb f l = match find f l with Some _ => true | None => false end.
Proof.
  induction l as [|x l IH]; simpl; [reflexivity|].
  destruct (f x); [reflexivity|exact IH].
Qed.

(** C6 (amended): the detector tries "hey w", "ok w", "okay w", "hi w", "w"
    in this order; the first pattern that occurs in the transcript is taken
    out at every one of its occurrences (not at the first only), the rest is
    stripped, and that is the command; when no pattern occurs there is no
    command.  Where the pattern occurs once, this is the removal of its
    first occurrence. *)
Theorem wake_command_removes_every_occurrence :
  (forall word : string,
     wake_patterns word =
     ["hey " +:+ word; "ok " +:+ word; "okay " +:+ word; "hi " +:+ word; word])
  /\ (forall (word : string) text,
        wake_command word text =
        match find (fun pattern => str_in pattern text) (wake_patterns word) with
        | Some pattern => Some (str_strip (str_replace pattern EmptyString text))
        | None => None
        end)
  /\ (forall pattern text,
        pattern <> EmptyString ->
        str_replace pattern EmptyString text =
        match split_first pattern text with
        | Some (a, b) => a +:+ str_replace pattern EmptyString b
        | None => text
        end)
  /\ (forall pattern text a b,
        pattern <> EmptyString ->
        split_first pattern text = Some (a, b) ->
        str_in pattern b = false ->
        str_replace pattern EmptyString text = remove_first pattern text)
  /\ wake_command "friday" "hey friday tell me a story" = Some "tell me a story"
  /\ wake_command "friday" "friday" = Some EmptyString.
Proof.
  split; [reflexivity|].
  split.
  { intros word text. unfold wake_command. cbv zeta. rewrite find_existsb.
    destruct (find _ (wake_patterns word)); reflexivity. }
  split; [exact str_replace_split_first|].
  split.
  { intros pattern text a b Hp Hs Hb.
    rewrite (str_replace_split_first _ _ Hp). unfold remove_first. rewrite Hs.
    rewrite (str_replace_split_first _ b Hp), (split_first_None _ _ Hb).
    reflexivity. }
  split; reflexivity.
Qed.

(** ** The prompt *)

Lemma str_app_empty (s : string) : s +:+ EmptyString = s.
Proof.
  induction s as [|ch s IH]; [reflexivity|].
  change (String ch (s +:+ EmptyString) = String ch s). f_equal. exact IH.
Qed.

Lemma str_app_assoc (a b d : string) : (a +:+ b) +:+ d = a +:+ (b +:+ d).
Proof.
  induction a as [|ch a IH]; [reflexivity|].
  change (String ch ((a +:+ b) +:+ d) = String ch (a +:+ (b +:+ d))).
  f_equal. exact IH.
Qed.

Lemma render_context_rendered name history context :
  forallb well_formed history = true ->
  render_context py_repr name history context =
  Ok (context +:+ rendered py_repr name history).
Proof.
  revert context. induction history as [|m rest IH]; intros context Hwf; simpl.
  - rewrite str_app_empty. reflexivity.
  - simpl in Hwf. apply andb_true_iff in Hwf. destruct Hwf as [Hm Hrest].
    unfold well_formed, has_key in Hm. unfold render_line.
    destruct (getitem m "role") as [role|]; [|discriminate].
    destruct (getitem m "content") as [content|]; [|discriminate].
    simpl. rewrite (IH _ Hrest). rewrite !str_app_assoc. reflexivity.
Qed.

Lemma any_user_turn_existsb prompt history :
  forallb well_formed history = true ->
  any_user_turn prompt history = Ok (existsb (is_user_turn prompt) history).
Proof.
  induction history as [|m rest IH]; intros Hwf; simpl; [reflexivity|].
  simpl in Hwf. apply andb_true_iff in Hwf. destruct Hwf as [Hm Hrest].
  unfold well_formed, has_key in Hm. unfold is_user_turn at 1.
  destruct (getitem m "role") as [role|]; [|discriminate].
  destruct (getitem m "content") as [content|]; [|discriminate].
  simpl. destruct (eq_str content prompt); simpl; [|exact (IH Hrest)].
  destruct (eq_str role "user"); simpl; [reflexivity|exact (IH Hrest)].
Qed.

Lemma llm_context_code_context name history prompt :
  forallb well_formed history = true ->
  llm_context py_repr name history prompt =
  Ok (code_context py_repr name history prompt).
Proof.
  intros Hwf. unfold llm_context, code_context.
  rewrite (render_context_rendered _ _ _ Hwf), (any_user_turn_existsb _ _ Hwf).
  simpl. destruct (existsb (is_user_turn prompt) history);
    [rewrite str_app_empty|]; reflexivity.
Qed.

Lemma query_llm_request prompt c w context :
  llm_context py_repr (name c) (conversation_history c) prompt = Ok context ->
  exists rest,
    trace (world_of (query_llm py_repr prompt c w)) =
    trace w ++ EnterQueryLLM prompt
            :: RequestsPost ollama_url (request_data context) :: rest.
Proof.
  intros Hc. rewrite query_llm_eq, Hc. cbv zeta.
  repeat match goal with
         | |- context [match ?x with _ => _ end] => destruct x
         | |- context [if ?x then _ else _] => destruct x
         end;
    unfold world_of; simpl; rewrite <- ?app_assoc; simpl; eexists; reflexivity.
Qed.

Lemma deque_append_snoc {A} n (d : list A) x :
  0 < n -> exists d', deque_append n d x = d' ++ [x] /\ forall y, In y d' -> In y d.
Proof.
  intros Hn. unfold deque_append.
  destruct (n <? length (d ++ [x])) eqn:E.
  - destruct d as [|y d]; simpl in *.
    + apply Nat.ltb_lt in E. lia.
    + exists d. rewrite drop_0. split; [reflexivity|]. intros z Hz. right. exact Hz.
  - exists d. split; [reflexivity|auto].
Qed.

(** C8 (amended): [query_llm] sends the lines of the buffered messages, in
    their order, each with its role prefix, and adds the line of the new user
    turn if and only if no message of the buffer, at any position, is that
    user turn; on the conversation path the turn was appended just before, so
    the prompt is the rendering of the buffer and the turn appears once. *)
Theorem query_llm_prompt_assembly :
  (forall name history context,
     forallb well_formed history = true ->
     render_context py_repr name history context =
     Ok (context +:+ rendered py_repr name history))
  /\ (forall prompt c w,
        forallb well_formed (conversation_history c) = true ->
        exists rest,
          trace (world_of (query_llm py_repr prompt c w)) =
          trace w ++ EnterQueryLLM prompt
                  :: RequestsPost ollama_url
                       (request_data
                          (rendered py_repr (name c) (conversation_history c)
                           +:+ (if existsb (is_user_turn prompt) (conversation_history c)
                                then EmptyString
                                else final_line (name c) prompt)))
                  :: rest)
  /\ (forall user_input c w,
        forallb well_formed (conversation_history c) = true ->
        0 < max_context_length c ->
        let buffer := deque_append (max_context_length c) (conversation_history c)
                        (message "user" (PStr user_input)) in
        exists rest,
          trace (world_of (_handle_conversation py_repr user_input c w)) =
          trace w ++ EnterQueryLLM user_input
                  :: RequestsPost ollama_url
                       (request_data (rendered py_repr (name c) buffer))
                  :: rest).
Proof.
  split; [exact render_context_rendered|]. split.
  - intros prompt c w Hwf.
    apply query_llm_request. apply llm_context_code_context. exact Hwf.
  - intros user_input c w Hwf Hn buffer.
    set (c1 := set_conversation_history buffer c).
    destruct (deque_append_snoc (max_context_length c) (conversation_history c)
                (message "user" (PStr user_input)) Hn) as (d' & Hd & Hin).
    assert (Hwf1 : forallb well_formed (conversation_history c1) = true).
    { simpl. unfold buffer. rewrite Hd. rewrite forallb_app. simpl.
      rewrite andb_true_r. rewrite forallb_forall in *. intros y Hy.
      apply Hwf. apply Hin. exact Hy. }
    assert (Hseen : existsb (is_user_turn user_input) (conversation_history c1) = true).
    { simpl. unfold buffer. rewrite Hd. rewrite existsb_app. simpl.
      unfold is_user_turn. simpl. rewrite String.eqb_refl. simpl.
      apply orb_true_r. }
    assert (Hc : llm_context py_repr (name c1) (conversation_history c1) user_input
                 = Ok (rendered py_repr (name c) buffer)).
    { rewrite (llm_context_code_context _ _ _ Hwf1). unfold code_context.
      rewrite Hseen, str_app_empty. reflexivity. }
    destruct (query_llm_request user_input c1 w _ Hc) as (rest & Htr).
    destruct (query_llm_returns user_input c1 w) as (v & w' & E).
    rewrite E in Htr. unfold world_of in Htr. simpl in Htr.
    unfold _handle_conversation, bind, history_append, update.
    cbn beta iota. fold buffer. fold c1. rewrite E. cbn beta iota.
    rewrite speak_eq. unfold world_of. simpl. rewrite Htr.
    rewrite <- app_assoc. simpl. eexists. reflexivity.
Qed.

End Properties.

(** * The reference reader inverts the reference writer *)

Module RefFacts.

Import Ref.

Lemma str_cons_app c (s t : string) : String c s +:+ t = String c (s +:+ t).
Proof. reflexivity. Qed.

Lemma read_str_escape_char c t :
  read_str (escape_char c +:+ t) =
  match read_str t with
  | Some (u, r) => Some (String c u, r)
  | None => None
  end.
Proof.
  destruct c as [[] [] [] [] [] [] [] []]; reflexivity.
Qed.

Lemma read_str_escape s rest :
  read_str (flat_map_str escape_char s +:+ String dq rest) = Some (s, rest).
Proof.
  induction s as [|c s IH].
  - reflexivity.
  - change (flat_map_str escape_char (String c s))
      with (escape_char c +:+ flat_map_str escape_char s).
    rewrite str_app_assoc, read_str_escape_char, IH. reflexivity.
Qed.

Lemma read_str_dumps_str s rest :
  exists t, dumps_str s +:+ rest = String dq t /\ read_str t = Some (s, rest).
Proof.
  unfold dumps_str. eexists. split.
  - change (String dq (flat_map_str escape_char s) +:+ String dq EmptyString)
      with (String dq (flat_map_str escape_char s +:+ String dq EmptyString)).
    change (String dq ?a +:+ rest) with (String dq (a +:+ rest)).
    reflexivity.
  - rewrite str_app_assoc. apply read_str_escape.
Qed.

Lemma ends_number_digit c rest :
  ends_number (String c rest) = true -> is_digit c = false.
Proof.
  unfold ends_number. intros H. apply negb_true_iff in H.
  repeat (apply orb_false_iff in H; destruct H as [H ?]). exact H.
Qed.

Lemma read_digits_uint d acc rest :
  ends_number rest = true ->
  read_digits acc (NilEmpty.string_of_uint d +:+ rest) = (uint_val d acc, rest).
Proof.
  intros Hrest. revert acc.
  induction d; intros acc;
    try (change (read_digits acc (NilEmpty.string_of_uint (D0 d) +:+ rest))
           with (read_digits (10 * acc + 0)%Z (NilEmpty.string_of_uint d +:+ rest));
         rewrite Z.add_0_r; apply IHd);
    try (cbn [NilEmpty.string_of_uint uint_val]; 
         match goal with |- read_digits _ (String ?c ?s +:+ _) = _ =>
           change (String c s +:+ rest) with (String c (s +:+ rest)) end;
         cbn [read_digits]; 
         match goal with |- context [is_digit ?c] =>
           change (is_digit c) with true end;
         cbn iota; rewrite <- IHd; reflexivity).
  cbn [NilEmpty.string_of_uint uint_val].
  change (EmptyString +:+ rest) with rest.
  destruct rest as [|c rest]; [reflexivity|].
  cbn [read_digits]. rewrite (ends_number_digit _ _ Hrest). reflexivity.
Qed.

Lemma uint_val_pos d acc : uint_val d (Zpos acc) = Zpos (Pos.of_uint_acc d acc).
Proof.
  revert acc. induction d; intros acc; cbn [uint_val Pos.of_uint_acc];
    try reflexivity; rewrite <- IHd; f_equal; lia.
Qed.

Lemma to_uint_head p :
  match Pos.to_uint p with
  | Nil | D0 _ => False
  | _ => True
  end.
Proof.
  pose proof (DecimalPos.Unsigned.to_uint_nonnil p) as Hnil.
  pose proof (DecimalPos.Unsigned.to_uint_nonzero p) as Hzero.
  pose proof (DecimalPos.Unsigned.to_of (Pos.to_uint p)) as Hnorm.
  rewrite DecimalPos.Unsigned.of_to in Hnorm. simpl in Hnorm.
  destruct (Pos.to_uint p) as [|d'| | | | | | | | |] eqn:E; try exact I.
  - congruence.
  - unfold unorm in Hnorm. cbn [nzhead] in Hnorm.
    destruct (nzhead d') eqn:En;
      try (rewrite <- En in Hnorm; symmetry in Hnorm;
           exact (nzhead_nonzero _ _ Hnorm)).
    apply Hzero. exact Hnorm.
Qed.

Lemma read_nat_literal_pos p rest :
  ends_number rest = true ->
  read_nat_literal (NilEmpty.string_of_uint (Pos.to_uint p) +:+ rest)
  = Some (Zpos p, rest).
Proof.
  intros Hrest.
  pose proof (to_uint_head p) as Hhead.
  pose proof (DecimalPos.Unsigned.of_to p) as Hof.
  destruct (Pos.to_uint p) as [|d|d|d|d|d|d|d|d|d|d]; try contradiction;
    cbn [NilEmpty.string_of_uint];
    match goal with |- read_nat_literal (String ?c ?s +:+ _) = _ =>
      change (String c s +:+ rest) with (String c (s +:+ rest)) end;
    unfold read_nat_literal;
    match goal with |- context [is_digit ?c] =>
      change (is_digit c) with true end;
    cbn iota;
    match goal with |- context [nat_of_ascii ?c =? 48] =>
      change (nat_of_ascii c =? 48) with false end;
    cbn iota;
    match goal with |- context [Z.of_nat (nat_of_ascii ?c - 48)] =>
      let v := eval vm_compute in (Z.of_nat (nat_of_ascii c - 48)) in
      change (Z.of_nat (nat_of_ascii c - 48)) with v end;
    rewrite (read_digits_uint _ _ _ Hrest), uint_val_pos;
    cbn [Pos.of_uint] in Hof; injection Hof as ->;
    (destruct rest as [|c rest];
     [reflexivity
     |unfold ends_number in Hrest; apply negb_true_iff in Hrest;
      rewrite Hrest; reflexivity]).
Qed.

Lemma pyval_Z_ind (P : pyval Z -> Prop) :
  P PNone ->
  (forall b, P (PBool b)) ->
  (forall n, P (PNum n)) ->
  (forall s, P (PStr s)) ->
  (forall items, Forall P items -> P (PList items)) ->
  (forall items, Forall (fun kv => P (snd kv)) items -> P (PDict items)) ->
  forall v, P v.
Proof.
  intros HNone HBool HNum HStr HList HDict.
  fix IH 1. intros [ | b | n | s | items | items].
  - exact HNone.
  - apply HBool.
  - apply HNum.
  - apply HStr.
  - apply HList.
    revert items. fix IHl 1. intros [|x items].
    + constructor.
    + constructor; [apply IH|apply IHl].
  - apply HDict.
    revert items. fix IHl 1. intros [|[k x] items].
    + constructor.
    + constructor; [apply IH|apply IHl].
Qed.

Lemma skip_space_indent n s : skip_space (indent n +:+ s) = skip_space s.
Proof.
  induction n as [|n IH]; [reflexivity|].
  change (indent (S n) +:+ s) with (String " " (String " " (indent n +:+ s))).
  exact IH.
Qed.

Lemma skip_space_newline_indent n s :
  skip_space (newline_indent n +:+ s) = skip_space s.
Proof.
  change (newline_indent n +:+ s) with (String (ascii_of_nat 10) (indent n +:+ s)).
  change (skip_space (String (ascii_of_nat 10) (indent n +:+ s)))
    with (skip_space (indent n +:+ s)).
  apply skip_space_indent.
Qed.

Lemma read_value_space fuel c s :
  is_json_space c = true -> read_value fuel (String c s) = read_value fuel s.
Proof.
  intros Hc. destruct fuel as [|f]; [reflexivity|].
  cbn [read_value skip_space]. rewrite Hc. reflexivity.
Qed.

Lemma read_value_newline_indent fuel n s :
  read_value fuel (newline_indent n +:+ s) = read_value fuel s.
Proof.
  destruct fuel as [|f]; [reflexivity|].
  cbn [read_value]. rewrite skip_space_newline_indent. reflexivity.
Qed.

(** One step of each reader. *)
Lemma read_value_quote f t :
  read_value (S f) (String dq t) =
  match read_str t with
  | Some (s, r) => Some (PStr s, r)
  | None => None
  end.
Proof. reflexivity. Qed.

Lemma read_value_bracket f R :
  read_value (S f) (String "[" R) =
  match skip_space R with
  | String c r => if nat_of_ascii c =? 93 then Some (PList [], r) else read_elements f R []
  | EmptyString => None
  end.
Proof. reflexivity. Qed.

Lemma read_value_brace f R :
  read_value (S f) (String "{" R) =
  match skip_space R with
  | String c r => if nat_of_ascii c =? 125 then Some (PDict [], r) else read_members f R []
  | EmptyString => None
  end.
Proof. reflexivity. Qed.

Lemma read_value_minus f R :
  read_value (S f) (String "-" R) =
  match read_nat_literal R with
  | Some (z, r) => Some (PNum (- z)%Z, r)
  | None => None
  end.
Proof. reflexivity. Qed.

Lemma read_value_digit f c s :
  is_digit c = true ->
  read_value (S f) (String c s) =
  match read_nat_literal (String c s) with
  | Some (z, r) => Some (PNum z, r)
  | None => None
  end.
Proof.
  destruct c as [[] [] [] [] [] [] [] []]; intros H;
    first [discriminate H | reflexivity].
Qed.

Lemma read_elements_step f s acc :
  read_elements (S f) s acc =
  match read_value f s with
  | Some (v, r) =>
      match skip_space r with
      | String c r' =>
          if nat_of_ascii c =? 44 then read_elements f r' (acc ++ [v])
          else if nat_of_ascii c =? 93 then Some (PList (acc ++ [v]), r')
          else None
      | EmptyString => None
      end
  | None => None
  end.
Proof. reflexivity. Qed.

Lemma read_members_step f t acc :
  read_members (S f) (String dq t) acc =
  match read_str t with
  | Some (k, r1) =>
      match skip_space r1 with
      | String c r2 =>
          if nat_of_ascii c =? 58 then
            match read_value f r2 with
            | Some (v, r3) =>
                match skip_space r3 with
                | String c' r4 =>
                    if nat_of_ascii c' =? 44
                    then read_members f r4 (dict_set k v acc)
                    else if nat_of_ascii c' =? 125
                    then Some (PDict (dict_set k v acc), r4)
                    else None
                | EmptyString => None
                end
            | None => None
            end
          else None
      | EmptyString => None
      end
  | None => None
  end.
Proof. reflexivity. Qed.

Lemma read_members_skip f n s acc :
  read_members f (newline_indent n +:+ s) acc = read_members f (skip_space s) acc.
Proof.
  destruct f as [|f]; [reflexivity|].
  cbn [read_members]. rewrite skip_space_newline_indent.
  assert (H : skip_space (skip_space s) = skip_space s).
  { induction s as [|c s IH]; [reflexivity|]. cbn [skip_space].
    destruct (is_json_space c) eqn:E; [exact IH|]. cbn [skip_space]. rewrite E.
    reflexivity. }
  rewrite H. reflexivity.
Qed.

(** The first character of the text of a number. *)
Lemma string_of_uint_head p :
  exists c s, NilEmpty.string_of_uint (Pos.to_uint p) = String c s /\ is_digit c = true.
Proof.
  pose proof (to_uint_head p) as H.
  destruct (Pos.to_uint p); try contradiction;
    cbn [NilEmpty.string_of_uint]; eexists _, _; split; reflexivity.
Qed.

(** The text of a value starts with a character that is no space and no
    closing bracket. *)
Lemma dumps_at_head level v rest :
  exists c t,
    dumps_at level v +:+ rest = String c t
    /\ is_json_space c = false
    /\ (nat_of_ascii c =? 93) = false.
Proof.
  destruct v as [ | [|] | z | s | [|x xs] | [|[k x] xs]];
    try (eexists _, _; split; [reflexivity|split; reflexivity]).
  destruct z as [|p|p].
  - eexists _, _; split; [reflexivity|split; reflexivity].
  - destruct (string_of_uint_head p) as (c & s & E & Hc).
    exists c, (s +:+ rest). split.
    + change (dumps_at level (PNum (Z.pos p)))
        with (NilEmpty.string_of_uint (Pos.to_uint p)).
      rewrite E. reflexivity.
    + destruct c as [[] [] [] [] [] [] [] []]; try discriminate Hc;
        split; reflexivity.
  - eexists _, _; split; [reflexivity|split; reflexivity].
Qed.

Lemma skip_space_dumps_at level v rest :
  skip_space (dumps_at level v +:+ rest) = dumps_at level v +:+ rest.
Proof.
  destruct (dumps_at_head level v rest) as (c & t & E & Hc & _).
  rewrite E. cbn [skip_space]. rewrite Hc. reflexivity.
Qed.

Lemma dict_set_fresh k (v : pyval Z) acc :
  existsb (String.eqb k) (map fst acc) = false ->
  dict_set k v acc = acc ++ [(k, v)].
Proof.
  induction acc as [|[k' v'] acc IH]; simpl; intros H; [reflexivity|].
  apply orb_false_iff in H. destruct H as [H1 H2].
  rewrite String.eqb_sym, H1. rewrite (IH H2). reflexivity.
Qed.

Lemma distinct_app_fresh (a : list string) k b :
  distinct (a ++ k :: b) = true -> existsb (String.eqb k) a = false.
Proof.
  induction a as [|x a IH]; simpl; intros H; [reflexivity|].
  apply andb_true_iff in H. destruct H as [H1 H2].
  apply negb_true_iff in H1. rewrite existsb_app in H1.
  apply orb_false_iff in H1. destruct H1 as [_ H1]. simpl in H1.
  apply orb_false_iff in H1. destruct H1 as [H1 _].
  rewrite String.eqb_sym, H1. simpl. apply IH. exact H2.
Qed.

Lemma read_elements_dumps level rest (xs : list (pyval Z)) :
  Forall reads xs ->
  forallb json_wf xs = true ->
  forall x acc fuel,
    reads x ->
    json_wf x = true ->
    S (need x + fold_right (fun y n => S (need y + n)) 0 xs) <= fuel ->
    read_elements fuel
      (newline_indent (S level) +:+ dumps_at (S level) x
       +:+ dumps_elements (dumps_at (S level)) (newline_indent (S level)) xs
       +:+ newline_indent level +:+ "]" +:+ rest) acc
    = Some (PList (acc ++ x :: xs), rest).
Proof.
  induction 1 as [|y ys Hy Hys IH]; intros Hwf x acc fuel Hx Hwx Hfuel.
  - destruct fuel as [|g]; [lia|]. simpl in Hfuel.
    rewrite read_elements_step, read_value_newline_indent.
    rewrite (Hx Hwx (S level) _ g) by (try lia; reflexivity).
    change (dumps_elements (dumps_at (S level)) (newline_indent (S level)) []
            +:+ newline_indent level +:+ "]" +:+ rest)
      with (newline_indent level +:+ String "]" rest).
    rewrite skip_space_newline_indent. reflexivity.
  - destruct fuel as [|g]; [lia|]. cbn [fold_right] in Hfuel.
    cbn [forallb] in Hwf. apply andb_true_iff in Hwf. destruct Hwf as [Hwy Hwys].
    rewrite read_elements_step, read_value_newline_indent.
    rewrite (Hx Hwx (S level) _ g) by (try lia; reflexivity).
    cbn [dumps_elements]. rewrite !str_app_assoc.
    change ("," +:+ ?s) with (String "," s).
    cbn [skip_space]. change (is_json_space ",") with false. cbn iota.
    change (nat_of_ascii "," =? 44) with true. cbn iota.
    rewrite (IH Hwys y (acc ++ [x]) g Hy Hwy) by lia.
    rewrite <- app_assoc. reflexivity.
Qed.

Lemma read_members_dumps level rest (xs : list (string * pyval Z)) :
  Forall (fun kv => reads (snd kv)) xs ->
  forallb (fun kv => json_wf (snd kv)) xs = true ->
  forall k x acc fuel,
    reads x ->
    json_wf x = true ->
    distinct (map fst (acc ++ (k, x) :: xs)) = true ->
    S (need x + fold_right (fun kv n => S (need (snd kv) + n)) 0 xs) <= fuel ->
    read_members fuel
      (newline_indent (S level) +:+ dumps_str k +:+ ": " +:+ dumps_at (S level) x
       +:+ dumps_members (dumps_at (S level)) (newline_indent (S level)) xs
       +:+ newline_indent level +:+ "}" +:+ rest) acc
    = Some (PDict (acc ++ (k, x) :: xs), rest).
Proof.
  induction 1 as [|[k' y] ys Hy Hys IH]; intros Hwf k x acc fuel Hx Hwx Hd Hfuel.
  - destruct fuel as [|g]; [lia|]. simpl in Hfuel.
    rewrite read_members_skip.
    destruct (read_str_dumps_str k
                (": " +:+ dumps_at (S level) x
                 +:+ dumps_members (dumps_at (S level)) (newline_indent (S level)) []
                 +:+ newline_indent level +:+ "}" +:+ rest)) as (t & Et & Ht).
    rewrite Et. cbn [skip_space]. change (is_json_space dq) with false. cbn iota.
    rewrite read_members_step, Ht.
    change (": " +:+ ?s) with (String ":" (String " " s)).
    cbn [skip_space]. change (is_json_space ":") with false. cbn iota.
    change (nat_of_ascii ":" =? 58) with true. cbn iota.
    rewrite read_value_space by reflexivity.
    rewrite (Hx Hwx (S level) _ g) by (try lia; reflexivity).
    change (dumps_members (dumps_at (S level)) (newline_indent (S level)) []
            +:+ newline_indent level +:+ "}" +:+ rest)
      with (newline_indent level +:+ String "}" rest).
    rewrite skip_space_newline_indent.
    cbn [skip_space]. change (is_json_space "}") with false. cbn iota.
    change (nat_of_ascii "}" =? 44) with false.
    change (nat_of_ascii "}" =? 125) with true. cbn iota.
    rewrite dict_set_fresh; [reflexivity|].
    rewrite map_app in Hd. simpl in Hd. eapply distinct_app_fresh. exact Hd.
  - destruct fuel as [|g]; [lia|]. cbn [fold_right snd] in Hfuel.
    cbn [forallb snd] in Hwf. apply andb_true_iff in Hwf. destruct Hwf as [Hwy Hwys].
    simpl in Hy.
    rewrite read_members_skip.
    destruct (read_str_dumps_str k
                (": " +:+ dumps_at (S level) x
                 +:+ dumps_members (dumps_at (S level)) (newline_indent (S level))
                       ((k', y) :: ys)
                 +:+ newline_indent level +:+ "}" +:+ rest)) as (t & Et & Ht).
    rewrite Et. cbn [skip_space]. change (is_json_space dq) with false. cbn iota.
    rewrite read_members_step, Ht.
    change (": " +:+ ?s) with (String ":" (String " " s)).
    cbn [skip_space]. change (is_json_space ":") with false. cbn iota.
    change (nat_of_ascii ":" =? 58) with true. cbn iota.
    rewrite read_value_space by reflexivity.
    rewrite (Hx Hwx (S level) _ g) by (try lia; reflexivity).
    cbn [dumps_members]. rewrite !str_app_assoc.
    change ("," +:+ ?s) with (String "," s).
    cbn [skip_space]. change (is_json_space ",") with false. cbn iota.
    change (nat_of_ascii "," =? 44) with true. cbn iota.
    assert (Hfresh : existsb (String.eqb k) (map fst acc) = false).
    { rewrite map_app in Hd. simpl in Hd. eapply distinct_app_fresh. exact Hd. }
    rewrite (dict_set_fresh _ _ _ Hfresh).
    rewrite (IH Hwys k' y (acc ++ [(k, x)]) g Hy Hwy).
    + rewrite <- app_assoc. reflexivity.
    + rewrite <- app_assoc. exact Hd.
    + lia.
Qed.

Lemma read_value_dumps_at v : reads v.
Proof.
  induction v as [ | b | z | s | items IH | items IH] using pyval_Z_ind;
    intros Hwf level rest fuel Hfuel Hrest;
    (destruct fuel as [|f]; [simpl in Hfuel; lia|]).
  - reflexivity.
  - destruct b; reflexivity.
  - destruct z as [|p|p].
    + change (dumps_at level (PNum 0%Z) +:+ rest) with (String "0" rest).
      rewrite read_value_digit by reflexivity.
      unfold read_nat_literal. change (is_digit "0") with true. cbn iota.
      change (nat_of_ascii "0" =? 48) with true. cbn iota.
      destruct rest as [|c rest]; [reflexivity|].
      unfold ends_number in Hrest. apply negb_true_iff in Hrest.
      rewrite Hrest. reflexivity.
    + change (dumps_at level (PNum (Z.pos p)))
        with (NilEmpty.string_of_uint (Pos.to_uint p)).
      pose proof (read_nat_literal_pos p rest Hrest) as Hread.
      destruct (string_of_uint_head p) as (c & t & E & Hc).
      rewrite E in *. rewrite str_cons_app in *.
      rewrite (read_value_digit _ _ _ Hc), Hread. reflexivity.
    + change (dumps_at level (PNum (Z.neg p)) +:+ rest)
        with (String "-" (NilEmpty.string_of_uint (Pos.to_uint p) +:+ rest)).
      rewrite read_value_minus, (read_nat_literal_pos p rest Hrest). reflexivity.
  - destruct (read_str_dumps_str s rest) as (t & Et & Ht).
    change (dumps_at level (PStr s)) with (dumps_str s).
    rewrite Et, read_value_quote, Ht. reflexivity.
  - destruct items as [|x xs]; [reflexivity|].
    cbn [json_wf forallb] in Hwf. apply andb_true_iff in Hwf.
    destruct Hwf as [Hwx Hwxs].
    apply Forall_cons in IH. destruct IH as [Hx Hxs].
    cbn [need fold_right] in Hfuel.
    cbn [dumps_at]. rewrite !str_app_assoc.
    change ("[" +:+ ?s) with (String "[" s).
    rewrite read_value_bracket, skip_space_newline_indent.
    destruct (dumps_at_head (S level) x
                (dumps_elements (dumps_at (S level)) (newline_indent (S level)) xs
                 +:+ newline_indent level +:+ "]" +:+ rest))
      as (c & t & E & Hc & Hb).
    rewrite E. cbn [skip_space]. rewrite Hc, Hb. rewrite <- E.
    apply (read_elements_dumps level rest xs Hxs Hwxs x [] f Hx Hwx). lia.
  - destruct items as [|[k x] xs]; [reflexivity|].
    cbn [json_wf forallb map fst snd] in Hwf. apply andb_true_iff in Hwf.
    destruct Hwf as [Hd Hwf]. apply andb_true_iff in Hwf.
    destruct Hwf as [Hwx Hwxs].
    apply Forall_cons in IH. destruct IH as [Hx Hxs]. simpl in Hx.
    cbn [need fold_right snd] in Hfuel.
    cbn [dumps_at]. rewrite !str_app_assoc.
    change ("{" +:+ ?s) with (String "{" s).
    rewrite read_value_brace, skip_space_newline_indent.
    destruct (read_str_dumps_str k
                (": " +:+ dumps_at (S level) x
                 +:+ dumps_members (dumps_at (S level)) (newline_indent (S level)) xs
                 +:+ newline_indent level +:+ "}" +:+ rest)) as (t & Et & _).
    rewrite Et. cbn [skip_space]. change (is_json_space dq) with false. cbn iota.
    change (nat_of_ascii dq =? 125) with false. cbn iota. rewrite <- Et.
    apply (read_members_dumps level rest xs Hxs Hwxs k x [] f Hx Hwx Hd). lia.
Qed.

Lemma str_length_app (a b : string) :
  String.length (a +:+ b) = String.length a + String.length b.
Proof.
  induction a as [|c a IH]; [reflexivity|].
  change (S (String.length (a +:+ b)) = S (String.length a + String.length b)).
  f_equal. exact IH.
Qed.

Lemma newline_indent_length n : 1 <= String.length (newline_indent n).
Proof. unfold newline_indent. rewrite str_length_app. simpl. lia. Qed.

Lemma need_le_length v : forall level, need v <= String.length (dumps_at level v).
Proof.
  induction v as [ | b | z | s | items IH | items IH] using pyval_Z_ind;
    intros level.
  - simpl. lia.
  - destruct b; simpl; lia.
  - destruct (dumps_at_head level (PNum z) EmptyString) as (c & t & E & _).
    rewrite str_app_empty in E. rewrite E. simpl. lia.
  - change (dumps_at level (PStr s)) with (dumps_str s). unfold dumps_str.
    rewrite str_cons_app. simpl. lia.
  - destruct items as [|x xs]; [simpl; lia|].
    apply Forall_cons in IH. destruct IH as [Hx Hxs].
    cbn [need fold_right dumps_at]. rewrite !str_length_app.
    specialize (Hx (S level)).
    pose proof (newline_indent_length (S level)) as Hsep.
    assert (Hrest : fold_right (fun y n => S (need y + n)) 0 xs
                    <= String.length
                         (dumps_elements (dumps_at (S level))
                            (newline_indent (S level)) xs)).
    { clear Hx. induction Hxs as [|y ys Hy Hys IHys]; [simpl; lia|].
      cbn [fold_right dumps_elements]. rewrite !str_length_app.
      specialize (Hy (S level)). lia. }
    change (String.length "[") with 1. lia.
  - destruct items as [|[k x] xs]; [simpl; lia|].
    apply Forall_cons in IH. destruct IH as [Hx Hxs]. simpl in Hx.
    cbn [need fold_right dumps_at snd]. rewrite !str_length_app.
    specialize (Hx (S level)).
    pose proof (newline_indent_length (S level)) as Hsep.
    assert (Hrest : fold_right (fun kv n => S (need (snd kv) + n)) 0 xs
                    <= String.length
                         (dumps_members (dumps_at (S level))
                            (newline_indent (S level)) xs)).
    { clear Hx. induction Hxs as [|[k' y] ys Hy Hys IHys]; [simpl; lia|].
      cbn [fold_right dumps_members snd]. rewrite !str_length_app.
      simpl in Hy. specialize (Hy (S level)). lia. }
    change (String.length "{") with 1. lia.
Qed.

(** The reference reader inverts the reference writer. *)
Theorem loads_dumps v : json_wf v = true -> loads (dumps v) = Some v.
Proof.
  intros Hwf. unfold loads, dumps.
  pose proof (need_le_length v 0) as Hneed.
  pose proof (read_value_dumps_at v Hwf 0 EmptyString
                (2 * String.length (dumps_at 0 v) + 2)) as Hread.
  rewrite str_app_empty in Hread. rewrite Hread; [reflexivity|lia|reflexivity].
Qed.

End RefFacts.


(** * The properties at work on the reference instance *)

Import Scenario.

(** The scenario of the specification: capacity 2; "hi", "hello", "bye" are
    appended; the buffer holds "hello" and "bye". *)
Lemma conversation_buffer_bounded_witness :
  let xs : list (pyval Z) :=
    [message "user" (PStr "hi"); message "assistant" (PStr "hello");
     message "user" (PStr "bye")] in
  length xs = 2 + 1
  /\ deque_extend 2 [] xs =
     [message "assistant" (PStr "hello"); message "user" (PStr "bye")]
  /\ bounded (fst (run_calls Ref.repr Ref.dumps Ref.loads
                     [Call_process_text_input "hello"; Call_process_text_input "help"]
                     friday world0)).
Proof.
  cbv zeta.
  destruct (conversation_buffer_bounded Ref.repr Ref.dumps Ref.loads)
    as (_ & Hdrop & _ & Hbounded & _).
  split; [reflexivity|]. split.
  - destruct (Hdrop 2 1
                [message "user" (PStr "hi"); message "assistant" (PStr "hello");
                 message "user" (PStr "bye")]) as [H _]; [reflexivity|].
    exact H.
  - apply Hbounded. unfold bounded. simpl. lia.
Defined.

(** The server is unreachable, or answers 500, or the buffer holds a
    message without keys, or the request raises another exception, or the
    answer is no object, or its body cannot be read. *)
Lemma query_llm_never_raises_witness :
  value_of (query_llm Ref.repr "hello" friday world0) =
    Ok (PStr "I'm having trouble connecting to my language model. Is Ollama running?")
  /\ value_of (query_llm Ref.repr "hello" friday
                 (world_with_server (answering 500 PNone))) =
     Ok (PStr "I'm having trouble connecting to my brain right now.")
  /\ value_of (query_llm Ref.repr "hello" (friday_with [PNum 1%Z]) world0) =
     Ok (PStr "I encountered an unexpected error. Please try again.")
  /\ value_of (query_llm Ref.repr "hello" friday
                 (world_with_server (fun _ _ => Raise (OtherException "ValueError")))) =
     Ok (PStr "I encountered an unexpected error. Please try again.")
  /\ value_of (query_llm Ref.repr "hello" friday
                 (world_with_server (answering 200 (PList [])))) =
     Ok (PStr "I encountered an unexpected error. Please try again.")
  /\ value_of (query_llm Ref.repr "hello" friday (world_with_server undecodable)) =
     Ok (PStr "I'm having trouble connecting to my language model. Is Ollama running?").
Proof.
  destruct (query_llm_never_raises Ref.repr) as (_ & H1 & H2 & H3 & H4 & H5 & H6).
  split; [|split; [|split; [|split; [|split]]]].
  - eapply (H1 "hello" friday world0); reflexivity.
  - eapply (H2 "hello" friday (world_with_server (answering 500 PNone)));
      [reflexivity|reflexivity|discriminate].
  - eapply (H3 "hello" (friday_with [PNum 1%Z]) world0). reflexivity.
  - eapply (H4 "hello" friday
              (world_with_server (fun _ _ => Raise (OtherException "ValueError"))));
      reflexivity.
  - eapply (H5 "hello" friday (world_with_server (answering 200 (PList []))));
      reflexivity.
  - eapply (H6 "hello" friday (world_with_server undecodable)); reflexivity.
Defined.

(** C2 as stated fails: the server is reached and answers with status 200,
    so there is neither a connection failure nor a status other than 200,
    and the body is no JSON.  The failure to read it is not answered with
    the generic apology: the reply is the text that names Ollama. *)
Lemma query_llm_undecodable_body_counterexample :
  let w := world_with_server undecodable in
  (exists context r,
     llm_context Ref.repr (name friday) (conversation_history friday) "hello" = Ok context
     /\ server w (tick w) (request_data context) = Ok r
     /\ status_code r = 200%Z)
  /\ value_of (query_llm Ref.repr "hello" friday w) <>
     Ok (PStr "I encountered an unexpected error. Please try again.")
  /\ value_of (query_llm Ref.repr "hello" friday w) =
     Ok (PStr "I'm having trouble connecting to my language model. Is Ollama running?").
Proof.
  cbv zeta. split; [|split].
  - eexists _, _. split; [reflexivity|]. split; reflexivity.
  - vm_compute. discriminate.
  - reflexivity.
Qed.

Lemma what_time_is_it_command_witness :
  str_in "what time is it" (str_lower "What time is it?") = true
  /\ str_in "tell me a story" (str_lower "What time is it?") = false
  /\ process_text_input Ref.repr "What time is it?" friday world0 =
     (Ok (PStr "Command 'what time is it' executed."),
      friday_with [message "user" (PStr "What time is it?")],
      emit_list [Print "FRIDAY: The current time is 03:07 PM";
                 EngineSay (PStr "The current time is 03:07 PM");
                 EngineRunAndWait] (tick_world world0)).
Proof.
  split; [reflexivity|]. split; [reflexivity|].
  destruct (what_time_is_it_command Ref.repr "What time is it?" friday world0)
    as [H _]; [reflexivity|reflexivity|].
  exact H.
Defined.

(** C3 as stated fails: the value returned for "What time is it?" shows no
    time of day. *)
Lemma what_time_is_it_counterexample :
  ~ (exists s,
       value_of (process_text_input Ref.repr "What time is it?" friday world0)
       = Ok (PStr s)
       /\ time_formatted s = true).
Proof.
  intros (s & Hs & Ht). vm_compute in Hs. injection Hs as <-.
  vm_compute in Ht. discriminate.
Qed.

Example load_conversation_unparseable_example :
  Ref.loads "{oops" = None
  /\ exists w',
       load_conversation Ref.loads "session.json" (friday_with chat)
         (world_with_file "session.json" "{oops")
       = (Ok false, friday_with chat, w').
Proof.
  split; [reflexivity|].
  destruct (load_conversation_failure_keeps_buffer Ref.loads "session.json"
              (friday_with chat) (world_with_file "session.json" "{oops"))
    as (w' & H & _).
  - simpl. rewrite lookup_insert_eq. reflexivity.
  - exists w'. exact H.
Qed.

(** C4 (the code at the failing inputs): the engine holds two messages.  A
    session file that holds the number 5, which is no array, makes
    [load_conversation] return [False] after it emptied the buffer; a file
    that holds an array of numbers, not of messages, is loaded with success
    and replaces the buffer. *)
Theorem load_conversation_bad_shape_runs :
  let c := friday_with chat in
  let load data :=
    load_conversation Ref.loads "session.json" c (world_with_file "session.json" data) in
  (Ref.loads "5" = Some (PNum 5%Z) /\ session_shape (PNum 5%Z) = false
   /\ load "5" =
      (Ok false, friday_with [],
       emit_world (PrintExn "Error loading conversation: " TypeError)
         (world_with_file "session.json" "5"))
   /\ conversation_history (core_of (load "5")) <> conversation_history c)
  /\ (Ref.loads "[1]" = Some (PList [PNum 1%Z])
      /\ session_shape (PList [PNum 1%Z]) = false
      /\ load "[1]" =
         (Ok true, friday_with [PNum 1%Z], world_with_file "session.json" "[1]")).
Proof.
  cbv zeta. repeat split; try reflexivity.
  vm_compute. discriminate.
Qed.

Example load_conversation_array_example :
  Ref.loads "[1, 2]" = Some (PList [PNum 1%Z; PNum 2%Z])
  /\ load_conversation Ref.loads "session.json" (friday_with chat)
       (world_with_file "session.json" "[1, 2]")
     = (Ok true, friday_with [PNum 1%Z; PNum 2%Z],
        world_with_file "session.json" "[1, 2]").
Proof.
  split; [reflexivity|].
  destruct (load_conversation_installs_any_items Ref.loads) as [H _].
  rewrite (H "session.json" (friday_with chat)
             (world_with_file "session.json" "[1, 2]")
             true "[1, 2]" (PList [PNum 1%Z; PNum 2%Z]) [PNum 1%Z; PNum 2%Z]).
  - reflexivity.
  - simpl. rewrite lookup_insert_eq. reflexivity.
  - reflexivity.
  - reflexivity.
Qed.

(** C5 (the code at the failing input): a session file whose only element
    is an object without a "content" key does not have the shape of a
    session, and [load_conversation] loads it with success: the element
    becomes the buffer.  With this buffer [query_llm] can no longer assemble
    a prompt: whatever the prompt and the server, it answers the generic
    apology. *)
Theorem load_conversation_no_validation_runs :
  let element : pyval Z := PDict [("role", PStr "user")] in
  let data := Ref.dumps (PList [element]) in
  Ref.loads data = Some (PList [element])
  /\ session_shape (PList [element]) = false
  /\ load_conversation Ref.loads "session.json" friday
       (world_with_file "session.json" data)
     = (Ok true, friday_with [element], world_with_file "session.json" data)
  /\ forall prompt (w : World Z),
       value_of (query_llm Ref.repr prompt (friday_with [element]) w)
       = Ok (PStr "I encountered an unexpected error. Please try again.").
Proof.
  cbv zeta. split; [reflexivity|]. split; [reflexivity|]. split; [reflexivity|].
  intros prompt w. rewrite query_llm_eq. reflexivity.
Qed.

Lemma wake_command_removes_every_occurrence_witness :
  "friday" <> EmptyString
  /\ split_first "friday" "hey friday tell me" = Some ("hey ", " tell me")
  /\ str_in "friday" " tell me" = false
  /\ str_replace "friday" EmptyString "hey friday tell me"
     = remove_first "friday" "hey friday tell me"
  /\ str_replace "friday" EmptyString "friday play friday"
     = EmptyString +:+ str_replace "friday" EmptyString " play friday".
Proof.
  assert (Hne : "friday" <> EmptyString) by discriminate.
  split; [exact Hne|]. split; [reflexivity|]. split; [reflexivity|].
  destruct wake_command_removes_every_occurrence as (_ & _ & Hall & Honce & _).
  split.
  - apply (Honce "friday" "hey friday tell me" "hey " " tell me");
      [exact Hne|reflexivity|reflexivity].
  - exact (Hall "friday" "friday play friday" Hne).
Defined.

(** C6 as stated fails: the wake word occurs twice, and both occurrences
    are removed, not the first only. *)
Lemma wake_command_counterexample :
  wake_command "friday" "friday play friday" = Some "play"
  /\ spec_wake_command "friday" "friday play friday" = Some "play friday"
  /\ wake_command "friday" "friday play friday"
     <> spec_wake_command "friday" "friday play friday".
Proof.
  split; [reflexivity|]. split; [reflexivity|]. vm_compute. discriminate.
Qed.

Lemma privacy_gate_witness :
  let private := set_privacy_mode true friday in
  privacy_mode private = true
  /\ speak Ref.repr (PStr "hello") private world0 =
     (Ok tt, private,
      emit_list [Print "[PRIVACY MODE] FRIDAY would say: hello"] world0)
  /\ speak Ref.repr (PStr "hello") friday world0 =
     (Ok tt, friday,
      emit_list [Print "FRIDAY: hello"; EngineSay (PStr "hello"); EngineRunAndWait]
        world0)
  /\ value_of (process_text_input Ref.repr "good morning" private world0) =
     value_of (query_llm Ref.repr "good morning"
                 (set_conversation_history [message "user" (PStr "good morning")] private)
                 world0).
Proof.
  cbv zeta.
  destruct (privacy_gate Ref.repr) as (Hon & Hoff & _ & Hreply).
  split; [reflexivity|]. split; [|split].
  - apply (Hon (PStr "hello") (set_privacy_mode true friday) world0). reflexivity.
  - apply (Hoff (PStr "hello") friday world0). reflexivity.
  - destruct (Hreply "good morning" (set_privacy_mode true friday) world0)
      as [H _]; [reflexivity|reflexivity|reflexivity|].
    exact H.
Defined.

Lemma query_llm_prompt_assembly_witness :
  forallb well_formed (conversation_history (friday_with chat)) = true
  /\ 0 < max_context_length (friday_with chat)
  /\ exists rest,
       trace (world_of (_handle_conversation Ref.repr "bye" (friday_with chat) world0)) =
       trace world0 ++
       EnterQueryLLM "bye"
       :: RequestsPost ollama_url
            (request_data
               (rendered Ref.repr "FRIDAY" (chat ++ [message "user" (PStr "bye")])))
       :: rest.
Proof.
  assert (Hwf : forallb well_formed (conversation_history (friday_with chat)) = true)
    by reflexivity.
  assert (Hn : 0 < max_context_length (friday_with chat)) by (simpl; lia).
  split; [exact Hwf|]. split; [exact Hn|].
  destruct (query_llm_prompt_assembly Ref.repr) as (_ & _ & H).
  exact (H "bye" (friday_with chat) world0 Hwf Hn).
Defined.

(** C8 as stated fails: the buffer holds the user turn "hi" and then the
    assistant turn "hello"; for the prompt "hi" the most recent entry is not
    that turn, yet no line is added for it. *)
Lemma query_llm_prompt_counterexample :
  let c := friday_with chat in
  last (conversation_history c) = Some (message "assistant" (PStr "hello"))
  /\ is_user_turn "hi" (message (number := Z) "assistant" (PStr "hello")) = false
  /\ ~ (exists rest,
          trace (world_of (query_llm Ref.repr "hi" c world0)) =
          EnterQueryLLM "hi"
          :: RequestsPost ollama_url
               (request_data (spec_context Ref.repr (name c) (conversation_history c) "hi"))
          :: rest).
Proof.
  cbv zeta. split; [reflexivity|]. split; [reflexivity|].
  intros (rest & H). vm_compute in H. discriminate.
Qed.



(** * Substrings, case and surrounding space *)

Lemma starts_with_app (p r : string) : starts_with p (p +:+ r) = true.
Proof.
  induction p as [|a p IH]; [reflexivity|].
  change (starts_with (String a p) (String a (p +:+ r)) = true).
  simpl. rewrite Ascii.eqb_refl. exact IH.
Qed.

Lemma starts_with_inv (p s : string) :
  starts_with p s = true -> exists r, s = p +:+ r.
Proof.
  revert s. induction p as [|a p IH]; intros s H.
  - exists s. reflexivity.
  - destruct s as [|b s]; [discriminate|]. simpl in H.
    apply andb_true_iff in H as [Hab Hp]. apply Ascii.eqb_eq in Hab. subst b.
    destruct (IH s Hp) as [r ->]. exists r. reflexivity.
Qed.

Lemma str_in_unfold (sub s : string) :
  str_in sub s =
  starts_with sub s
  || match s with
     | EmptyString => false
     | String _ rest => str_in sub rest
     end.
Proof. destruct s; reflexivity. Qed.

Lemma str_in_app (a sub b : string) : str_in sub (a +:+ sub +:+ b) = true.
Proof.
  induction a as [|ch a IH].
  - change (str_in sub (sub +:+ b) = true).
    rewrite str_in_unfold, starts_with_app. reflexivity.
  - change (str_in sub (String ch (a +:+ sub +:+ b)) = true).
    rewrite str_in_unfold, IH. apply orb_true_r.
Qed.

Lemma str_in_inv (sub s : string) :
  str_in sub s = true -> exists a b, s = a +:+ sub +:+ b.
Proof.
  induction s as [|ch s IH]; intros H; rewrite str_in_unfold in H;
    apply orb_true_iff in H as [H|H].
  - apply starts_with_inv in H as [r ->]. exists EmptyString, r. reflexivity.
  - discriminate.
  - apply starts_with_inv in H as [r ->]. exists EmptyString, r. reflexivity.
  - destruct (IH H) as (a & b & ->). exists (String ch a), b. reflexivity.
Qed.

Lemma str_in_trans (a b t : string) :
  str_in a b = true -> str_in b t = true -> str_in a t = true.
Proof.
  intros Hab Hbt.
  apply str_in_inv in Hab as (x & y & ->).
  apply str_in_inv in Hbt as (u & v & ->).
  replace (u +:+ (x +:+ a +:+ y) +:+ v) with ((u +:+ x) +:+ a +:+ (y +:+ v))
    by (rewrite !str_app_assoc; reflexivity).
  apply str_in_app.
Qed.

Lemma str_in_refl (s : string) : str_in s s = true.
Proof.
  rewrite <- (str_app_empty s) at 2.
  apply (str_in_app EmptyString s EmptyString).
Qed.

Lemma str_in_suffix (p s : string) : str_in s (p +:+ s) = true.
Proof.
  rewrite <- (str_app_empty s) at 2. apply str_in_app.
Qed.

Lemma append_length (a b : string) :
  String.length (a +:+ b) = String.length a + String.length b.
Proof.
  induction a as [|c a IH]; [reflexivity|].
  change (S (String.length (a +:+ b)) = S (String.length a) + String.length b).
  rewrite IH. reflexivity.
Qed.

Lemma str_in_length (p s : string) :
  str_in p s = true -> String.length p <= String.length s.
Proof.
  intros H. apply str_in_inv in H as (a & b & ->).
  rewrite !append_length. lia.
Qed.

Lemma lower_char_idem (c : ascii) : lower_char (lower_char c) = lower_char c.
Proof.
  destruct c as [[] [] [] [] [] [] [] []]; vm_compute; reflexivity.
Qed.

Lemma str_lower_idem (s : string) : str_lower (str_lower s) = str_lower s.
Proof.
  induction s as [|c s IH]; [reflexivity|].
  simpl. rewrite lower_char_idem, IH. reflexivity.
Qed.

Lemma str_lstrip_no_lead (s : string) : no_lead (str_lstrip s).
Proof.
  induction s as [|c s IH]; [exact I|].
  simpl. destruct (is_space c) eqn:E; [exact IH|exact E].
Qed.

Lemma str_lstrip_fixed (s : string) : no_lead s -> str_lstrip s = s.
Proof.
  destruct s as [|c s]; [reflexivity|]. simpl. intros ->. reflexivity.
Qed.

Lemma str_rstrip_cons (c : ascii) (s : string) :
  is_space c = false -> str_rstrip (String c s) = String c (str_rstrip s).
Proof.
  intros H. simpl. destruct (str_rstrip s); [rewrite H|]; reflexivity.
Qed.

Lemma str_rstrip_no_lead (s : string) : no_lead s -> no_lead (str_rstrip s).
Proof.
  destruct s as [|c s]; [intros _; exact I|].
  intros H. simpl in H. rewrite (str_rstrip_cons _ _ H). exact H.
Qed.

Lemma str_rstrip_idem (s : string) : str_rstrip (str_rstrip s) = str_rstrip s.
Proof.
  induction s as [|c s IH]; [reflexivity|].
  simpl. destruct (str_rstrip s) as [|a r] eqn:E.
  - destruct (is_space c) eqn:Ec; [reflexivity|].
    simpl. rewrite Ec. reflexivity.
  - simpl. simpl in IH. rewrite IH. reflexivity.
Qed.

Lemma str_strip_idem (s : string) : str_strip (str_strip s) = str_strip s.
Proof.
  unfold str_strip.
  rewrite (str_lstrip_fixed (str_rstrip (str_lstrip s))).
  - apply str_rstrip_idem.
  - apply str_rstrip_no_lead, str_lstrip_no_lead.
Qed.

(** * [analyze_sentiment] *)

(** X1: [analyze_sentiment] looks for the words of joy first, and
    finds "happy" inside "unhappy": a text in which "unhappy" occurs, in
    whatever case, is classified "happy", whatever else it says.  The word
    "unhappy" of the second list decides no classification. *)
Theorem analyze_sentiment_unhappy_is_happy (text : string) :
  str_in "unhappy" (str_lower text) = true ->
  analyze_sentiment text = "happy".
Proof.
  intros H. unfold analyze_sentiment, any_word_in.
  cbn [existsb].
  rewrite (str_in_trans "happy" "unhappy" (str_lower text) eq_refl H).
  reflexivity.
Qed.

(** X2: [analyze_sentiment] ignores the case of its text: two texts
    that differ in case only get the same label, and the label of a text is
    the label of its lower-case form. *)
Theorem analyze_sentiment_ignores_case (text other : string) :
  analyze_sentiment (str_lower text) = analyze_sentiment text
  /\ (str_lower other = str_lower text ->
      analyze_sentiment other = analyze_sentiment text).
Proof.
  unfold analyze_sentiment. split.
  - rewrite str_lower_idem. reflexivity.
  - intros ->. reflexivity.
Qed.

(** * The wake word *)

Lemma wake_patterns_detect (wake_word text : string) :
  existsb (fun pattern => str_in pattern text) (wake_patterns wake_word)
  = str_in wake_word text.
Proof.
  unfold wake_patterns. cbn [existsb].
  destruct (str_in wake_word text) eqn:E.
  - rewrite !orb_true_r. reflexivity.
  - assert (H : forall p, str_in (p +:+ wake_word) text = false).
    { intros p. destruct (str_in (p +:+ wake_word) text) eqn:Ep; [|reflexivity].
      rewrite (str_in_trans _ _ _ (str_in_suffix p wake_word) Ep) in E.
      discriminate. }
    rewrite !H. reflexivity.
Qed.

Lemma wake_command_absent (wake_word text : string) :
  str_in wake_word text = false -> wake_command wake_word text = None.
Proof.
  intros H. unfold wake_command. cbv zeta.
  rewrite wake_patterns_detect, H. reflexivity.
Qed.

(** X3: the wake word is detected exactly when it occurs in the
    transcript: the four greeting patterns take no part in the detection,
    they only decide what is cut out. *)
Theorem wake_word_detected_iff_it_occurs (wake_word text : string) :
  (wake_command wake_word text = None <-> str_in wake_word text = false)
  /\ ((exists command, wake_command wake_word text = Some command)
      <-> str_in wake_word text = true).
Proof.
  unfold wake_command. cbv zeta. rewrite wake_patterns_detect.
  destruct (str_in wake_word text); split; split; intros H; try discriminate;
    try reflexivity.
  - destruct (find _ _); discriminate.
  - destruct (find _ _); eexists; reflexivity.
  - destruct H as [? H]. discriminate.
Qed.

(** X4: the command cut out of a transcript has no white space at
    either end. *)
Theorem wake_command_is_stripped (wake_word text command : string) :
  wake_command wake_word text = Some command ->
  str_lstrip command = command /\ str_rstrip command = command.
Proof.
  unfold wake_command. cbv zeta.
  destruct (existsb _ _); [|discriminate].
  destruct (find _ _) as [pattern|]; intros [= <-]; [|split; reflexivity].
  unfold str_strip. split.
  - apply str_lstrip_fixed, str_rstrip_no_lead, str_lstrip_no_lead.
  - apply str_rstrip_idem.
Qed.

Lemma str_skip_all (s : string) : str_skip (String.length s) s = EmptyString.
Proof. induction s as [|c s IH]; [reflexivity|exact IH]. Qed.

Lemma starts_with_refl (s : string) : starts_with s s = true.
Proof.
  rewrite <- (str_app_empty s) at 2. apply starts_with_app.
Qed.

Lemma str_replace_self (p : string) : str_replace p EmptyString p = EmptyString.
Proof.
  destruct p as [|a p]; [reflexivity|].
  rewrite str_replace_split_first by discriminate.
  assert (E : split_first (String a p) (String a p)
              = Some (EmptyString, EmptyString)).
  { unfold split_first. rewrite starts_with_refl, str_skip_all. reflexivity. }
  rewrite E. reflexivity.
Qed.

Lemma str_in_longer (p s : string) :
  String.length s < String.length p -> str_in p s = false.
Proof.
  intros H. destruct (str_in p s) eqn:E; [|reflexivity].
  apply str_in_length in E. lia.
Qed.

Lemma wake_command_bare (wake_word text : string) :
  text = wake_word \/ text = "hey " +:+ wake_word ->
  wake_command wake_word text = Some EmptyString.
Proof.
  intros H. unfold wake_command. cbv zeta. rewrite wake_patterns_detect.
  destruct H as [-> | ->].
  - rewrite str_in_refl. unfold wake_patterns. cbn [find].
    rewrite !str_in_longer by (rewrite append_length; simpl; lia).
    rewrite str_in_refl, str_replace_self. reflexivity.
  - rewrite str_in_suffix. unfold wake_patterns. cbn [find].
    rewrite str_in_refl, str_replace_self. reflexivity.
Qed.

Section FurtherProperties.

Context {number : Type}.
Variable py_repr : pyval number -> string.
Variable json_dumps : pyval number -> string.
Variable json_loads : string -> option (pyval number).

Implicit Types (c : FridayCore number) (w : World number).

(** ** Audio and voice commands *)

(** X5: audio that is not recognised, or whose transcript does not
    hold the wake word, is dropped: the engine is unchanged, nothing is
    spoken, no request is made; the transcript is printed, no more. *)
Theorem process_audio_without_wake_word (a : audio) c w :
  match recognize a with
  | None => _process_audio py_repr a c w = (Ok tt, c, w)
  | Some text =>
      str_in (wake_word c) (str_lower text) = false ->
      _process_audio py_repr a c w =
      (Ok tt, c, emit_world (Print ("Recognized: " +:+ str_lower text)) w)
  end.
Proof.
  unfold _process_audio. destruct (recognize a) as [text|]; [|reflexivity].
  intros H. unfold bind, emit, self, ret.
  rewrite (wake_command_absent _ _ H). reflexivity.
Qed.

(** X6: a transcript that is the wake word alone, or "hey" and the
    wake word, makes the engine ask "How can I help you?": nothing reaches
    the language model and the engine is unchanged. *)
Theorem process_audio_bare_wake_word (a : audio) (text : string) c w :
  recognize a = Some text ->
  str_lower text = wake_word c \/ str_lower text = "hey " +:+ wake_word c ->
  _process_audio py_repr a c w =
  (Ok tt, c,
   emit_list (Print ("Recognized: " +:+ str_lower text)
              :: speak_events py_repr c (PStr "How can I help you?")) w).
Proof.
  intros Ha Ht. unfold _process_audio. rewrite Ha.
  unfold bind, emit, self. cbn beta iota.
  rewrite (wake_command_bare _ _ Ht).
  unfold _process_command. cbn [str_truthy negb].
  rewrite speak_eq, emit_world_one, emit_list_emit_list. reflexivity.
Qed.

Lemma first_command_truthy (command cmd : string) (func : M number unit) :
  first_command py_repr command = Some (cmd, func) -> str_truthy command = true.
Proof.
  destruct command; [|reflexivity]. intros H. vm_compute in H. discriminate.
Qed.

(** X7: a command given by voice runs its handler and leaves the
    conversation buffer as it was: unlike a typed command, the spoken
    command is not recorded as a user turn. *)
Theorem voice_command_is_not_recorded (command cmd : string) (func : M number unit) c w :
  first_command py_repr command = Some (cmd, func) ->
  _process_command py_repr command c w = func c w
  /\ value_of (_process_command py_repr command c w) = Ok tt
  /\ conversation_history (core_of (_process_command py_repr command c w))
     = conversation_history c.
Proof.
  intros H. unfold _process_command.
  rewrite (first_command_truthy _ _ _ H), H. cbn [negb].
  destruct (first_command_run py_repr _ _ _ c w H) as (c' & w' & E & Hb & _).
  rewrite E. repeat split. exact Hb.
Qed.

(** ** Privacy *)

(** X8: [toggle_privacy] flips the flag and speaks under the new
    value of the flag: the confirmation that privacy was enabled is
    printed and never vocalised, the confirmation that it was disabled is
    vocalised.  Two toggles in a row restore the engine. *)
Theorem toggle_privacy_announcement c w :
  toggle_privacy py_repr c w =
  (Ok tt, set_privacy_mode (negb (privacy_mode c)) c,
   emit_list
     (if privacy_mode c then
        [Print (name c +:+ ": Privacy shield deactivated. Normal operations resumed.");
         EngineSay (PStr "Privacy shield deactivated. Normal operations resumed.");
         EngineRunAndWait]
      else
        [Print ("[PRIVACY MODE] " +:+ name c
                +:+ " would say: Privacy shield activated. I'll be more discreet.")])
     w)
  /\ core_of (toggle_privacy py_repr
                (core_of (toggle_privacy py_repr c w))
                (world_of (toggle_privacy py_repr c w))) = c.
Proof.
  destruct c as [nm ww il ss pm n h].
  unfold toggle_privacy, bind, update, self, core_of, world_of.
  destruct pm; cbn beta iota; simpl; rewrite !speak_eq; split; reflexivity.
Qed.

Lemma existsb_forallb_negb {A} (f : A -> bool) (l : list A) :
  forallb (fun x => negb (f x)) l = true -> existsb f l = false.
Proof.
  induction l as [|x l IH]; [reflexivity|]. simpl.
  intros H. apply andb_true_iff in H as [Hx Hl].
  rewrite (IH Hl). destruct (f x); [discriminate|reflexivity].
Qed.

Lemma silent_ret {A} (a : A) : silent (ret (number := number) a).
Proof.
  intros c w Hp. split; [exact Hp|]. exists []. split; [|reflexivity].
  simpl. rewrite app_nil_r. reflexivity.
Qed.

Lemma silent_bind {A B} (m : M number A) (f : A -> M number B) :
  silent m -> (forall a, silent (f a)) -> silent (bind m f).
Proof.
  intros Hm Hf c w Hp. destruct (Hm c w Hp) as (Hp1 & evs1 & E1 & S1).
  unfold bind, core_of, world_of in *.
  destruct (m c w) as [[[a|e] c1] w1]; simpl in *.
  - destruct (Hf a c1 w1 Hp1) as (Hp2 & evs2 & E2 & S2).
    unfold core_of, world_of in *.
    split; [exact Hp2|]. exists (evs1 ++ evs2). split.
    + rewrite E2, E1, app_assoc. reflexivity.
    + rewrite existsb_app, S1, S2. reflexivity.
  - split; [exact Hp1|]. exists evs1. split; assumption.
Qed.

Lemma silent_self : silent (self (number := number)).
Proof.
  intros c w Hp. split; [exact Hp|]. exists []. split; [|reflexivity].
  simpl. rewrite app_nil_r. reflexivity.
Qed.

Lemma silent_emit (e : event number) : is_speech e = false -> silent (emit e).
Proof.
  intros He c w Hp. split; [exact Hp|]. exists [e]. split; [reflexivity|].
  simpl. rewrite He. reflexivity.
Qed.

Lemma silent_update (f : FridayCore number -> FridayCore number) :
  (forall c, privacy_mode (f c) = privacy_mode c) -> silent (update f).
Proof.
  intros Hf c w Hp. split; [unfold core_of, update; simpl; rewrite Hf; exact Hp|].
  exists []. split; [|reflexivity]. simpl. rewrite app_nil_r. reflexivity.
Qed.

Lemma silent_datetime_now : silent (datetime_now (number := number)).
Proof.
  intros c w Hp. split; [exact Hp|]. exists []. split; [|reflexivity].
  simpl. rewrite app_nil_r. reflexivity.
Qed.

Lemma silent_speak (v : pyval number) : silent (speak py_repr v).
Proof.
  intros c w Hp. rewrite speak_eq. split; [exact Hp|].
  unfold speak_events. rewrite Hp. eexists. split; reflexivity.
Qed.

Lemma silent_query_llm (prompt : string) : silent (query_llm py_repr prompt).
Proof.
  intros c w Hp.
  destruct (query_llm_trace py_repr prompt c w) as (evs & E & S).
  destruct (query_llm_returns py_repr prompt c w) as (v & w' & Eq).
  rewrite Eq in *. split; [exact Hp|]. exists evs. split; [exact E|].
  apply existsb_forallb_negb. exact S.
Qed.

Lemma silent_history_append (m : pyval number) : silent (history_append m).
Proof. apply silent_update. reflexivity. Qed.

Lemma silent_handle_conversation (user_input : string) :
  silent (_handle_conversation py_repr user_input).
Proof.
  unfold _handle_conversation.
  apply silent_bind; [apply silent_history_append|intros _].
  apply silent_bind; [apply silent_query_llm|intros response].
  apply silent_bind; [apply silent_history_append|intros _].
  apply silent_speak.
Qed.

Lemma silent_tell_story : silent (tell_story py_repr).
Proof.
  unfold tell_story.
  apply silent_bind; [apply silent_speak|intros _]. cbv zeta.
  apply silent_bind; [apply silent_query_llm|intros story]. apply silent_speak.
Qed.

Lemma silent_tell_time : silent (tell_time py_repr).
Proof.
  unfold tell_time.
  apply silent_bind; [apply silent_datetime_now|intros now]. apply silent_speak.
Qed.

Lemma silent_stop_listening : silent (stop_listening py_repr).
Proof.
  unfold stop_listening.
  apply silent_bind; [apply silent_speak|intros _].
  apply silent_update. reflexivity.
Qed.

Lemma silent_show_help : silent (show_help py_repr).
Proof. unfold show_help. apply silent_speak. Qed.

Lemma silent_first_command (text cmd : string) (func : M number unit) :
  str_in "privacy shield" text = false ->
  str_in "privacy mode" text = false ->
  first_command py_repr text = Some (cmd, func) ->
  silent func.
Proof.
  intros H1 H2 H. pose proof (first_command_In py_repr _ _ _ H) as Hin.
  apply find_some in H as [_ Hocc]. simpl in Hocc.
  unfold commands in Hin. simpl in Hin.
  repeat (destruct Hin as [Hin|Hin];
          [injection Hin as <- <-;
           first [ apply silent_tell_story | apply silent_tell_time
                 | apply silent_stop_listening | apply silent_show_help
                 | congruence ]|]).
  contradiction.
Qed.

(** X9: while privacy is enabled, an input that does not name the
    privacy command, typed as [text] or spoken as [command], leaves privacy
    enabled and reaches the speech engine at no point: commands,
    conversation and error replies are printed only. *)
Theorem privacy_silences_every_input (text command : string) c w :
  privacy_mode c = true ->
  str_in "privacy shield" (str_lower text) = false ->
  str_in "privacy mode" (str_lower text) = false ->
  str_in "privacy shield" command = false ->
  str_in "privacy mode" command = false ->
  (privacy_mode (core_of (process_text_input py_repr text c w)) = true
   /\ exists evs,
        trace (world_of (process_text_input py_repr text c w)) = trace w ++ evs
        /\ existsb is_speech evs = false)
  /\ (privacy_mode (core_of (_process_command py_repr command c w)) = true
      /\ exists evs,
           trace (world_of (_process_command py_repr command c w)) = trace w ++ evs
           /\ existsb is_speech evs = false).
Proof.
  intros Hp H1 H2 H3 H4. split.
  - assert (S : silent (process_text_input py_repr text)).
    { unfold process_text_input.
      destruct (negb (str_truthy text)); [apply silent_ret|].
      apply silent_bind; [apply silent_history_append|intros _].
      destruct (first_command py_repr (str_lower text)) as [[cmd func]|] eqn:E.
      - apply silent_bind; [|intros _; apply silent_ret].
        exact (silent_first_command _ _ _ H1 H2 E).
      - apply silent_bind; [apply silent_query_llm|intros response].
        apply silent_bind; [apply silent_history_append|intros _].
        apply silent_ret. }
    exact (S c w Hp).
  - assert (S : silent (_process_command py_repr command)).
    { unfold _process_command.
      destruct (negb (str_truthy command)); [apply silent_speak|].
      destruct (first_command py_repr command) as [[cmd func]|] eqn:E.
      - exact (silent_first_command _ _ _ H3 H4 E).
      - apply silent_handle_conversation. }
    exact (S c w Hp).
Qed.

(** ** The consumer loop of [listen] *)

Lemma listen_loop_eq (gets : list (option audio)) c w :
  listen_loop py_repr gets c w =
  if should_stop c then (Ok true, c, w)
  else
    match gets with
    | [] => (Ok false, c, w)
    | got :: rest =>
        match
          match got with
          | Some audio_data => _process_audio py_repr audio_data c w
          | None => (Ok tt, c, w)
          end
        with
        | (Ok _, c1, w1) => listen_loop py_repr rest c1 w1
        | (Raise e, c1, w1) => (Raise e, c1, w1)
        end
    end.
Proof.
  destruct gets as [|[a|] rest]; simpl; unfold bind at 1, self; cbn beta iota;
    destruct (should_stop c); try reflexivity.
Qed.

Lemma listen_loop_left (gets : list (option audio)) c w :
  value_of (listen_loop py_repr gets c w) = Ok true ->
  should_stop (core_of (listen_loop py_repr gets c w)) = true
  /\ forall more,
       listen_loop py_repr (gets ++ more) c w = listen_loop py_repr gets c w.
Proof.
  revert c w. induction gets as [|got rest IH]; intros c w H.
  - rewrite listen_loop_eq in H |- *.
    destruct (should_stop c) eqn:E; [|discriminate].
    split; [exact E|]. intros more. rewrite listen_loop_eq, E. reflexivity.
  - rewrite listen_loop_eq in H |- *.
    destruct (should_stop c) eqn:E.
    + split; [exact E|]. intros more. rewrite listen_loop_eq, E. reflexivity.
    + destruct (match got with
                | Some audio_data => _process_audio py_repr audio_data c w
                | None => (Ok tt, c, w)
                end) as [[[[]|e] c1] w1] eqn:E1; [|discriminate].
      destruct (IH c1 w1 H) as [Hs Hm]. split; [exact Hs|].
      intros more. simpl app. rewrite (listen_loop_eq (got :: rest ++ more)), E, E1.
      apply Hm.
Qed.

Lemma listen_eq (gets : list (option audio)) c w :
  listen py_repr gets c w =
  let c0 := set_should_stop false (set_is_listening true c) in
  let w0 := emit_world (Print ("Listening for wake word: 'Hey " +:+ name c +:+ "'")) w in
  match listen_loop py_repr gets c0 w0 with
  | (Ok true, c1, w1) =>
      (Ok true, set_is_listening false c1,
       emit_world (Print (name c1 +:+ " has stopped listening.")) w1)
  | r => r
  end.
Proof.
  unfold listen, bind, update, self, emit. cbn beta iota zeta.
  destruct (listen_loop py_repr gets _ _) as [[[[|]|e] c1] w1]; reflexivity.
Qed.


(** ** The buffer stays well formed *)

Lemma forallb_deque_append {A} (f : A -> bool) n (d : list A) x :
  forallb f d = true -> f x = true -> forallb f (deque_append n d x) = true.
Proof.
  intros Hd Hx. unfold deque_append.
  assert (H : forallb f (d ++ [x]) = true).
  { rewrite forallb_app, Hd. simpl. rewrite Hx. reflexivity. }
  destruct (n <? length (d ++ [x])); [|exact H].
  apply forallb_forall. intros y Hy.
  rewrite forallb_forall in H. apply H.
  apply list_elem_of_In. apply list_elem_of_In in Hy.
  apply (subseteq_drop 1 (d ++ [x])). exact Hy.
Qed.

Lemma forallb_deque_extend {A} (f : A -> bool) n (xs d : list A) :
  forallb f d = true -> forallb f xs = true ->
  forallb f (deque_extend n d xs) = true.
Proof.
  revert d. induction xs as [|x xs IH]; intros d Hd Hxs; [exact Hd|].
  simpl in Hxs. apply andb_true_iff in Hxs as [Hx Hxs].
  unfold deque_extend. simpl. apply IH; [|exact Hxs].
  apply forallb_deque_append; assumption.
Qed.

Lemma well_formed_message (role : string) (content : pyval number) :
  well_formed (message role content) = true.
Proof. reflexivity. Qed.

Lemma process_command_history (command : string) c w :
  exists appended,
    conversation_history (core_of (_process_command py_repr command c w)) =
    deque_extend (max_context_length c) (conversation_history c) appended
    /\ (appended = []
        \/ exists response,
             appended = [message "user" (PStr command); message "assistant" response]).
Proof.
  unfold _process_command.
  destruct (negb (str_truthy command)).
  - rewrite speak_eq. exists []. split; [reflexivity|left; reflexivity].
  - destruct (first_command py_repr command) as [[cmd func]|] eqn:E.
    + destruct (first_command_run py_repr _ _ _ c w E) as (c' & w' & R & Hb & _).
      rewrite R. exists []. split; [exact Hb|left; reflexivity].
    + destruct (handle_conversation_history py_repr command c w) as [response H].
      eexists. split; [exact H|]. right. exists response. reflexivity.
Qed.

Lemma process_audio_history (a : audio) c w :
  exists appended,
    conversation_history (core_of (_process_audio py_repr a c w)) =
    deque_extend (max_context_length c) (conversation_history c) appended
    /\ forallb well_formed appended = true.
Proof.
  unfold _process_audio.
  destruct (recognize a) as [text|];
    [|exists []; split; reflexivity].
  unfold bind at 1 2, emit, self. cbn beta iota.
  destruct (wake_command (wake_word c) (str_lower text)) as [command|];
    [|exists []; split; reflexivity].
  destruct (process_command_history command c
              (emit_world (Print ("Recognized: " +:+ str_lower text)) w))
    as (appended & H & [->|[response ->]]);
    eexists; (split; [exact H|reflexivity]).
Qed.

Lemma healthy_run_call (k : call) c w :
  not_a_load k = true ->
  healthy c ->
  healthy (fst (run_call py_repr json_dumps json_loads k c w)).
Proof.
  intros Hk Hc. unfold healthy in *.
  destruct k as [text|user_input|command|a|filepath|filepath];
    [| | | | |discriminate]; unfold run_call, state_after; cbn [fst].
  - destruct (process_text_input_history py_repr text c w)
      as (appended & H & [->|[->|[response ->]]]);
      unfold core_of in H; rewrite H;
      apply forallb_deque_extend; try exact Hc; reflexivity.
  - destruct (handle_conversation_history py_repr user_input c w) as [response H].
    unfold core_of in H. rewrite H.
    apply forallb_deque_extend; [exact Hc|reflexivity].
  - destruct (process_command_history command c w) as (appended & H & Ha).
    unfold core_of in H. rewrite H.
    apply forallb_deque_extend; [exact Hc|].
    destruct Ha as [->|[response ->]]; reflexivity.
  - destruct (process_audio_history a c w) as (appended & H & Ha).
    unfold core_of in H. rewrite H.
    apply forallb_deque_extend; assumption.
  - rewrite save_conversation_eq. cbv zeta.
    repeat match goal with
           | |- context [match ?x with _ => _ end] => destruct x
           end; exact Hc.
Qed.

(** X11: the calls of the engine other than [load_conversation] keep
    every buffered message a dict with both keys, whatever the server, the
    recogniser and the file system do; so after any run of such calls
    [query_llm] can assemble its prompt.  Only a loaded file can put a
    message into the buffer that [query_llm] cannot render. *)
Theorem buffer_stays_well_formed (ks : list call) c w :
  forallb not_a_load ks = true ->
  healthy c ->
  let c' := fst (run_calls py_repr json_dumps json_loads ks c w) in
  healthy c'
  /\ forall prompt,
       llm_context py_repr (name c') (conversation_history c') prompt
       = Ok (code_context py_repr (name c') (conversation_history c') prompt).
Proof.
  intros Hks Hc.
  assert (H : healthy (fst (run_calls py_repr json_dumps json_loads ks c w))).
  { revert c w Hc. induction ks as [|k ks IH]; intros c w Hc; [exact Hc|].
    simpl in Hks. apply andb_true_iff in Hks as [Hk Hks]. simpl.
    pose proof (healthy_run_call k c w Hk Hc) as H1.
    destruct (run_call py_repr json_dumps json_loads k c w) as [c1 w1].
    apply (IH Hks). exact H1. }
  cbv zeta. split; [exact H|]. intros prompt.
  apply llm_context_code_context. exact H.
Qed.

(** ** One request per query *)

(** X12: a call of [query_llm] sends at most one request, with no
    retry after a failure: exactly one when the prompt could be assembled,
    none when a buffered message could not be rendered. *)
Theorem query_llm_sends_one_request (prompt : string) c w :
  exists evs,
    trace (world_of (query_llm py_repr prompt c w)) = trace w ++ evs
    /\ count_requests evs =
       match llm_context py_repr (name c) (conversation_history c) prompt with
       | Ok _ => 1
       | Raise _ => 0
       end.
Proof.
  rewrite query_llm_eq. cbv zeta. unfold failure_event.
  repeat match goal with
         | |- context [match ?x with _ => _ end] => destruct x
         | |- context [if ?x then _ else _] => destruct x
         end;
    unfold world_of; simpl; rewrite <- ?app_assoc; simpl;
    eexists; (split; [reflexivity|reflexivity]).
Qed.

(** X13: when the server answers with status 200 and a JSON object,
    [query_llm] returns the value under "response" as it is, a string or
    not, and the default text when the object has no such key; it prints
    nothing and leaves the engine as it was. *)
Theorem query_llm_success (prompt context : string) c w
        (r : response number) (d : list (string * pyval number)) :
  llm_context py_repr (name c) (conversation_history c) prompt = Ok context ->
  server w (tick w) (request_data context) = Ok r ->
  status_code r = 200%Z ->
  json r = Ok (PDict d) ->
  query_llm py_repr prompt c w =
  (Ok match dict_get "response" d with
      | Some v => v
      | None => PStr "I'm sorry, I couldn't process that request."
      end,
   c,
   tick_world
     (emit_list [EnterQueryLLM prompt; RequestsPost ollama_url (request_data context)] w)).
Proof.
  intros Hc Hs H200 Hj. rewrite query_llm_eq. cbv zeta.
  rewrite Hc, Hs, H200. cbn [Z.eqb Pos.eqb].
  unfold reply_of_response. rewrite Hj. simpl.
  rewrite (emit_world_one (EnterQueryLLM prompt)), emit_world_emit_list.
  destruct (dict_get "response" d); reflexivity.
Qed.

(** ** The conversation paths *)

Lemma speak_events_set_history (h : list (pyval number)) c (v : pyval number) :
  speak_events py_repr (set_conversation_history h c) v = speak_events py_repr c v.
Proof. reflexivity. Qed.

Lemma handle_conversation_eq (user_input : string) c w :
  let n := max_context_length c in
  let c1 :=
    set_conversation_history
      (deque_append n (conversation_history c) (message "user" (PStr user_input))) c in
  exists v w',
    query_llm py_repr user_input c1 w = (Ok v, c1, w')
    /\ _handle_conversation py_repr user_input c w =
       (Ok tt,
        set_conversation_history
          (deque_extend n (conversation_history c)
             [message "user" (PStr user_input); message "assistant" v]) c,
        emit_list (speak_events py_repr c v) w').
Proof.
  cbv zeta.
  match goal with |- context [query_llm py_repr user_input ?c1 w] =>
    destruct (query_llm_returns py_repr user_input c1 w) as (v & w' & E) end.
  exists v, w'. split; [exact E|].
  unfold _handle_conversation, bind, history_append, update. cbn beta iota.
  rewrite E. cbn beta iota. rewrite speak_eq. reflexivity.
Qed.

(** X14: on the conversation path of [process_text_input] the reply
    of [query_llm] is returned and recorded after the user turn, and the
    engine speaks nothing, with privacy enabled or not: vocalising a typed
    conversation is left to the caller. *)
Theorem typed_conversation_is_not_spoken (text : string) c w :
  str_truthy text = true ->
  first_command py_repr (str_lower text) = None ->
  exists reply evs,
    value_of (process_text_input py_repr text c w) = Ok reply
    /\ conversation_history (core_of (process_text_input py_repr text c w))
       = deque_extend (max_context_length c) (conversation_history c)
           [message "user" (PStr text); message "assistant" reply]
    /\ trace (world_of (process_text_input py_repr text c w)) = trace w ++ evs
    /\ existsb is_speech evs = false.
Proof.
  intros Ht Hc. rewrite (process_text_input_fallback py_repr _ c w Ht Hc).
  cbv zeta.
  match goal with |- context [query_llm py_repr text ?c1 w] =>
    destruct (query_llm_returns py_repr text c1 w) as (v & w' & E);
    destruct (query_llm_trace py_repr text c1 w) as (evs & Et & Es) end.
  rewrite E in *. exists v, evs.
  split; [reflexivity|]. split; [reflexivity|]. split; [exact Et|].
  apply existsb_forallb_negb. exact Es.
Qed.

(** X15: when the request fails on the voice path, the apology is
    spoken and is recorded in the buffer as the assistant turn, so it is
    part of the prompt of the turns that follow. *)
Theorem failed_reply_is_recorded (user_input : string) (e : exn) c w :
  healthy c ->
  (forall data, server w (tick w) data = Raise e) ->
  let apology := PStr (failure_reply e) in
  exists w',
    _handle_conversation py_repr user_input c w =
    (Ok tt,
     set_conversation_history
       (deque_extend (max_context_length c) (conversation_history c)
          [message "user" (PStr user_input); message "assistant" apology]) c,
     w')
    /\ exists data,
         trace w' =
         trace w ++ [EnterQueryLLM user_input; RequestsPost ollama_url data;
                     failure_event e] ++ speak_events py_repr c apology.
Proof.
  intros Hc Hs. cbv zeta.
  destruct (handle_conversation_eq user_input c w) as (v & w' & E & H).
  rewrite H. rewrite query_llm_eq in E. cbv zeta in E.
  rewrite llm_context_code_context in E.
  2:{ cbn [conversation_history set_conversation_history].
      apply forallb_deque_append; [exact Hc|reflexivity]. }
  rewrite Hs in E. injection E as <- <-.
  eexists. split; [reflexivity|]. eexists.
  simpl. rewrite <- !app_assoc. reflexivity.
Qed.

Lemma rendered_app (name : string) (a b : list (pyval number)) :
  rendered py_repr name (a ++ b) = rendered py_repr name a +:+ rendered py_repr name b.
Proof.
  induction a as [|m a IH]; [reflexivity|].
  simpl. rewrite IH, str_app_assoc. reflexivity.
Qed.

Lemma deque_extend_room {A} n (xs d : list A) :
  length d + length xs <= n -> deque_extend n d xs = d ++ xs.
Proof.
  revert d. induction xs as [|x xs IH]; intros d H.
  - simpl. rewrite app_nil_r. reflexivity.
  - unfold deque_extend. simpl. simpl in H.
    rewrite deque_append_room by lia.
    change (deque_extend n (d ++ [x]) xs = d ++ x :: xs).
    rewrite IH by (rewrite length_app; simpl; lia).
    rewrite <- app_assoc. reflexivity.
Qed.

Lemma deque_extend_snoc {A} n (xs d : list A) x :
  deque_append n (deque_extend n d xs) x = deque_extend n d (xs ++ [x]).
Proof. unfold deque_extend. rewrite fold_left_app. reflexivity. Qed.

Lemma is_user_turn_message (prompt : string) :
  is_user_turn prompt (message (number := number) "user" (PStr prompt)) = true.
Proof.
  unfold is_user_turn, message. simpl. rewrite String.eqb_refl. reflexivity.
Qed.

Lemma code_context_own_turn (name prompt : string) n (d : list (pyval number)) :
  0 < n ->
  code_context py_repr name (deque_append n d (message "user" (PStr prompt))) prompt
  = rendered py_repr name (deque_append n d (message "user" (PStr prompt))).
Proof.
  intros Hn. unfold code_context.
  destruct (deque_append_snoc n d (message "user" (PStr prompt)) Hn) as (d' & -> & _).
  rewrite existsb_app. simpl. rewrite is_user_turn_message.
  rewrite orb_true_r. apply str_app_empty.
Qed.

(** X16: conversation turns compose: the request of a second voice
    turn carries the first exchange, user turn and reply, before the new
    user turn, and ends with the new user turn, without an assistant cue.
    When the buffer has room for the three messages the prompt is the
    former prompt lines followed by these three lines. *)
Theorem second_turn_sees_first_exchange (first second : string) c w :
  healthy c ->
  0 < max_context_length c ->
  let n := max_context_length c in
  let h := conversation_history c in
  let r1 := _handle_conversation py_repr first c w in
  exists reply rest,
    conversation_history (core_of r1)
    = deque_extend n h [message "user" (PStr first); message "assistant" reply]
    /\ trace (world_of (_handle_conversation py_repr second (core_of r1) (world_of r1)))
       = trace (world_of r1)
         ++ EnterQueryLLM second
         :: RequestsPost ollama_url
              (request_data
                 (rendered py_repr (name c)
                    (deque_extend n h
                       [message "user" (PStr first); message "assistant" reply;
                        message "user" (PStr second)])))
         :: rest
    /\ (length h + 3 <= n ->
        rendered py_repr (name c)
          (deque_extend n h
             [message "user" (PStr first); message "assistant" reply;
              message "user" (PStr second)])
        = rendered py_repr (name c) h
          +:+ "User: " +:+ first +:+ nl
          +:+ name c +:+ ": " +:+ py_str py_repr reply +:+ nl
          +:+ "User: " +:+ second +:+ nl).
Proof.
  intros Hc Hn. cbv zeta.
  destruct (handle_conversation_eq first c w) as (reply & w1 & _ & H1).
  rewrite H1. unfold core_of, world_of. cbn [fst snd].
  set (c1 := set_conversation_history _ c).
  destruct (handle_conversation_eq second c1 (emit_list (speak_events py_repr c reply) w1))
    as (v2 & w2 & E2 & H2).
  rewrite H2. cbn [fst snd].
  assert (Hh : healthy c1).
  { unfold healthy, c1. cbn [conversation_history set_conversation_history].
    apply forallb_deque_extend; [exact Hc|reflexivity]. }
  match type of E2 with query_llm _ _ ?c2 ?w0 = _ =>
    destruct (query_llm_request py_repr second c2 w0
                (code_context py_repr (name c2) (conversation_history c2) second))
      as (rest & Hr) end.
  { apply llm_context_code_context.
    cbn [conversation_history set_conversation_history].
    apply forallb_deque_append; [exact Hh|reflexivity]. }
  rewrite E2 in Hr. unfold world_of in Hr. cbn [snd] in Hr.
  cbn [conversation_history set_conversation_history name max_context_length] in Hr.
  unfold c1 in Hr.
  cbn [conversation_history set_conversation_history name max_context_length] in Hr.
  rewrite code_context_own_turn in Hr by exact Hn.
  rewrite deque_extend_snoc in Hr. cbn [app] in Hr.
  exists reply, (rest ++ speak_events py_repr c1 v2).
  split; [reflexivity|]. split.
  - cbn [trace emit_list]. rewrite Hr, <- app_assoc. reflexivity.
  - intros Hroom. rewrite deque_extend_room by (simpl; lia).
    rewrite rendered_app. simpl. unfold render_line, message. simpl.
    unfold role_prefix. simpl.
    rewrite !str_app_assoc, ?str_app_empty. reflexivity.
Qed.

(** X17: [tell_story] announces the story and speaks the reply to
    its fixed prompt; it leaves the whole engine as it was, so neither the
    story prompt nor the story enters the conversation buffer. *)
Theorem tell_story_is_not_recorded c w :
  let prompt := "Generate a short, engaging story (less than 100 words)" in
  let w0 := emit_list (speak_events py_repr c (PStr "Let me think of a story for you...")) w in
  exists story w1,
    query_llm py_repr prompt c w0 = (Ok story, c, w1)
    /\ tell_story py_repr c w = (Ok tt, c, emit_list (speak_events py_repr c story) w1).
Proof.
  cbv zeta.
  match goal with |- context [query_llm py_repr ?p c ?w0] =>
    destruct (query_llm_returns py_repr p c w0) as (story & w1 & E) end.
  exists story, w1. split; [exact E|].
  unfold tell_story, bind. rewrite speak_eq. cbn beta iota zeta.
  rewrite E. cbn beta iota. rewrite speak_eq. reflexivity.
Qed.

(** ** The commands *)

Lemma read_clock_strftime_table :
  forallb
    (fun h =>
       forallb
         (fun m =>
            match read_clock (strftime_IMp {| hour := h; minute := m |}) with
            | Some (h', m') => (h' =? h) && (m' =? m)
            | None => false
            end)
         (seq 0 60))
    (seq 0 24) = true.
Proof. vm_compute. reflexivity. Qed.

Lemma read_clock_strftime (t : datetime) :
  hour t < 24 -> minute t < 60 ->
  read_clock (strftime_IMp t) = Some (hour t, minute t).
Proof.
  intros Hh Hm. pose proof read_clock_strftime_table as H.
  rewrite forallb_forall in H.
  assert (Hin : In (hour t) (seq 0 24)) by (apply in_seq; lia).
  specialize (H _ Hin). rewrite forallb_forall in H.
  assert (Hin' : In (minute t) (seq 0 60)) by (apply in_seq; lia).
  specialize (H _ Hin').
  destruct t as [h m]. cbn [hour minute] in *.
  destruct (read_clock (strftime_IMp {| hour := h; minute := m |})) as [[h' m']|];
    [|discriminate].
  apply andb_true_iff in H as [H1 H2].
  apply Nat.eqb_eq in H1, H2. subst. reflexivity.
Qed.

(** X18: what [tell_time] speaks is the time of the clock, in the
    12-hour form: for a clock that reads an hour below 24 and a minute
    below 60, the text after "The current time is " has the form
    [HH:MM AM] or [HH:MM PM], with an hour from 01 to 12 and a minute from
    00 to 59, and read back it gives the hour and the minute of the clock;
    the engine is unchanged. *)
Theorem tell_time_speaks_a_clock_text c w :
  let now := clock w (tick w) in
  hour now < 24 ->
  minute now < 60 ->
  exists text,
    tell_time py_repr c w =
    (Ok tt, c,
     emit_list (speak_events py_repr c (PStr ("The current time is " +:+ text)))
       (tick_world w))
    /\ read_clock text = Some (hour now, minute now).
Proof.
  cbv zeta. intros Hh Hm. exists (strftime_IMp (clock w (tick w))). split.
  - unfold tell_time, bind, datetime_now. cbn beta iota zeta.
    rewrite speak_eq. reflexivity.
  - apply read_clock_strftime; assumption.
Qed.

Lemma help_loop_later (i : nat) (keys : list string) (help_text : string) :
  help_loop (S i) keys help_text
  = match keys with
    | [] => help_text
    | _ => help_text +:+ ", " +:+ Ref.join ", " keys
    end.
Proof.
  revert i help_text. induction keys as [|cmd keys IH]; intros i help_text.
  - reflexivity.
  - change (help_loop (S (S i)) keys ((help_text +:+ ", ") +:+ cmd)
            = help_text +:+ ", " +:+ Ref.join ", " (cmd :: keys)).
    rewrite IH. destruct keys as [|cmd' keys].
    + simpl. rewrite !str_app_assoc. reflexivity.
    + change (Ref.join ", " (cmd :: cmd' :: keys))
        with (cmd +:+ ", " +:+ Ref.join ", " (cmd' :: keys)).
      rewrite !str_app_assoc. reflexivity.
Qed.

Lemma help_loop_join (keys : list string) (help_text : string) :
  help_loop 0 keys help_text = help_text +:+ Ref.join ", " keys.
Proof.
  destruct keys as [|cmd keys].
  - simpl. rewrite str_app_empty. reflexivity.
  - change (help_loop 1 keys (help_text +:+ cmd)
            = help_text +:+ Ref.join ", " (cmd :: keys)).
    rewrite help_loop_later. destruct keys as [|cmd' keys].
    + reflexivity.
    + change (Ref.join ", " (cmd :: cmd' :: keys))
        with (cmd +:+ ", " +:+ Ref.join ", " (cmd' :: keys)).
      rewrite !str_app_assoc. reflexivity.
Qed.

(** X19: the loop of [show_help] builds the introduction followed
    by the keys joined with ", ", with no separator before the first key
    and none after the last, for any list of keys; and the keys it lists
    are the triggers of the command table, in the order of the table. *)
Theorem show_help_lists_the_triggers c w :
  (forall keys help_text,
     help_loop 0 keys help_text = help_text +:+ Ref.join ", " keys)
  /\ show_help py_repr c w =
     (Ok tt, c,
      emit_list
        (speak_events py_repr c
           (PStr ("Here are some commands you can use: "
                  +:+ Ref.join ", " (map fst (commands py_repr)))))
        w).
Proof.
  split; [exact help_loop_join|].
  unfold show_help. rewrite speak_eq, help_loop_join. reflexivity.
Qed.

Lemma find_first {A} (f : A -> bool) (l : list A) :
  match find f l with
  | Some x =>
      exists before after,
        l = before ++ x :: after /\ f x = true
        /\ forall y, In y before -> f y = false
  | None => forall y, In y l -> f y = false
  end.
Proof.
  induction l as [|a l IH]; simpl.
  - intros y [].
  - destruct (f a) eqn:E.
    + exists [], l. split; [reflexivity|]. split; [exact E|]. intros y [].
    + destruct (find f l) as [x|].
      * destruct IH as (before & after & -> & Hx & Hb).
        exists (a :: before), after. split; [reflexivity|]. split; [exact Hx|].
        intros y [<-|Hy]; [exact E|exact (Hb y Hy)].
      * intros y [<-|Hy]; [exact E|exact (IH y Hy)].
Qed.

(** X20: the command that runs is the first entry of the table, in
    the order of the table, whose trigger occurs in the text, and none
    runs only when no trigger occurs; and no trigger hides another: a text
    that is a trigger, no more, runs the handler of that trigger. *)
Theorem first_command_precedence (text : string) :
  match first_command py_repr text with
  | Some (cmd, func) =>
      exists before after,
        commands py_repr = before ++ (cmd, func) :: after
        /\ str_in cmd text = true
        /\ forall entry, In entry before -> str_in (fst entry) text = false
  | None => forall entry, In entry (commands py_repr) -> str_in (fst entry) text = false
  end
  /\ Forall (fun entry => first_command py_repr (fst entry) = Some entry)
       (commands py_repr).
Proof.
  split.
  - unfold first_command.
    pose proof (find_first (fun entry : string * M number unit => str_in (fst entry) text)
                  (commands py_repr)) as H.
    destruct (find _ (commands py_repr)) as [[cmd func]|]; exact H.
  - unfold commands. repeat constructor.
Qed.

(** ** Saving and loading *)



(** ** The window of [friday_app.py] *)

Lemma reload_messages_turns (turns : list (string * pyval number)) :
  reload_messages (map (fun t => message (fst t) (snd t)) turns)
  = (map (fun t => if String.eqb (fst t) "user" then UserMessage (snd t)
                   else AssistantMessage (snd t)) turns,
     None).
Proof.
  induction turns as [|[role content] turns IH]; [reflexivity|].
  simpl. simpl in IH. rewrite IH. reflexivity.
Qed.

Lemma reload_messages_malformed (history : list (pyval number)) :
  forallb well_formed history = false ->
  exists shown e,
    reload_messages history = (shown, Some e)
    /\ length shown < length history.
Proof.
  induction history as [|m history IH]; [discriminate|].
  simpl. unfold well_formed at 1, has_key.
  destruct (getitem m "role") as [role|e1]; [|intros _; exists [], e1; simpl; split; [reflexivity|lia]].
  destruct (getitem m "content") as [content|e2]; [|intros _; exists [], e2; simpl; split; [reflexivity|lia]].
  simpl. intros H. destruct (IH H) as (shown & e & -> & Hl).
  eexists _, e. split; [reflexivity|]. simpl. lia.
Qed.

(** X23: when the file holds a session of messages with a role and
    a content, [load_chat] clears the chat and shows the messages the
    engine kept, in their order, a message of role "user" as a user
    message and a message of any other role as an assistant message, and
    then reports the load. *)
Theorem load_chat_shows_the_session (file_path : string) c w (wr : bool)
        (data : string) (loaded : pyval number) (items : list (pyval number))
        (turns : list (string * pyval number)) :
  str_truthy file_path = true ->
  fs w !! file_path = Some (File true wr data) ->
  json_loads data = Some loaded ->
  py_iter loaded = Ok items ->
  last_n (max_context_length c) items = map (fun t => message (fst t) (snd t)) turns ->
  load_chat json_loads file_path c w =
  (ChatCleared
   :: map (fun t => if String.eqb (fst t) "user" then UserMessage (snd t)
                    else AssistantMessage (snd t)) turns
   ++ [SystemMessage ("Chat history loaded from " +:+ file_path)],
   set_conversation_history (last_n (max_context_length c) items) c, w).
Proof.
  intros Hp Hf Hj Hi Ht. unfold load_chat. rewrite Hp. cbn [negb].
  rewrite load_conversation_eq, Hf, Hj, Hi.
  cbn [conversation_history set_conversation_history].
  rewrite deque_extend_last_n by (simpl; lia). cbn [app].
  rewrite Ht, reload_messages_turns. reflexivity.
Qed.

(** X24: when a message the engine kept from the file lacks a role
    or a content, [load_chat] reports "Error loading chat" after it cleared
    the chat and showed the messages before the faulty one; the engine
    holds the loaded buffer all the same, the faulty message included. *)
Theorem load_chat_reports_error_after_replacing (file_path : string) c w (wr : bool)
        (data : string) (loaded : pyval number) (items : list (pyval number)) :
  str_truthy file_path = true ->
  fs w !! file_path = Some (File true wr data) ->
  json_loads data = Some loaded ->
  py_iter loaded = Ok items ->
  forallb well_formed (last_n (max_context_length c) items) = false ->
  exists shown e,
    load_chat json_loads file_path c w =
    (ChatCleared :: shown ++ [SystemError "Error loading chat: " e],
     set_conversation_history (last_n (max_context_length c) items) c, w)
    /\ length shown < length (last_n (max_context_length c) items).
Proof.
  intros Hp Hf Hj Hi Hw. unfold load_chat. rewrite Hp. cbn [negb].
  rewrite load_conversation_eq, Hf, Hj, Hi.
  cbn [conversation_history set_conversation_history].
  rewrite deque_extend_last_n by (simpl; lia). cbn [app].
  destruct (reload_messages_malformed _ Hw) as (shown & e & -> & Hl).
  exists shown, e. split; [reflexivity|exact Hl].
Qed.

(** ** The loader of [optimi_fridayapp.py] *)

(** X26: the loader of the second window accepts a file exactly
    when it can be read and holds a JSON array whose elements all have a
    role and a content; it then installs the array as it is, and in every
    other case it leaves the history of the window as it was. *)
Theorem load_chat_history_accepts_sessions_only (filepath : string)
        (chat_history : list (pyval number)) w :
  let r := load_chat_history json_loads filepath chat_history w in
  (fst r = true <->
   exists wr data items,
     fs w !! filepath = Some (File true wr data)
     /\ json_loads data = Some (PList items)
     /\ forallb well_formed items = true
     /\ snd r = items)
  /\ (fst r = false -> snd r = chat_history).
Proof.
  cbv zeta. unfold load_chat_history.
  destruct (fs w !! filepath) as [[|[|] wr data]|] eqn:Ef;
    try (split; [split; [discriminate|intros (? & ? & ? & ? & _); congruence]
                |reflexivity]).
  destruct (json_loads data) as [v|] eqn:Ej.
  2:{ split; [split; [discriminate|]|reflexivity].
      intros (wr' & data' & items & Hf & Hj & _). congruence. }
  destruct (session_shape v) eqn:Es; cbn [negb].
  - destruct v as [| | | |items|]; try discriminate Es. cbn [fst snd].
    split; [|discriminate].
    split; [|reflexivity]. intros _. exists wr, data, items. auto.
  - cbn [fst snd]. split; [|reflexivity]. split; [discriminate|].
    intros (wr' & data' & items & Hf & Hj & Hw & _).
    assert (v = PList items) as -> by congruence.
    simpl in Es. congruence.
Qed.

End FurtherProperties.

(** * The further properties at work on the reference instance *)

Import Voice.

Lemma analyze_sentiment_unhappy_is_happy_witness :
  str_in "unhappy" (str_lower "I am UNHAPPY and sad") = true
  /\ analyze_sentiment "I am UNHAPPY and sad" = "happy".
Proof.
  split; [reflexivity|].
  apply (analyze_sentiment_unhappy_is_happy "I am UNHAPPY and sad"). reflexivity.
Defined.

Lemma analyze_sentiment_ignores_case_witness :
  str_lower "SO SAD" = str_lower "so sad"
  /\ analyze_sentiment "SO SAD" = analyze_sentiment "so sad".
Proof.
  split; [reflexivity|].
  destruct (analyze_sentiment_ignores_case "so sad" "SO SAD") as [_ H].
  apply H. reflexivity.
Defined.

Lemma wake_command_is_stripped_witness :
  wake_command "friday" "hey friday   tell me a story  " = Some "tell me a story"
  /\ str_lstrip "tell me a story" = "tell me a story"
  /\ str_rstrip "tell me a story" = "tell me a story".
Proof.
  split; [reflexivity|].
  apply (wake_command_is_stripped "friday" "hey friday   tell me a story  ").
  reflexivity.
Defined.

Lemma process_audio_without_wake_word_witness :
  recognize (heard "What a nice day") = Some "What a nice day"
  /\ str_in (wake_word friday) (str_lower "What a nice day") = false
  /\ _process_audio Ref.repr (heard "What a nice day") friday world0 =
     (Ok tt, friday, emit_world (Print "Recognized: what a nice day") world0)
  /\ recognize noise = None
  /\ _process_audio Ref.repr noise friday world0 = (Ok tt, friday, world0).
Proof.
  split; [reflexivity|]. split; [reflexivity|]. split; [|split; [reflexivity|]].
  - apply (process_audio_without_wake_word Ref.repr (heard "What a nice day")
             friday world0).
    reflexivity.
  - exact (process_audio_without_wake_word Ref.repr noise friday world0).
Defined.

Lemma process_audio_bare_wake_word_witness :
  recognize (heard "Hey Friday") = Some "Hey Friday"
  /\ str_lower "Hey Friday" = "hey " +:+ wake_word friday
  /\ _process_audio Ref.repr (heard "Hey Friday") friday world0 =
     (Ok tt, friday,
      emit_list [Print "Recognized: hey friday"; Print "FRIDAY: How can I help you?";
                 EngineSay (PStr "How can I help you?"); EngineRunAndWait] world0).
Proof.
  split; [reflexivity|]. split; [reflexivity|].
  apply (process_audio_bare_wake_word Ref.repr (heard "Hey Friday") "Hey Friday"
           friday world0).
  - reflexivity.
  - right. reflexivity.
Defined.

Lemma voice_command_is_not_recorded_witness :
  first_command Ref.repr "what time is it" = Some ("what time is it", tell_time Ref.repr)
  /\ _process_command Ref.repr "what time is it" (friday_with chat) world0
     = tell_time Ref.repr (friday_with chat) world0
  /\ value_of (_process_command Ref.repr "what time is it" (friday_with chat) world0)
     = Ok tt
  /\ conversation_history
       (core_of (_process_command Ref.repr "what time is it" (friday_with chat) world0))
     = chat.
Proof.
  split; [reflexivity|].
  apply (voice_command_is_not_recorded Ref.repr "what time is it" "what time is it"
           (tell_time Ref.repr) (friday_with chat) world0).
  reflexivity.
Defined.

Lemma privacy_silences_every_input_witness :
  privacy_mode private = true
  /\ str_in "privacy shield" (str_lower "Tell me a story") = false
  /\ str_in "privacy mode" (str_lower "Tell me a story") = false
  /\ (privacy_mode (core_of (process_text_input Ref.repr "Tell me a story" private world0))
      = true
      /\ exists evs,
           trace (world_of (process_text_input Ref.repr "Tell me a story" private world0))
           = trace world0 ++ evs
           /\ existsb is_speech evs = false)
  /\ (privacy_mode (core_of (_process_command Ref.repr "goodbye" private world0)) = true
      /\ exists evs,
           trace (world_of (_process_command Ref.repr "goodbye" private world0))
           = trace world0 ++ evs
           /\ existsb is_speech evs = false).
Proof.
  split; [reflexivity|]. split; [reflexivity|]. split; [reflexivity|].
  apply (privacy_silences_every_input Ref.repr "Tell me a story" "goodbye"
           private world0); reflexivity.
Defined.


Lemma buffer_stays_well_formed_witness :
  let ks := [Call_process_text_input "hello"; Call_process_audio (heard "friday help");
             Call_save_conversation "chat.json"] in
  let c' := fst (run_calls Ref.repr Ref.dumps Ref.loads ks friday world0) in
  forallb not_a_load ks = true
  /\ healthy friday
  /\ healthy c'
  /\ forall prompt,
       llm_context Ref.repr (name c') (conversation_history c') prompt
       = Ok (code_context Ref.repr (name c') (conversation_history c') prompt).
Proof.
  cbv zeta. split; [reflexivity|]. split; [reflexivity|].
  apply (buffer_stays_well_formed Ref.repr Ref.dumps Ref.loads
           [Call_process_text_input "hello"; Call_process_audio (heard "friday help");
            Call_save_conversation "chat.json"] friday world0);
    reflexivity.
Defined.

Lemma query_llm_success_witness :
  let context := "User: hello" +:+ nl +:+ "FRIDAY: " in
  llm_context Ref.repr (name friday) (conversation_history friday) "hello" = Ok context
  /\ query_llm Ref.repr "hello" friday (replying "Hi there") =
     (Ok (PStr "Hi there"), friday,
      tick_world
        (emit_list [EnterQueryLLM "hello"; RequestsPost ollama_url (request_data context)]
           (replying "Hi there"))).
Proof.
  cbv zeta. split; [reflexivity|].
  apply (query_llm_success Ref.repr "hello" ("User: hello" +:+ nl +:+ "FRIDAY: ")
           friday (replying "Hi there")
           {| status_code := 200; json := Ok (PDict [("response", PStr "Hi there")]) |}
           [("response", PStr "Hi there")]);
    reflexivity.
Defined.

Lemma typed_conversation_is_not_spoken_witness :
  str_truthy "Good morning" = true
  /\ first_command Ref.repr (str_lower "Good morning") = None
  /\ exists reply evs,
       value_of (process_text_input Ref.repr "Good morning" friday (replying "Hi there"))
       = Ok reply
       /\ conversation_history
            (core_of (process_text_input Ref.repr "Good morning" friday
                        (replying "Hi there")))
          = deque_extend (max_context_length friday) (conversation_history friday)
              [message "user" (PStr "Good morning"); message "assistant" reply]
       /\ trace (world_of (process_text_input Ref.repr "Good morning" friday
                             (replying "Hi there")))
          = trace (replying "Hi there") ++ evs
       /\ existsb is_speech evs = false.
Proof.
  split; [reflexivity|]. split; [reflexivity|].
  apply (typed_conversation_is_not_spoken Ref.repr "Good morning" friday
           (replying "Hi there")); reflexivity.
Defined.

Lemma failed_reply_is_recorded_witness :
  healthy friday
  /\ (forall data, server world0 (tick world0) data = Raise RequestException)
  /\ exists w',
       _handle_conversation Ref.repr "hello" friday world0 =
       (Ok tt,
        friday_with
          [message "user" (PStr "hello");
           message "assistant"
             (PStr "I'm having trouble connecting to my language model. Is Ollama running?")],
        w').
Proof.
  split; [reflexivity|]. split; [intros data; reflexivity|].
  destruct (failed_reply_is_recorded Ref.repr "hello" RequestException friday world0)
    as (w' & H & _); [reflexivity|intros data; reflexivity|].
  exists w'. exact H.
Defined.

Lemma second_turn_sees_first_exchange_witness :
  let r1 := _handle_conversation Ref.repr "hello" friday (replying "Hi there") in
  healthy friday
  /\ 0 < max_context_length friday
  /\ exists reply rest,
       conversation_history (core_of r1)
       = [message "user" (PStr "hello"); message "assistant" reply]
       /\ trace (world_of (_handle_conversation Ref.repr "how are you"
                             (core_of r1) (world_of r1)))
          = trace (world_of r1)
            ++ EnterQueryLLM "how are you"
            :: RequestsPost ollama_url
                 (request_data
                    (rendered Ref.repr "FRIDAY"
                       [message "user" (PStr "hello"); message "assistant" reply;
                        message "user" (PStr "how are you")]))
            :: rest.
Proof.
  cbv zeta. split; [reflexivity|]. split; [simpl; lia|].
  destruct (second_turn_sees_first_exchange Ref.repr "hello" "how are you" friday
              (replying "Hi there"))
    as (reply & rest & H1 & H2 & _); [reflexivity|simpl; lia|].
  exists reply, rest. split; [exact H1|exact H2].
Defined.

Lemma tell_time_speaks_a_clock_text_witness :
  hour (clock world0 (tick world0)) = 15
  /\ minute (clock world0 (tick world0)) = 7
  /\ exists text,
       tell_time Ref.repr friday world0 =
       (Ok tt, friday,
        emit_list (speak_events Ref.repr friday (PStr ("The current time is " +:+ text)))
          (tick_world world0))
       /\ read_clock text = Some (15, 7).
Proof.
  split; [reflexivity|]. split; [reflexivity|].
  apply (tell_time_speaks_a_clock_text Ref.repr friday world0); simpl; lia.
Defined.



Lemma load_chat_shows_the_session_witness :
  let data := Ref.dumps (PList chat) in
  let w := world_with_file "chat.json" data in
  load_chat Ref.loads "chat.json" friday w =
  ([ChatCleared; UserMessage (PStr "hi"); AssistantMessage (PStr "hello");
    SystemMessage "Chat history loaded from chat.json"],
   friday_with chat, w).
Proof.
  cbv zeta.
  apply (load_chat_shows_the_session Ref.loads "chat.json" friday
           (world_with_file "chat.json" (Ref.dumps (PList chat)))
           true (Ref.dumps (PList chat)) (PList chat) chat
           [("user", PStr "hi"); ("assistant", PStr "hello")]).
  - reflexivity.
  - simpl. rewrite lookup_insert_eq. reflexivity.
  - reflexivity.
  - reflexivity.
  - reflexivity.
Defined.

Lemma load_chat_reports_error_after_replacing_witness :
  let faulty : pyval Z := PDict [("role", PStr "user")] in
  let items := [message "user" (PStr "hi"); faulty] in
  let w := world_with_file "chat.json" (Ref.dumps (PList items)) in
  exists shown e,
    load_chat Ref.loads "chat.json" friday w =
    (ChatCleared :: shown ++ [SystemError "Error loading chat: " e],
     friday_with items, w)
    /\ length shown < 2.
Proof.
  cbv zeta.
  apply (load_chat_reports_error_after_replacing Ref.loads "chat.json" friday
           (world_with_file "chat.json"
              (Ref.dumps (PList [message "user" (PStr "hi"); PDict [("role", PStr "user")]])))
           true
           (Ref.dumps (PList [message "user" (PStr "hi"); PDict [("role", PStr "user")]]))
           (PList [message "user" (PStr "hi"); PDict [("role", PStr "user")]])
           [message "user" (PStr "hi"); PDict [("role", PStr "user")]]).
  - reflexivity.
  - simpl. rewrite lookup_insert_eq. reflexivity.
  - reflexivity.
  - reflexivity.
  - reflexivity.
Defined.

Lemma load_chat_history_accepts_sessions_only_witness :
  let data := Ref.dumps (PList chat) in
  fst (load_chat_history Ref.loads "chat.json" [] (world_with_file "chat.json" data))
  = true
  /\ snd (load_chat_history Ref.loads "chat.json" chat (world_with_file "chat.json" "[1]"))
     = chat.
Proof.
  cbv zeta. split.
  - apply (load_chat_history_accepts_sessions_only Ref.loads "chat.json" []
             (world_with_file "chat.json" (Ref.dumps (PList chat)))).
    exists true, (Ref.dumps (PList chat)), chat.
    split; [simpl; rewrite lookup_insert_eq; reflexivity|].
    split; [reflexivity|]. split; reflexivity.
  - apply (load_chat_history_accepts_sessions_only Ref.loads "chat.json" chat
             (world_with_file "chat.json" "[1]")).
    reflexivity.
Defined.
